(** * LX Thermals: the sensor acquisition and aggregation core of [thermals.py]

    A shallow embedding of the logic of [thermals.py] (hardware name helpers,
    hwmon readers, clock and fan readers, colour thresholds, the [update]
    loop) together with the properties of its specification.

    Modelling conventions.
    - A Python [str] is a [string]; only the ASCII behaviour of [isspace],
      [lower] and [splitlines] is modelled (other characters are ordinary,
      non-blank, caseless characters).
    - Python numbers are exact rationals ([Q]): [int(s) / 1000] is the
      rational quotient.  Rounding and overflow of binary floating point are
      not modelled; every comparison made by the program is between finite
      values, whose order is that of the rationals they denote.
    - A raised exception is the [Raise] outcome of a [result]; [try/except
      Exception] is [try_except].
    - The file system is a read-only tree [node], fixed for the duration of
      one call; symbolic links are taken as already resolved.  An entry is a
      readable text file, something that exists and cannot be read, or a
      directory that can be listed or not; [exists()] itself never raises.
    - A Qt tree item is the record of what was last written to its columns;
      a column holds the number that was formatted into it. *)

From Stdlib Require Import Bool List Arith ZArith QArith Lia Lqa.
From Stdlib Require Import Ascii String.
Import ListNotations.

Close Scope Q_scope.
Open Scope string_scope.
Open Scope list_scope.
Open Scope nat_scope.

(* ================================================================== *)
(** ** Exceptions *)

Inductive exn : Type :=
| OSError        (* read_text on something that exists but cannot be read *)
| FileNotFoundError
| ValueError     (* int() on text that is not an integer literal *)
| IndexError.    (* subscript out of range *)

Inductive result (A : Type) : Type :=
| Ok (a : A)
| Raise (e : exn).
Arguments Ok {A} a.
Arguments Raise {A} e.

Definition rbind {A B} (m : result A) (k : A -> result B) : result B :=
  match m with
  | Ok a => k a
  | Raise e => Raise e
  end.

Declare Scope py_scope.
Delimit Scope py_scope with py.
Notation "x <- m ;; k" := (rbind m (fun x => k))
  (at level 61, m at next level, right associativity) : py_scope.
Notation "' pat <- m ;; k" := (rbind m (fun x => match x with pat => k end))
  (at level 61, pat pattern, m at next level, right associativity) : py_scope.

(** [try: body  except Exception: pass] followed by [return fallback]. *)
Definition try_except {A} (body : result (option A)) (fallback : A) : result A :=
  match body with
  | Ok (Some a) => Ok a
  | Ok None => Ok fallback
  | Raise _ => Ok fallback
  end.

(* ================================================================== *)
(** ** Python strings *)

Module PyStr.

Definition chr (n : nat) : ascii := ascii_of_nat n.
Definition TAB : ascii := chr 9.
Definition LF : ascii := chr 10.
Definition CR : ascii := chr 13.

(** [str.isspace] on one ASCII character: TAB LF VT FF CR, FS GS RS US, space. *)
Definition isspace (c : ascii) : bool :=
  let n := nat_of_ascii c in
  ((9 <=? n) && (n <=? 13)) || ((28 <=? n) && (n <=? 32)).

(** Line boundaries of [str.splitlines] other than CR: LF VT FF FS GS RS. *)
Definition islinebreak (c : ascii) : bool :=
  let n := nat_of_ascii c in
  ((10 <=? n) && (n <=? 12)) || ((28 <=? n) && (n <=? 30)).

Definition isdigit (c : ascii) : bool :=
  let n := nat_of_ascii c in (48 <=? n) && (n <=? 57).

Definition lower_char (c : ascii) : ascii :=
  let n := nat_of_ascii c in
  if (65 <=? n) && (n <=? 90) then ascii_of_nat (n + 32) else c.

(** [s.lower()] *)
Fixpoint lower (s : string) : string :=
  match s with
  | EmptyString => EmptyString
  | String c s' => String (lower_char c) (lower s')
  end.

(** [s.startswith(p)] *)
Definition startswith (s p : string) : bool := String.prefix p s.

(** [bool(s)]: a string is true when it is not empty. *)
Definition truthy (s : string) : bool :=
  match s with EmptyString => false | _ => true end.

Fixpoint lstrip (s : string) : string :=
  match s with
  | EmptyString => EmptyString
  | String c s' => if isspace c then lstrip s' else s
  end.

Fixpoint rstrip (s : string) : string :=
  match s with
  | EmptyString => EmptyString
  | String c s' =>
      match rstrip s' with
      | EmptyString => if isspace c then EmptyString else String c EmptyString
      | r => String c r
      end
  end.

(** [s.strip()] *)
Definition strip (s : string) : string := rstrip (lstrip s).

(** The first whitespace-free word of [s] and what follows it. *)
Fixpoint span_word (s : string) : string * string :=
  match s with
  | EmptyString => (EmptyString, EmptyString)
  | String c s' =>
      if isspace c then (EmptyString, s)
      else let (w, r) := span_word s' in (String c w, r)
  end.

(** [s.split(maxsplit=1)]: blanks are skipped, one word is cut off, and what
    follows it, without its leading blanks, is the second part when it is not
    empty (its trailing blanks are kept). *)
Definition split_ws1 (s : string) : list string :=
  match lstrip s with
  | EmptyString => []
  | t =>
      let (w, r) := span_word t in
      match lstrip r with
      | EmptyString => [w]
      | r' => [w; r']
      end
  end.

(** [s.split(sep, 1)] for a one-character separator. *)
Fixpoint split_char1 (sep : ascii) (s : string) : list string :=
  match s with
  | EmptyString => [EmptyString]
  | String c s' =>
      if Ascii.eqb c sep then [EmptyString; s']
      else match split_char1 sep s' with
           | h :: t => String c h :: t
           | [] => []
           end
  end.

(** [s.replace(old, new)] for a non-empty [old]: occurrences are replaced from
    the left and do not overlap; [skip] counts the characters of an occurrence
    still to be dropped. *)
Fixpoint replace_from (old new : string) (skip : nat) (s : string) : string :=
  match s with
  | EmptyString => EmptyString
  | String c s' =>
      match skip with
      | S k => replace_from old new k s'
      | O =>
          if String.prefix old s
          then new ++ replace_from old new (String.length old - 1) s'
          else String c (replace_from old new 0 s')
      end
  end.

Definition replace (s old new : string) : string := replace_from old new 0 s.

(** [s.splitlines()]: [cur] is the line read so far.  A boundary closes the
    line, CR LF is one boundary, and what follows the last boundary is a line
    only when it is not empty. *)
Fixpoint splitlines_from (cur : string) (s : string) : list string :=
  match s with
  | EmptyString => match cur with EmptyString => [] | _ => [cur] end
  | String c s' =>
      if Ascii.eqb c CR then
        match s' with
        | String c' s'' =>
            if Ascii.eqb c' LF then cur :: splitlines_from EmptyString s''
            else cur :: splitlines_from EmptyString s'
        | EmptyString => [cur]
        end
      else if islinebreak c then cur :: splitlines_from EmptyString s'
      else splitlines_from (cur ++ String c EmptyString) s'
  end.

Definition splitlines (s : string) : list string := splitlines_from EmptyString s.

(** Digits with single underscores between them, as [int] accepts them;
    [acc] is the value read so far and [prev_digit] tells whether the previous
    character was a digit. *)
Fixpoint digits_value (acc : Z) (prev_digit : bool) (s : string) : option Z :=
  match s with
  | EmptyString => if prev_digit then Some acc else None
  | String c s' =>
      if isdigit c
      then digits_value (acc * 10 + Z.of_nat (nat_of_ascii c - 48)) true s'
      else if Ascii.eqb c "_" && prev_digit
           then match s' with
                | String c' _ => if isdigit c' then digits_value acc false s' else None
                | EmptyString => None
                end
           else None
  end%Z.

(** [int(s)]: surrounding blanks, an optional sign, decimal digits. *)
Definition int (s : string) : result Z :=
  match strip s with
  | String "-" t =>
      match digits_value 0 false t with Some n => Ok (- n)%Z | None => Raise ValueError end
  | String "+" t =>
      match digits_value 0 false t with Some n => Ok n | None => Raise ValueError end
  | t =>
      match digits_value 0 false t with Some n => Ok n | None => Raise ValueError end
  end.

(** The last position of [c] in [s], as [s.rfind(c)]. *)
Fixpoint rfind (c : ascii) (s : string) : option nat :=
  match s with
  | EmptyString => None
  | String c' s' =>
      match rfind c s' with
      | Some i => Some (S i)
      | None => if Ascii.eqb c' c then Some 0 else None
      end
  end.

End PyStr.

(** [l[i]] *)
Definition subscript {A} (l : list A) (i : nat) : result A :=
  match nth_error l i with
  | Some a => Ok a
  | None => Raise IndexError
  end.

(* ================================================================== *)
(** ** The file system seen through [pathlib] *)

(** What a name in a directory leads to: a text file that can be read, an
    entry that exists but whose [read_text] fails, or a directory, which can
    be listed or not. *)
#[warnings="-register-all"]
Inductive node : Type :=
| File (text : string)
| Unreadable
| Dir (listable : bool) (entries : list (string * node)).

(** A path is the list of its components below the root. *)
Definition path : Type := list string.

Fixpoint lookup_entry (name : string) (es : list (string * node)) : option node :=
  match es with
  | [] => None
  | (n, x) :: es' => if String.eqb n name then Some x else lookup_entry name es'
  end.

Fixpoint resolve (fs : node) (p : path) : option node :=
  match p with
  | [] => Some fs
  | c :: p' =>
      match fs with
      | Dir _ es =>
          match lookup_entry c es with
          | Some x => resolve x p'
          | None => None
          end
      | _ => None
      end
  end.

(** [p.exists()] *)
Definition exists_ (fs : node) (p : path) : bool :=
  match resolve fs p with Some _ => true | None => false end.

(** [p.read_text()] *)
Definition read_text (fs : node) (p : path) : result string :=
  match resolve fs p with
  | Some (File t) => Ok t
  | Some _ => Raise OSError
  | None => Raise FileNotFoundError
  end.

(** Glob patterns: a literal character, [*], or a range such as [[0-9]]. *)
Inductive pat_item : Type :=
| PChar (c : ascii)
| PStar
| PRange (lo hi : ascii).

Fixpoint lit (s : string) : list pat_item :=
  match s with
  | EmptyString => []
  | String c s' => PChar c :: lit s'
  end.

Fixpoint fnmatch (pat : list pat_item) (s : string) : bool :=
  match pat with
  | [] => match s with EmptyString => true | _ => false end
  | PChar c :: pat' =>
      match s with
      | String c' s' => Ascii.eqb c c' && fnmatch pat' s'
      | EmptyString => false
      end
  | PRange lo hi :: pat' =>
      match s with
      | String c' s' =>
          (nat_of_ascii lo <=? nat_of_ascii c') && (nat_of_ascii c' <=? nat_of_ascii hi)
          && fnmatch pat' s'
      | EmptyString => false
      end
  | PStar :: pat' =>
      (fix star (t : string) : bool :=
         fnmatch pat' t ||
         match t with
         | String _ t' => star t'
         | EmptyString => false
         end) s
  end.

(** [p.glob(pat)]: the entries of the directory whose names match, in the
    order of the directory; nothing when [p] is not a directory that can be
    listed. *)
Definition glob (fs : node) (p : path) (pat : list pat_item) : list path :=
  match resolve fs p with
  | Some (Dir true es) =>
      map (fun e => p ++ [fst e]) (filter (fun e => fnmatch pat (fst e)) es)
  | _ => []
  end.

(** [p.name] *)
Definition name (p : path) : string := last p EmptyString.

(** [p.stem]: the name without its last suffix. *)
Definition stem (p : path) : string :=
  let n := name p in
  match PyStr.rfind "." n with
  | Some i => if (0 <? i) && (i <? String.length n - 1) then String.substring 0 i n else n
  | None => n
  end.

(* ================================================================== *)
(** ** Configuration *)

Definition CPU_HWMON : path := ["sys"; "class"; "hwmon"; "hwmon4"].
Definition GPU_HWMONS : list path :=
  [ ["sys"; "class"; "hwmon"; "hwmon2"];
    ["sys"; "class"; "hwmon"; "hwmon3"] ].
Definition NVME_HWMON : path := ["sys"; "class"; "hwmon"; "hwmon1"].
Definition PCI_IDS : path := ["usr"; "share"; "misc"; "pci.ids"].

(* ================================================================== *)
(** ** Hardware name helpers *)

Definition TABS : string := String PyStr.TAB EmptyString.

(** The loop of [get_cpu_name]: [Ok (Some _)] is a [return] from inside the
    loop, [Ok None] is the loop running to its end. *)
Fixpoint cpu_name_scan (lines : list string) : result (option string) :=
  match lines with
  | [] => Ok None
  | line :: rest =>
      if PyStr.startswith line "model name"
      then (v <- subscript (PyStr.split_char1 ":" line) 1 ;; Ok (Some (PyStr.strip v)))%py
      else cpu_name_scan rest
  end.

Definition get_cpu_name (fs : node) : result string :=
  try_except
    (text <- read_text fs ["proc"; "cpuinfo"] ;;
     cpu_name_scan (PyStr.splitlines text))%py
    "Unknown CPU".

(** How the body of a loop ends: with the next iteration, carrying the
    variable the loop updates, or with a [return]. *)
Inductive step (S A : Type) : Type :=
| Continue (s : S)
| Return (a : A).
Arguments Continue {S A} s.
Arguments Return {S A} a.

(** The body of the loop of [lookup_pci_name] for one line of the database
    and the lower-cased [vendor] and [device]; [elif current_vendor:] holds
    when [current_vendor] is a string that is not empty. *)
Definition pci_line (vendor device : string) (current_vendor : option string)
    (line : string) : result (step (option string) string) :=
  if negb (PyStr.truthy line) || PyStr.startswith line "#"
  then Ok (Continue current_vendor)
  else if negb (PyStr.startswith line TABS) then
    let parts := PyStr.split_ws1 line in
    (p0 <- subscript parts 0 ;;
     if String.eqb (PyStr.lower p0) vendor && (1 <? List.length parts)
     then (p1 <- subscript parts 1 ;; Ok (Continue (Some p1)))
     else Ok (Continue None))%py
  else
    match current_vendor with
    | Some cv =>
        if PyStr.truthy cv then
          let parts := PyStr.split_ws1 (PyStr.strip line) in
          (p0 <- subscript parts 0 ;;
           if String.eqb (PyStr.lower p0) device
           then (p1 <- subscript parts 1 ;; Ok (Return (cv ++ " " ++ p1)%string))
           else Ok (Continue current_vendor))%py
        else Ok (Continue current_vendor)
    | None => Ok (Continue current_vendor)
    end.

(** The loop of [lookup_pci_name] over the lines of the database. *)
Fixpoint pci_scan (vendor device : string) (current_vendor : option string)
    (lines : list string) : result (option string) :=
  match lines with
  | [] => Ok None
  | line :: rest =>
      (s <- pci_line vendor device current_vendor line ;;
       match s with
       | Continue cv => pci_scan vendor device cv rest
       | Return r => Ok (Some r)
       end)%py
  end.

Definition lookup_pci_name (fs : node) (vendor device : string) : result (option string) :=
  if negb (exists_ fs PCI_IDS) then Ok None
  else
    let vendor := PyStr.lower vendor in
    let device := PyStr.lower device in
    (text <- read_text fs PCI_IDS ;;
     pci_scan vendor device None (PyStr.splitlines text))%py.

(** The loop of [get_gpu_name] over the cards found. *)
Fixpoint gpu_name_scan (fs : node) (cards : list path) : result (option (string * bool)) :=
  match cards with
  | [] => Ok None
  | card :: rest =>
      let vendor_file := card ++ ["device"; "vendor"] in
      let device_file := card ++ ["device"; "device"] in
      if negb (exists_ fs vendor_file && exists_ fs device_file)
      then gpu_name_scan fs rest
      else
        (v <- read_text fs vendor_file ;;
         let vendor := PyStr.replace (PyStr.strip v) "0x" "" in
         d <- read_text fs device_file ;;
         let device := PyStr.replace (PyStr.strip d) "0x" "" in
         found <- lookup_pci_name fs vendor device ;;
         match found with
         | Some (String c n) => Ok (Some (String c n, true))
         | _ => Ok (Some (("AMD Radeon [" ++ vendor ++ ":" ++ device ++ "]")%string, false))
         end)%py
  end.

Definition get_gpu_name (fs : node) : result (string * bool) :=
  try_except
    (gpu_name_scan fs (glob fs ["sys"; "class"; "drm"] (lit "card" ++ [PStar])))
    ("Unknown GPU", false).

(* ================================================================== *)
(** ** Python dictionaries with string keys

    A [dict] keeps its keys in the order of their first insertion; assigning
    to a key that is present replaces its value in place. *)

Section Dict.
Context {V : Type}.

Definition dict : Type := list (string * V).

Fixpoint dict_get (d : dict) (k : string) : option V :=
  match d with
  | [] => None
  | (k', v) :: d' => if String.eqb k' k then Some v else dict_get d' k
  end.

(** [k in d] *)
Definition dict_in (k : string) (d : dict) : bool :=
  match dict_get d k with Some _ => true | None => false end.

(** [d[k] = v] *)
Fixpoint dict_set (d : dict) (k : string) (v : V) : dict :=
  match d with
  | [] => [(k, v)]
  | (k', v') :: d' =>
      if String.eqb k' k then (k', v) :: d' else (k', v') :: dict_set d' k v
  end.
End Dict.
Arguments dict V : clear implicits.

(* ================================================================== *)
(** ** Generic hwmon reader (temps) *)

(** One reading: [(value, crit_val)]. *)
Definition reading : Type := Q * option Q.

(** [int(text.strip()) / k] *)
Definition scaled (text : string) (k : Z) : result Q :=
  (n <- PyStr.int (PyStr.strip text) ;; Ok (inject_Z n / inject_Z k)%Q)%py.

(** The index of a channel, cut out of the stem of its input file. *)
Definition channel_idx (p : path) : string :=
  PyStr.replace (PyStr.replace (stem p) "temp" "") "_input" "".

Definition label_of (dir p : path) : path := dir ++ [("temp" ++ channel_idx p ++ "_label")%string].
Definition crit_of (dir p : path) : path := dir ++ [("temp" ++ channel_idx p ++ "_crit")%string].

(** The body of the loop of [read_hwmon] for the input file [p]. *)
Definition read_channel (fs : node) (dir p : path) (results : dict reading)
  : result (dict reading) :=
  let label := label_of dir p in
  let crit := crit_of dir p in
  if exists_ fs label then
    (l <- read_text fs label ;;
     let name := PyStr.strip l in
     v <- read_text fs p ;;
     value <- scaled v 1000 ;;
     crit_val <- (if exists_ fs crit
                  then (c <- read_text fs crit ;; q <- scaled c 1000 ;; Ok (Some q))
                  else Ok None) ;;
     Ok (dict_set results name (value, crit_val)))%py
  else Ok results.

Fixpoint read_channels (fs : node) (dir : path) (ps : list path) (results : dict reading)
  : result (dict reading) :=
  match ps with
  | [] => Ok results
  | p :: rest =>
      (results' <- read_channel fs dir p results ;;
       read_channels fs dir rest results')%py
  end.

Definition temp_inputs : list pat_item := lit "temp" ++ [PStar] ++ lit "_input".

Definition read_hwmon (fs : node) (dir : path) : result (dict reading) :=
  read_channels fs dir (glob fs dir temp_inputs) [].

(* ================================================================== *)
(** ** Clock / fan readers *)

(** [sum(l)] *)
Definition sum (l : list Q) : Q := fold_left Qplus l 0%Q.

(** [max(a, b)] keeps [a] unless [b] is greater; [min(a, b)] keeps [a] unless
    [b] is smaller. *)
Definition Qlt_bool (a b : Q) : bool := negb (Qle_bool b a).
Definition max2 (a b : Q) : Q := if Qlt_bool a b then b else a.
Definition min2 (a b : Q) : Q := if Qlt_bool b a then b else a.

(** [max(l)] for a list that is not empty. *)
Definition max_list (x : Q) (l : list Q) : Q := fold_left max2 l x.

Fixpoint cpu_freqs (fs : node) (cpus : list path) (freqs : list Q) : result (list Q) :=
  match cpus with
  | [] => Ok freqs
  | cpu :: rest =>
      let f := cpu ++ ["cpufreq"; "scaling_cur_freq"] in
      if exists_ fs f then
        (t <- read_text fs f ;;
         q <- scaled t 1000000 ;;
         cpu_freqs fs rest (freqs ++ [q]))%py
      else cpu_freqs fs rest freqs
  end.

Definition cpu_dirs : list pat_item := lit "cpu" ++ [PRange "0" "9"; PStar].

Definition read_cpu_clock (fs : node) : result (option Q) :=
  (freqs <- cpu_freqs fs (glob fs ["sys"; "devices"; "system"; "cpu"] cpu_dirs) [] ;;
   match freqs with
   | [] => Ok None
   | _ => Ok (Some (sum freqs / inject_Z (Z.of_nat (List.length freqs)))%Q)
   end)%py.

(** The inner loop of [read_gpu_clocks_and_fan] over the [freq*_input] files
    of one directory. *)
Fixpoint core_freqs (fs : node) (ps : list path) (core_clocks : list Q) : result (list Q) :=
  match ps with
  | [] => Ok core_clocks
  | p :: rest =>
      (t <- read_text fs p ;;
       val <- PyStr.int (PyStr.strip t) ;;
       if (0 <? val)%Z
       then core_freqs fs rest (core_clocks ++ [(inject_Z val / inject_Z 1000000)%Q])
       else core_freqs fs rest core_clocks)%py
  end.

Definition freq_inputs : list pat_item := lit "freq" ++ [PStar] ++ lit "_input".

(** The local variables [core_clocks], [mem_clock], [fan]. *)
Definition gpu_acc : Type := list Q * option Q * option Q.

(** The outer loop of [read_gpu_clocks_and_fan] over the directories. *)
Fixpoint gpu_scan (fs : node) (hs : list path) (acc : gpu_acc) : result gpu_acc :=
  match hs with
  | [] => Ok acc
  | h :: rest =>
      let '(core_clocks, mem_clock, fan) := acc in
      (core_clocks' <- core_freqs fs (glob fs h freq_inputs) core_clocks ;;
       let f := h ++ ["fan1_input"] in
       fan' <- (if exists_ fs f
                then (t <- read_text fs f ;; n <- PyStr.int (PyStr.strip t) ;;
                      Ok (Some (inject_Z n)))
                else Ok fan) ;;
       let m := h ++ ["freq2_input"] in
       mem_clock' <- (if exists_ fs m
                      then (t <- read_text fs m ;; q <- scaled t 1000000 ;; Ok (Some q))
                      else Ok mem_clock) ;;
       gpu_scan fs rest (core_clocks', mem_clock', fan'))%py
  end.

Definition read_gpu_clocks_and_fan (fs : node) : result (option Q * option Q * option Q) :=
  ('(core_clocks, mem_clock, fan) <- gpu_scan fs GPU_HWMONS ([], None, None) ;;
   let core := match core_clocks with
               | [] => None
               | x :: l => Some (max_list x l)
               end in
   Ok (core, mem_clock, fan))%py.

(* ================================================================== *)
(** ** Colour helpers *)

Definition QColor : Type := string.

Definition temp_colour (value : Q) : option QColor :=
  if Qle_bool 85 value then Some "#c0392b"
  else if Qle_bool 80 value then Some "#f39c12"
  else None.

(* ================================================================== *)
(** ** Min / Max storage and the rows of the tree *)

(** The tracked quantities: [cpu_pkg] stands for the globals [cpu_pkg_min],
    [cpu_pkg_max] and the row [cpu_pkg_item], and likewise for the others. *)
Inductive metric : Type :=
| cpu_pkg | cpu_die | cpu_clk
| gpu_temp | gpu_hot | gpu_mem
| gpu_clk | gpu_memclk | gpu_fan
| nvme.

Definition metric_eqb (a b : metric) : bool :=
  match a, b with
  | cpu_pkg, cpu_pkg | cpu_die, cpu_die | cpu_clk, cpu_clk
  | gpu_temp, gpu_temp | gpu_hot, gpu_hot | gpu_mem, gpu_mem
  | gpu_clk, gpu_clk | gpu_memclk, gpu_memclk | gpu_fan, gpu_fan
  | nvme, nvme => true
  | _, _ => false
  end.

(** A row: the numbers last written to the columns Current, Min, Max and
    Crit, and the foreground colour of the Current column ([None] is the
    default colour). *)
Record item : Type := {
  current : option Q;
  shown_min : option Q;
  shown_max : option Q;
  shown_crit : option Q;
  foreground : option QColor
}.

Record series : Type := {
  s_min : option Q;
  s_max : option Q;
  s_item : item
}.

Definition state : Type := metric -> series.

Definition blank : item :=
  {| current := None; shown_min := None; shown_max := None;
     shown_crit := None; foreground := None |}.

(** The storage at start-up: every minimum and maximum is [None]. *)
Definition initial : state :=
  fun _ => {| s_min := None; s_max := None; s_item := blank |}.

Definition on (m : metric) (f : series -> series) (st : state) : state :=
  fun m' => if metric_eqb m m' then f (st m') else st m'.

(** The three assignments and three [setText] calls made for a sample [t]:
    [x_min = t if x_min is None else min(x_min, t)], the same for [x_max],
    and the columns 1 to 3. *)
Definition track (t : Q) (s : series) : series :=
  let mn := match s_min s with None => t | Some a => min2 a t end in
  let mx := match s_max s with None => t | Some a => max2 a t end in
  {| s_min := Some mn;
     s_max := Some mx;
     s_item := {| current := Some t; shown_min := Some mn; shown_max := Some mx;
                  shown_crit := shown_crit (s_item s);
                  foreground := foreground (s_item s) |} |}.

(** [set_temp_colour(item, 1, value)] *)
Definition set_temp_colour (value : Q) (s : series) : series :=
  {| s_min := s_min s; s_max := s_max s;
     s_item := {| current := current (s_item s); shown_min := shown_min (s_item s);
                  shown_max := shown_max (s_item s);
                  shown_crit := shown_crit (s_item s);
                  foreground := temp_colour value |} |}.

(** [bool(x)] for a number or [None]. *)
Definition nonzero (x : option Q) : bool :=
  match x with
  | Some q => negb (Qeq_bool q 0)
  | None => false
  end.

(** [if c: item.setText(4, ...)] *)
Definition show_crit (c : option Q) (s : series) : series :=
  if nonzero c then
    {| s_min := s_min s; s_max := s_max s;
       s_item := {| current := current (s_item s); shown_min := shown_min (s_item s);
                    shown_max := shown_max (s_item s);
                    shown_crit := c;
                    foreground := foreground (s_item s) |} |}
  else s.

(* ================================================================== *)
(** ** Update loop *)

(** The outcomes of the reader calls of one run of [update], in the order in
    which [update] makes them: [cpu = read_hwmon(CPU_HWMON)],
    [clk = read_cpu_clock()], [gpu = read_hwmon(path)] for each path of
    [GPU_HWMONS], [gclk, gmemclk, gfan = read_gpu_clocks_and_fan()] and
    [nvme = read_hwmon(NVME_HWMON)]. *)
Record readings : Type := {
  r_cpu : result (dict reading);
  r_clk : result (option Q);
  r_gpu : list (result (dict reading));
  r_gclocks : result (option Q * option Q * option Q);
  r_nvme : result (dict reading)
}.

Definition poll (fs : node) : readings :=
  {| r_cpu := read_hwmon fs CPU_HWMON;
     r_clk := read_cpu_clock fs;
     r_gpu := map (read_hwmon fs) GPU_HWMONS;
     r_gclocks := read_gpu_clocks_and_fan fs;
     r_nvme := read_hwmon fs NVME_HWMON |}.

(** A run of [update] ends normally or by an exception; the globals and rows
    keep what was written to them before the exception. *)
Definition outcome : Type := state * option exn.

Definition proceed (r : outcome) (k : state -> outcome) : outcome :=
  match r with
  | (st, None) => k st
  | (st, Some e) => (st, Some e)
  end.

(** [x = reader(); rest] *)
Definition call {A} (r : result A) (st : state) (k : A -> outcome) : outcome :=
  match r with
  | Ok a => k a
  | Raise e => (st, Some e)
  end.

(** [if key in d: t, c = d[key]; ...] for a CPU temperature. *)
Definition cpu_temp (d : dict reading) (key : string) (m : metric) (st : state) : state :=
  match dict_get d key with
  | Some (t, _) => on m (fun s => set_temp_colour t (track t s)) st
  | None => st
  end.

(** [if key in gpu: t, c = gpu[key]; ...] for a GPU temperature. *)
Definition gpu_temp_row (d : dict reading) (key : string) (m : metric) (st : state) : state :=
  match dict_get d key with
  | Some (t, c) => on m (fun s => show_crit c (track t s)) st
  | None => st
  end.

(** [if x: ...] for a clock. *)
Definition clock (x : option Q) (m : metric) (st : state) : state :=
  match x with
  | Some q => if nonzero x then on m (track q) st else st
  | None => st
  end.

(** [if gfan is not None: ...] *)
Definition fan_row (x : option Q) (m : metric) (st : state) : state :=
  match x with
  | Some q => on m (track q) st
  | None => st
  end.

(** [if nvme: _, (t, _) = next(iter(nvme.items())); ...] *)
Definition nvme_row (d : dict reading) (st : state) : state :=
  match d with
  | (_, (t, _)) :: _ => on nvme (track t) st
  | [] => st
  end.

(** [for path in GPU_HWMONS: gpu = read_hwmon(path); ...] *)
Fixpoint gpu_temps (gpus : list (result (dict reading))) (st : state) : outcome :=
  match gpus with
  | [] => (st, None)
  | r :: rest =>
      call r st (fun gpu =>
        let st := gpu_temp_row gpu "edge" gpu_temp st in
        let st := gpu_temp_row gpu "junction" gpu_hot st in
        let st := gpu_temp_row gpu "mem" gpu_mem st in
        gpu_temps rest st)
  end.

Definition update_from (rd : readings) (st : state) : outcome :=
  call (r_cpu rd) st (fun cpu =>
    let st := cpu_temp cpu "Tctl" cpu_pkg st in
    let st := cpu_temp cpu "Tccd1" cpu_die st in
    call (r_clk rd) st (fun clk =>
      let st := clock clk cpu_clk st in
      proceed (gpu_temps (r_gpu rd) st) (fun st =>
        call (r_gclocks rd) st (fun '(gclk, gmemclk, gfan) =>
          let st := clock gclk gpu_clk st in
          let st := clock gmemclk gpu_memclk st in
          let st := fan_row gfan gpu_fan st in
          call (r_nvme rd) st (fun nvme =>
            (nvme_row nvme st, None)))))).

Definition update (fs : node) (st : state) : outcome := update_from (poll fs) st.

(** The timer: one run of [update] per tick, each on the file system of its
    time; an exception ends the run, not the timer. *)
Fixpoint ticks (fss : list node) (st : state) : state :=
  match fss with
  | [] => st
  | fs :: rest => ticks rest (fst (update fs st))
  end.

(* ================================================================== *)
(** * The vocabulary of the properties

    What the properties below speak of: the severity tiers, the numbers of a
    row, what the disk holds for a channel, the records of the PCI database,
    and the example file systems on which the properties are put to work. *)

(** *** The classifier *)

(** The severity tiers of the specification, read off the colour that
    [temp_colour] returns: red is critical, orange is warm, no colour is
    normal. *)
Inductive severity : Type := NORMAL | WARM | CRITICAL.

Definition classify (t : Q) : severity :=
  match temp_colour t with
  | Some c => if String.eqb c "#c0392b" then CRITICAL else WARM
  | None => NORMAL
  end.

(** *** Running minimum and maximum *)

(** The minimum, the maximum and the current value of a row. *)
Definition numbers (s : series) : option Q * option Q * option Q :=
  (s_min s, s_max s, current (s_item s)).

(** Feeding a sequence of samples to one row. *)
Definition feed (vs : list Q) (s : series) : series :=
  fold_left (fun s v => track v s) vs s.

(** A row is either untouched or holds [lo <= cur <= hi]. *)
Definition bracketed (s : series) : Prop :=
  numbers s = (None, None, None) \/
  exists lo cur hi, numbers s = (Some lo, Some hi, Some cur) /\ (lo <= cur)%Q /\ (cur <= hi)%Q.

(** [fed st st']: every row of [st'] holds the numbers of the same row of
    [st] after some samples were fed to it. *)
Definition fed (st st' : state) : Prop :=
  forall m, exists vs, numbers (st' m) = numbers (feed vs (st m)).

(** *** Sampling gaps *)

(** A hwmon reader returned a mapping without [key]. *)
Definition lacks (r : result (dict reading)) (key : string) : Prop :=
  exists d, r = Ok d /\ dict_in key d = false.

(** No sample reaches the row [m] in a run of [update] on the readings [rd]:
    the mapping of its directory has no entry for its label (for a GPU
    temperature, the mapping of every GPU directory), or its clock or fan
    reader returned [None]. *)
Definition unavailable (rd : readings) (m : metric) : Prop :=
  match m with
  | cpu_pkg => lacks (r_cpu rd) "Tctl"
  | cpu_die => lacks (r_cpu rd) "Tccd1"
  | cpu_clk => r_clk rd = Ok None
  | gpu_temp => forall r, In r (r_gpu rd) -> lacks r "edge"
  | gpu_hot => forall r, In r (r_gpu rd) -> lacks r "junction"
  | gpu_mem => forall r, In r (r_gpu rd) -> lacks r "mem"
  | gpu_clk => exists gmemclk gfan, r_gclocks rd = Ok (None, gmemclk, gfan)
  | gpu_memclk => exists gclk gfan, r_gclocks rd = Ok (gclk, None, gfan)
  | gpu_fan => exists gclk gmemclk, r_gclocks rd = Ok (gclk, gmemclk, None)
  | nvme => r_nvme rd = Ok []
  end.

(** *** Example file systems *)

(** A directory of readable text files. *)
Definition files (l : list (string * string)) : node :=
  Dir true (map (fun e => (fst e, File (snd e))) l).

(** A root whose only content is [/sys/class/hwmon] with the given chips. *)
Definition hwmon_root (chips : list (string * node)) : node :=
  Dir true [("sys", Dir true [("class", Dir true [("hwmon", Dir true chips)])])].

(** The CPU chip reports Tctl (61.5 degrees) and Tccd1 (48 degrees). *)
Definition fs_cpu_both : node :=
  hwmon_root [("hwmon4", files [("temp1_input", "61500"); ("temp1_label", "Tctl");
                                ("temp3_input", "48000"); ("temp3_label", "Tccd1")])].

(** The CPU chip reports Tccd1 only. *)
Definition fs_cpu_die_only : node :=
  hwmon_root [("hwmon4", files [("temp3_input", "52000"); ("temp3_label", "Tccd1")])].

(** A GPU chip whose fan stands still and whose memory clock reads zero. *)
Definition fs_gpu_idle : node :=
  hwmon_root [("hwmon2", files [("fan1_input", "0"); ("freq1_input", "500000000");
                                ("freq2_input", "0")])].

(** The storage after one run on [fs_cpu_both]. *)
Definition st_after_both : state := fst (update fs_cpu_both initial).

(** *** Zero readings: clocks against the fan *)

Definition with_clk (rd : readings) (clk : result (option Q)) : readings :=
  {| r_cpu := r_cpu rd; r_clk := clk; r_gpu := r_gpu rd;
     r_gclocks := r_gclocks rd; r_nvme := r_nvme rd |}.

Definition with_gclocks (rd : readings) (g : result (option Q * option Q * option Q))
  : readings :=
  {| r_cpu := r_cpu rd; r_clk := r_clk rd; r_gpu := r_gpu rd;
     r_gclocks := g; r_nvme := r_nvme rd |}.

Definition is_clock (m : metric) : Prop := m = cpu_clk \/ m = gpu_clk \/ m = gpu_memclk.

(** The minimum of a clock row is never zero: a step keeps this. *)
Definition min_nonzero (m : metric) (st : state) : Prop :=
  forall a, s_min (st m) = Some a -> ~ (a == 0)%Q.

(** *** What is on disk *)

(** The file [p] can be read and holds the integer [n]. *)
Definition holds_int (fs : node) (p : path) (n : Z) : Prop :=
  exists t, read_text fs p = Ok t /\ PyStr.int (PyStr.strip t) = Ok n.

(** *** The CPU clock *)

(** The frequency file of a core directory. *)
Definition cur_freq (cpu : path) : path := cpu ++ ["cpufreq"; "scaling_cur_freq"].

(** The core directories whose frequency file is present, in the order of
    the enumeration. *)
Definition present_cores (fs : node) : list path :=
  filter (fun cpu => exists_ fs (cur_freq cpu))
         (glob fs ["sys"; "devices"; "system"; "cpu"] cpu_dirs).

(** kHz to GHz. *)
Definition ghz (khz : Z) : Q := (inject_Z khz / inject_Z 1000000)%Q.

(** The arithmetic mean of a list that is not empty. *)
Definition mean (l : list Q) : Q := (sum l / inject_Z (Z.of_nat (List.length l)))%Q.

(** Four cores: two report 3.6 GHz and 4.2 GHz, one has no frequency file,
    and [cpufreq] itself is not a core directory. *)
Definition fs_cpus : node :=
  Dir true [("sys", Dir true [("devices", Dir true [("system", Dir true [("cpu",
    Dir true [("cpu0", Dir true [("cpufreq", files [("scaling_cur_freq", "3600000")])]);
              ("cpu1", Dir true [("cpufreq", files [("scaling_cur_freq", "4200000")])]);
              ("cpu2", Dir true []);
              ("cpufreq", Dir true [])])])])])].

(** *** GPU clocks and fan *)

(** Hz to MHz. *)
Definition mhz (hz : Z) : Q := (inject_Z hz / inject_Z 1000000)%Q.

(** The core-frequency channel files of the directories [hs], in the order in
    which they are read. *)
Definition core_channels (fs : node) (hs : list path) : list path :=
  flat_map (fun h => glob fs h freq_inputs) hs.

(** The strictly positive readings, converted. *)
Definition positive_mhz (vals : list Z) : list Q :=
  map mhz (filter (fun v => (0 <? v)%Z) vals).

(** When the file [slot] is present in a directory it holds an integer. *)
Definition slot_sound (fs : node) (hs : list path) (slot : string) : Prop :=
  forall h, In h hs -> exists_ fs (h ++ [slot]) = true -> exists n, holds_int fs (h ++ [slot]) n.

(** [v] comes from the file [slot] of the last directory of [hs] that has
    one, converted by [f]; it is [dflt] when no directory has one. *)
Definition from_last_slot (fs : node) (hs : list path) (slot : string)
    (f : Z -> Q) (dflt v : option Q) : Prop :=
  (v = dflt /\ forall h, In h hs -> exists_ fs (h ++ [slot]) = false) \/
  (exists hs1 h hs2 n,
      hs = hs1 ++ h :: hs2 /\ exists_ fs (h ++ [slot]) = true /\
      holds_int fs (h ++ [slot]) n /\
      (forall h', In h' hs2 -> exists_ fs (h' ++ [slot]) = false) /\
      v = Some (f n)).

(** Two GPU directories: the first has a fan and two clock channels, the
    second has no fan, an idle first channel and a second channel at 1 GHz. *)
Definition fs_two_gpus : node :=
  hwmon_root [("hwmon2", files [("freq1_input", "500000000"); ("freq2_input", "96000000");
                                ("fan1_input", "1200")]);
              ("hwmon3", files [("freq1_input", "0"); ("freq2_input", "1000000000")])].

(** *** The hwmon reader *)

(** Degrees from thousandths of a degree. *)
Definition degrees (milli : Z) : Q := (inject_Z milli / inject_Z 1000)%Q.

(** The label file of the channel of [p] can be read and names it [name]. *)
Definition labelled (fs : node) (dir p : path) (name : string) : Prop :=
  exists l, read_text fs (label_of dir p) = Ok l /\ PyStr.strip l = name.

(** What the disk holds for the channel whose input file is [p]: nothing to
    report ([None]) when it has no label file; otherwise its label, the
    integer of its input file divided by 1000, and the integer of its critical
    file divided by 1000 when that file exists, [None] when it does not. *)
Definition on_disk (fs : node) (dir p : path) (e : option (string * reading)) : Prop :=
  match e with
  | None => exists_ fs (label_of dir p) = false
  | Some (name, (value, crit_val)) =>
      labelled fs dir p name /\
      (exists n, holds_int fs p n /\ value = degrees n) /\
      (if exists_ fs (crit_of dir p)
       then exists c, holds_int fs (crit_of dir p) c /\ crit_val = Some (degrees c)
       else crit_val = None)
  end.

(** [results[name] = (value, crit_val)] for a channel that has something to
    report. *)
Definition store (results : dict reading) (e : option (string * reading)) : dict reading :=
  match e with
  | Some (name, r) => dict_set results name r
  | None => results
  end.

(** The reading of the last channel of [es] labelled [name]. *)
Fixpoint last_binding (name : string) (es : list (option (string * reading)))
  : option reading :=
  match es with
  | [] => None
  | e :: es' =>
      match last_binding name es' with
      | Some r => Some r
      | None =>
          match e with
          | Some (k, r) => if String.eqb k name then Some r else None
          | None => None
          end
      end
  end.

(** *** Channels and their files *)

Fixpoint all_digits (s : string) : bool :=
  match s with
  | EmptyString => true
  | String c s' => PyStr.isdigit c && all_digits s'
  end.

Ltac digit_cases c H :=
  destruct c as [[] [] [] [] [] [] [] []]; try discriminate H.

(** A GPU chip: channel 1 with label and critical value, channel 2 without a
    label file and with unusable content, channel 3 with a label only. *)
Definition fs_gpu_temps : node :=
  hwmon_root [("hwmon2", files [("temp1_input", "45000");
                                ("temp1_label", "edge" ++ String PyStr.LF "");
                                ("temp1_crit", "100000");
                                ("temp2_input", "n/a");
                                ("temp3_input", "47000");
                                ("temp3_label", "junction" ++ String PyStr.LF "")]%string)].

Definition hwmon2 : path := ["sys"; "class"; "hwmon"; "hwmon2"].

(** *** Errors of the hwmon reader *)

(** The numeric content of a file that can be read is not an integer. *)
Definition garbled (fs : node) (p : path) : Prop :=
  exists t, read_text fs p = Ok t /\ PyStr.int (PyStr.strip t) = Raise ValueError.

(** A channel with a label file whose input file is garbled, or whose input
    file holds an integer and whose critical file is garbled. *)
Definition malformed (fs : node) (dir p : path) : Prop :=
  exists_ fs (label_of dir p) = true /\
  (garbled fs p \/ ((exists n, holds_int fs p n) /\ garbled fs (crit_of dir p))).

(** Every channel with a label file has a label that can be read, an integer
    in its input file and, if it has a critical file, an integer there. *)
Definition sound (fs : node) (dir p : path) : Prop :=
  exists_ fs (label_of dir p) = true ->
  exists name value crit_val, on_disk fs dir p (Some (name, (value, crit_val))).

(** The directory cannot be listed: it does not exist, is not a directory, or
    may not be read. *)
Definition unlistable (fs : node) (dir : path) : Prop :=
  match resolve fs dir with
  | Some (Dir true _) => False
  | _ => True
  end.

(** The chip of [fs_gpu_temps] with a garbled input file for the labelled
    channel 3. *)
Definition fs_gpu_garbled : node :=
  hwmon_root [("hwmon2", files [("temp1_input", "45000");
                                ("temp1_label", "edge" ++ String PyStr.LF "");
                                ("temp1_crit", "100000");
                                ("temp2_input", "n/a");
                                ("temp3_input", "47.0");
                                ("temp3_label", "junction" ++ String PyStr.LF "")]%string)].

(** *** Hardware names *)

Definition cpuinfo : path := ["proc"; "cpuinfo"].

Definition drm_cards (fs : node) : list path :=
  glob fs ["sys"; "class"; "drm"] (lit "card" ++ [PStar]).

Definition vendor_file (card : path) : path := card ++ ["device"; "vendor"].

Definition device_file (card : path) : path := card ++ ["device"; "device"].

(** A card that exposes both identifier files. *)
Definition usable (fs : node) (card : path) : bool :=
  exists_ fs (vendor_file card) && exists_ fs (device_file card).

(** The identifier read from a file, without its hex prefix. *)
Definition raw_id (text : string) : string := PyStr.replace (PyStr.strip text) "0x" "".

Definition is_model_name (line : string) : bool := PyStr.startswith line "model name".

Fixpoint contains (c : ascii) (s : string) : bool :=
  match s with
  | EmptyString => false
  | String c' s' => Ascii.eqb c' c || contains c s'
  end.

(** *** The PCI identifier lookup *)

(** The kinds of line of the database, in the words of the specification: a
    blank line or a comment is skipped; an unindented line is a vendor record
    [<vendor-id> <vendor-name>]; an indented line is a device record
    [<device-id> <device-name>]. *)
Definition is_skipped (line : string) : bool :=
  negb (PyStr.truthy line) || PyStr.startswith line "#".

Definition is_indented (line : string) : bool := PyStr.startswith line TABS.

Definition vendor_record (line vid vname : string) : Prop :=
  is_skipped line = false /\ is_indented line = false /\
  PyStr.split_ws1 line = [vid; vname].

Definition device_record (line did dname : string) : Prop :=
  is_indented line = true /\ PyStr.split_ws1 (PyStr.strip line) = [did; dname].

(** Within the block of the vendor [vname]: before the next unindented line
    there is a device record for [device]; [r] is the name it yields. *)
Definition under (vname device : string) (block : list string) (r : string) : Prop :=
  exists mid dline post did dname,
    block = mid ++ dline :: post /\
    Forall (fun l => is_skipped l = true \/ is_indented l = true) mid /\
    device_record dline did dname /\ PyStr.lower did = device /\
    r = (vname ++ " " ++ dname)%string.

(** A vendor record for [vendor] is followed, before the next unindented
    line, by a device record for [device]. *)
Definition found (vendor device : string) (lines : list string) (r : string) : Prop :=
  exists pre vline block vid vname,
    lines = pre ++ vline :: block /\
    vendor_record vline vid vname /\ PyStr.lower vid = vendor /\
    under vname device block r.

(** Every line is skipped, or is an unindented line with an identifier, or is
    a device record. *)
Definition record_ok (line : string) : Prop :=
  is_skipped line = true \/
  (is_indented line = false /\ PyStr.split_ws1 line <> []) \/
  (exists did dname, device_record line did dname).

(** *** Example databases *)

Definition nl : string := String PyStr.LF EmptyString.

(** A root with [/usr/share/misc/pci.ids] holding [text]. *)
Definition pci_root (text : string) : node :=
  Dir true [("usr", Dir true [("share", Dir true [("misc", files [("pci.ids", text)])])])].

(** The database of the specification's example, with a comment and an empty
    line in front. *)
Definition db_sample : string :=
  ("# List of PCI ID's" ++ nl ++ nl
   ++ "10de  NVIDIA Corporation" ++ nl
   ++ TABS ++ "1234  Some GPU" ++ nl)%string.

(** A vendor line that carries an identifier and no name. *)
Definition db_nameless_vendor : string :=
  ("10de" ++ nl ++ TABS ++ "1234  Some GPU" ++ nl)%string.

(** A line made of one space between the vendor record and its device. *)
Definition db_space_line : string :=
  ("10de  NVIDIA Corporation" ++ nl ++ " " ++ nl ++ TABS ++ "1234  Some GPU" ++ nl)%string.

(** *** An example machine *)

Definition cpuinfo_text : string :=
  ("processor" ++ TABS ++ ": 0" ++ nl
   ++ "model name" ++ TABS ++ ": AMD Ryzen 7 5800X 8-Core Processor" ++ nl
   ++ "processor" ++ TABS ++ ": 1" ++ nl
   ++ "model name" ++ TABS ++ ": AMD Ryzen 7 5800X 8-Core Processor" ++ nl)%string.

(** A machine with one graphics card (and one of its connectors, listed
    first, which exposes no identifier file) and the database [db]. *)
Definition machine (db : string) : node :=
  Dir true
    [("proc", files [("cpuinfo", cpuinfo_text)]);
     ("sys", Dir true [("class", Dir true [("drm", Dir true
        [("card0-DP-1", Dir true []);
         ("card0", Dir true [("device", files [("vendor", "0x10de" ++ nl);
                                               ("device", "0x1234" ++ nl)]%string)])])])]);
     ("usr", Dir true [("share", Dir true [("misc", files [("pci.ids", db)])])])].

(** A database that knows the vendor and not the device. *)
Definition db_other_device : string :=
  ("10de  NVIDIA Corporation" ++ nl ++ TABS ++ "0001  Other GPU" ++ nl)%string.

Definition card0 : path := ["sys"; "class"; "drm"; "card0"].

Definition card0_DP_1 : path := ["sys"; "class"; "drm"; "card0-DP-1"].

(** *** The properties at work *)

(** One core that reports a frequency of zero. *)
Definition fs_cpu_stalled : node :=
  Dir true [("sys", Dir true [("devices", Dir true [("system", Dir true [("cpu",
    Dir true [("cpu0", Dir true [("cpufreq", files [("scaling_cur_freq", "0")])])])])])])].

(** *** The rows and what is written to them *)

(** The rows that [update] colours, the rows to which it writes a critical
    value, and the others. *)
Definition is_cpu_temp (m : metric) : Prop := m = cpu_pkg \/ m = cpu_die.
Definition is_gpu_temp (m : metric) : Prop := m = gpu_temp \/ m = gpu_hot \/ m = gpu_mem.

(** The Min and Max columns of a row show its stored minimum and maximum. *)
Definition shows_storage (s : series) : Prop :=
  shown_min (s_item s) = s_min s /\ shown_max (s_item s) = s_max s.

(** The colour that belongs to what the Current column shows. *)
Definition colour_of_current (s : series) : option QColor :=
  match current (s_item s) with
  | Some t => temp_colour t
  | None => None
  end.

(** The order of the tiers. *)
Definition rank (v : severity) : nat :=
  match v with NORMAL => 0 | WARM => 1 | CRITICAL => 2 end.

(** The CPU chip reports a package temperature of 86 degrees. *)
Definition fs_cpu_hot : node :=
  hwmon_root [("hwmon4", files [("temp1_input", "86000"); ("temp1_label", "Tctl")])].

(** A GPU chip at 95 degrees with a critical value of 100 degrees, and the
    same chip later, without its critical file. *)
Definition fs_gpu_hot : node :=
  hwmon_root [("hwmon2", files [("temp1_input", "95000"); ("temp1_label", "edge");
                                ("temp1_crit", "100000")])].
Definition fs_gpu_no_crit : node :=
  hwmon_root [("hwmon2", files [("temp1_input", "60000"); ("temp1_label", "edge")])].

(** *** The samples of a run *)

(** The sample that a step of [update] takes from what its reader returned:
    the value under a key of a mapping, a clock that is not zero, a fan
    reading, the value of the first entry of the NVMe mapping. *)
Definition temp_sample (d : dict reading) (key : string) : list Q :=
  match dict_get d key with
  | Some (t, _) => [t]
  | None => []
  end.

Definition clock_sample (x : option Q) : list Q :=
  match x with
  | Some q => if nonzero x then [q] else []
  | None => []
  end.

Definition fan_sample (x : option Q) : list Q :=
  match x with
  | Some q => [q]
  | None => []
  end.

Definition nvme_sample (d : dict reading) : list Q :=
  match d with
  | (_, (t, _)) :: _ => [t]
  | [] => []
  end.

(** [l] when the step writes to the row [m], nothing otherwise. *)
Definition sel (m0 m : metric) (l : list Q) : list Q :=
  if metric_eqb m0 m then l else [].

Definition all_ok (gpus : list (result (dict reading))) : bool :=
  forallb (fun r => match r with Ok _ => true | Raise _ => false end) gpus.

(** The samples that the loop over the GPU directories feeds to the row [m],
    up to the first directory whose read raises. *)
Fixpoint gpu_row_samples (gpus : list (result (dict reading))) (m : metric) : list Q :=
  match gpus with
  | [] => []
  | Ok gpu :: rest =>
      sel gpu_temp m (temp_sample gpu "edge") ++
      sel gpu_hot m (temp_sample gpu "junction") ++
      sel gpu_mem m (temp_sample gpu "mem") ++
      gpu_row_samples rest m
  | Raise _ :: _ => []
  end.

(** The samples that a run of [update] on the readings [rd] feeds to the row
    [m], in the order of the run and up to the first reader that raises. *)
Definition row_samples (rd : readings) (m : metric) : list Q :=
  match r_cpu rd with
  | Raise _ => []
  | Ok cpu =>
      sel cpu_pkg m (temp_sample cpu "Tctl") ++
      sel cpu_die m (temp_sample cpu "Tccd1") ++
      match r_clk rd with
      | Raise _ => []
      | Ok clk =>
          sel cpu_clk m (clock_sample clk) ++
          gpu_row_samples (r_gpu rd) m ++
          if all_ok (r_gpu rd) then
            match r_gclocks rd with
            | Raise _ => []
            | Ok (gclk, gmemclk, gfan) =>
                sel gpu_clk m (clock_sample gclk) ++
                sel gpu_memclk m (clock_sample gmemclk) ++
                sel gpu_fan m (fan_sample gfan) ++
                match r_nvme rd with
                | Raise _ => []
                | Ok d => sel nvme m (nvme_sample d)
                end
            end
          else []
      end
  end.

(** [fed_with st st' m vs]: the row [m] of [st'] holds the numbers of the row
    [m] of [st] after the samples [vs]. *)
Definition fed_with (st st' : state) (m : metric) (vs : list Q) : Prop :=
  numbers (st' m) = numbers (feed vs (st m)).

(** An NVMe chip whose directory lists the channel [Sensor 1] before the
    channel [Composite]. *)
Definition fs_nvme : node :=
  hwmon_root [("hwmon1", files [("temp2_input", "39850"); ("temp2_label", "Sensor 1");
                                ("temp1_input", "41850"); ("temp1_label", "Composite")])].

(** Every directory of [hs] that exists can be listed. *)
Definition dirs_listable (fs : node) (hs : list path) : Prop :=
  forall h l es, In h hs -> resolve fs h = Some (Dir l es) -> l = true.

(** The database of the example followed by a line made of one space. *)
Definition db_sample_then_space : string := (db_sample ++ " " ++ nl)%string.

(* ================================================================== *)
(** * Properties *)

(** ** The string operations on examples *)

Example splitlines_ex :
  PyStr.splitlines ("ab" ++ String PyStr.LF ("" ++ String PyStr.CR (String PyStr.LF ("c" ++ String PyStr.LF ""))))
  = ["ab"; ""; "c"].
Proof. reflexivity. Qed.

Example split_ws1_ex : PyStr.split_ws1 "  10de   NVIDIA  Corporation  " = ["10de"; "NVIDIA  Corporation  "].
Proof. reflexivity. Qed.

Example split_ws1_one : PyStr.split_ws1 " 10de  " = ["10de"].
Proof. reflexivity. Qed.

Example replace_ex : PyStr.replace (PyStr.replace "temp12_input" "temp" "") "_input" "" = "12".
Proof. reflexivity. Qed.

Example int_ex : PyStr.int " 45_000 " = Ok 45000%Z /\ PyStr.int "-5" = Ok (-5)%Z
  /\ PyStr.int "4_" = Raise ValueError /\ PyStr.int "" = Raise ValueError
  /\ PyStr.int "12a" = Raise ValueError.
Proof. repeat split; reflexivity. Qed.

(** ** Order lemmas for [min2] and [max2] *)

Lemma Qlt_bool_iff (a b : Q) : Qlt_bool a b = true <-> (a < b)%Q.
Proof.
  unfold Qlt_bool. rewrite negb_true_iff.
  split; intro H.
  - apply Qnot_le_lt. intro L. apply Qle_bool_iff in L. congruence.
  - destruct (Qle_bool b a) eqn:E; [|reflexivity].
    apply Qle_bool_iff in E. exfalso. exact (Qlt_not_le _ _ H E).
Qed.

Lemma Qlt_bool_false (a b : Q) : Qlt_bool a b = false -> (b <= a)%Q.
Proof.
  unfold Qlt_bool. rewrite negb_false_iff. apply Qle_bool_iff.
Qed.

Lemma min2_le_l (a t : Q) : (min2 a t <= a)%Q.
Proof.
  unfold min2. destruct (Qlt_bool t a) eqn:E.
  - apply Qlt_le_weak, Qlt_bool_iff, E.
  - apply Qle_refl.
Qed.

Lemma min2_le_r (a t : Q) : (min2 a t <= t)%Q.
Proof.
  unfold min2. destruct (Qlt_bool t a) eqn:E.
  - apply Qle_refl.
  - apply Qlt_bool_false, E.
Qed.

Lemma max2_ge_l (a t : Q) : (a <= max2 a t)%Q.
Proof.
  unfold max2. destruct (Qlt_bool a t) eqn:E.
  - apply Qlt_le_weak, Qlt_bool_iff, E.
  - apply Qle_refl.
Qed.

Lemma max2_ge_r (a t : Q) : (t <= max2 a t)%Q.
Proof.
  unfold max2. destruct (Qlt_bool a t) eqn:E.
  - apply Qle_refl.
  - apply Qlt_bool_false, E.
Qed.

Lemma min2_cases (a t : Q) : min2 a t = a \/ min2 a t = t.
Proof. unfold min2. destruct (Qlt_bool t a); auto. Qed.

Lemma max2_cases (a t : Q) : max2 a t = a \/ max2 a t = t.
Proof. unfold max2. destruct (Qlt_bool a t); auto. Qed.

(* ------------------------------------------------------------------ *)
(** ** The classifier *)

(** C2.  For every temperature [t], the classifier answers CRITICAL exactly
    when [t >= 85], WARM exactly when [80 <= t < 85] and NORMAL exactly when
    [t < 80]; in particular 85.0 is CRITICAL, 84.9 is WARM and 79.9 is
    NORMAL. *)
Theorem C2_classify_thresholds :
  (forall t : Q,
      (classify t = CRITICAL <-> (85 <= t)%Q) /\
      (classify t = WARM <-> (80 <= t)%Q /\ (t < 85)%Q) /\
      (classify t = NORMAL <-> (t < 80)%Q)) /\
  classify 85 = CRITICAL /\
  classify (849 # 10) = WARM /\
  classify (799 # 10) = NORMAL.
Proof.
  split; [|repeat split; reflexivity].
  intro t. unfold classify, temp_colour.
  destruct (Qle_bool 85 t) eqn:E85.
  - apply Qle_bool_iff in E85. cbn.
    repeat split; try discriminate; intros; auto.
    + destruct H as [_ H]. exfalso. exact (Qlt_not_le _ _ H E85).
    + exfalso. apply (Qlt_not_le _ _ H).
      apply Qle_trans with 85%Q; [discriminate | exact E85].
  - assert (L85 : (t < 85)%Q).
    { apply Qnot_le_lt. intro L. apply Qle_bool_iff in L. congruence. }
    destruct (Qle_bool 80 t) eqn:E80.
    + apply Qle_bool_iff in E80. cbn.
      repeat split; try discriminate; auto.
      * intro L. exfalso. exact (Qlt_not_le _ _ L85 L).
      * intro L. exfalso. exact (Qlt_not_le _ _ L E80).
    + assert (L80 : (t < 80)%Q).
      { apply Qnot_le_lt. intro L. apply Qle_bool_iff in L. congruence. }
      repeat split; try discriminate; auto.
      * intro L. exfalso. exact (Qlt_not_le _ _ L85 L).
      * intros [L _]. exfalso. exact (Qlt_not_le _ _ L80 L).
Qed.

(* ------------------------------------------------------------------ *)
(** ** Reasoning about one run of [update]

    Whatever the readers deliver, a run of [update] is a succession of the row
    steps [cpu_temp], [clock], [gpu_temp_row], [fan_row] and [nvme_row], each
    on the value its reader returned, cut short by the first reader that
    raises.  A relation between the storage before and after that is
    reflexive, transitive and kept by each step is kept by the run. *)

Section UpdateRule.
Variable rd : readings.
Variable R : state -> state -> Prop.
Hypothesis R_refl : forall st, R st st.
Hypothesis R_trans : forall a b c, R a b -> R b c -> R a c.
Hypothesis step_cpu : forall cpu key m st,
    r_cpu rd = Ok cpu -> (key, m) = ("Tctl", cpu_pkg) \/ (key, m) = ("Tccd1", cpu_die) ->
    R st (cpu_temp cpu key m st).
Hypothesis step_clk : forall clk st,
    r_clk rd = Ok clk -> R st (clock clk cpu_clk st).
Hypothesis step_gpu : forall gpu key m st,
    In (Ok gpu) (r_gpu rd) ->
    (key, m) = ("edge", gpu_temp) \/ (key, m) = ("junction", gpu_hot)
    \/ (key, m) = ("mem", gpu_mem) ->
    R st (gpu_temp_row gpu key m st).
Hypothesis step_gclk : forall gclk gmemclk gfan st,
    r_gclocks rd = Ok (gclk, gmemclk, gfan) -> R st (clock gclk gpu_clk st).
Hypothesis step_gmemclk : forall gclk gmemclk gfan st,
    r_gclocks rd = Ok (gclk, gmemclk, gfan) -> R st (clock gmemclk gpu_memclk st).
Hypothesis step_gfan : forall gclk gmemclk gfan st,
    r_gclocks rd = Ok (gclk, gmemclk, gfan) -> R st (fan_row gfan gpu_fan st).
Hypothesis step_nvme : forall d st,
    r_nvme rd = Ok d -> R st (nvme_row d st).

Lemma gpu_temps_rule (gpus : list (result (dict reading))) :
  (forall g, In g gpus -> In g (r_gpu rd)) ->
  forall st, R st (fst (gpu_temps gpus st)).
Proof.
  induction gpus as [|r rest IH]; intros Hin st; cbn.
  - apply R_refl.
  - destruct r as [gpu|e]; cbn; [|apply R_refl].
    assert (Hg : In (Ok gpu) (r_gpu rd)) by (apply Hin; left; reflexivity).
    eapply R_trans; [|apply IH; intros g Hg'; apply Hin; right; exact Hg'].
    eapply R_trans; [eapply R_trans|].
    + apply (step_gpu gpu "edge" gpu_temp); auto.
    + apply (step_gpu gpu "junction" gpu_hot); auto.
    + apply (step_gpu gpu "mem" gpu_mem); auto.
Qed.

Lemma update_rule (st : state) : R st (fst (update_from rd st)).
Proof.
  unfold update_from.
  destruct (r_cpu rd) as [cpu|e] eqn:Ecpu; cbn; [|apply R_refl].
  set (st1 := cpu_temp cpu "Tccd1" cpu_die (cpu_temp cpu "Tctl" cpu_pkg st)).
  assert (H1 : R st st1).
  { eapply R_trans; [apply (step_cpu cpu "Tctl" cpu_pkg)|apply (step_cpu cpu "Tccd1" cpu_die)]; auto. }
  destruct (r_clk rd) as [clk|e] eqn:Eclk; cbn; [|exact H1].
  set (st2 := clock clk cpu_clk st1).
  assert (H2 : R st st2) by (eapply R_trans; [exact H1|apply step_clk; reflexivity]).
  pose proof (gpu_temps_rule (r_gpu rd) (fun g H => H) st2) as H3.
  destruct (gpu_temps (r_gpu rd) st2) as [st3 [e|]]; cbn in *;
    [eapply R_trans; eassumption|].
  assert (H3' : R st st3) by (eapply R_trans; eassumption).
  destruct (r_gclocks rd) as [[[gclk gmemclk] gfan]|e] eqn:Eg; cbn; [|exact H3'].
  set (st4 := fan_row gfan gpu_fan (clock gmemclk gpu_memclk (clock gclk gpu_clk st3))).
  assert (H4 : R st st4).
  { eapply R_trans; [exact H3'|]. eapply R_trans; [eapply R_trans|].
    - eapply step_gclk; reflexivity.
    - eapply step_gmemclk; reflexivity.
    - eapply step_gfan; reflexivity. }
  destruct (r_nvme rd) as [d|e] eqn:En; cbn; [|exact H4].
  eapply R_trans; [exact H4|apply step_nvme; reflexivity].
Qed.
End UpdateRule.

(* ------------------------------------------------------------------ *)
(** ** Running minimum and maximum *)

Lemma numbers_inv (s : series) (a b c : option Q) :
  numbers s = (a, b, c) -> s_min s = a /\ s_max s = b /\ current (s_item s) = c.
Proof. unfold numbers. intro H. inversion H. auto. Qed.

Lemma numbers_track (t : Q) (s s' : series) :
  numbers s = numbers s' -> numbers (track t s) = numbers (track t s').
Proof.
  unfold numbers, track; cbn. intro H. injection H as Hmin Hmax _.
  rewrite Hmin, Hmax. reflexivity.
Qed.

Lemma numbers_feed (vs : list Q) : forall s s',
  numbers s = numbers s' -> numbers (feed vs s) = numbers (feed vs s').
Proof.
  induction vs as [|v vs IH]; intros s s' H; cbn; [exact H|].
  apply IH, numbers_track, H.
Qed.

Lemma numbers_set_temp_colour (v : Q) (s : series) :
  numbers (set_temp_colour v s) = numbers s.
Proof. reflexivity. Qed.

Lemma numbers_show_crit (c : option Q) (s : series) :
  numbers (show_crit c s) = numbers s.
Proof. unfold show_crit. destruct (nonzero c); reflexivity. Qed.

Lemma feed_app (vs ws : list Q) (s : series) :
  feed (vs ++ ws) s = feed ws (feed vs s).
Proof. unfold feed. apply fold_left_app. Qed.

Lemma track_sample (s : series) (v : Q) :
  exists lo hi,
    numbers (track v s) = (Some lo, Some hi, Some v) /\ (lo <= v)%Q /\ (v <= hi)%Q /\
    (forall a, s_min s = Some a -> (lo <= a)%Q) /\
    (forall b, s_max s = Some b -> (b <= hi)%Q).
Proof.
  unfold numbers, track; cbn.
  destruct (s_min s) as [a|], (s_max s) as [b|]; cbn;
    eexists; eexists; (split; [reflexivity|]);
    repeat split;
    try apply Qle_refl; try apply min2_le_r; try apply max2_ge_r;
    try (intros x Hx; injection Hx as <-; try apply min2_le_l; try apply max2_ge_l);
    try discriminate.
Qed.

Lemma track_bracketed (s : series) (v : Q) : bracketed (track v s).
Proof.
  destruct (track_sample s v) as (lo & hi & H & Hlo & Hhi & _).
  right. exists lo, v, hi. auto.
Qed.

Lemma feed_bracketed (vs : list Q) : forall s, bracketed s -> bracketed (feed vs s).
Proof.
  induction vs as [|v vs IH]; intros s H; cbn; [exact H|].
  apply IH, track_bracketed.
Qed.

Lemma feed_min (vs : list Q) : forall s a,
  s_min s = Some a -> exists a', s_min (feed vs s) = Some a' /\ (a' <= a)%Q.
Proof.
  induction vs as [|v vs IH]; intros s a H; cbn.
  - exists a. split; [exact H|apply Qle_refl].
  - destruct (track_sample s v) as (lo & hi & Hn & _ & _ & Hmin & _).
    apply numbers_inv in Hn. destruct Hn as (Hlo & _ & _).
    destruct (IH (track v s) lo Hlo) as (a' & Ha' & Hle).
    exists a'. split; [exact Ha'|].
    eapply Qle_trans; [exact Hle|apply Hmin, H].
Qed.

Lemma feed_max (vs : list Q) : forall s b,
  s_max s = Some b -> exists b', s_max (feed vs s) = Some b' /\ (b <= b')%Q.
Proof.
  induction vs as [|v vs IH]; intros s b H; cbn.
  - exists b. split; [exact H|apply Qle_refl].
  - destruct (track_sample s v) as (lo & hi & Hn & _ & _ & _ & Hmax).
    apply numbers_inv in Hn. destruct Hn as (_ & Hhi & _).
    destruct (IH (track v s) hi Hhi) as (b' & Hb' & Hle).
    exists b'. split; [exact Hb'|].
    eapply Qle_trans; [apply Hmax, H|exact Hle].
Qed.

Lemma fed_refl (st : state) : fed st st.
Proof. intro m. exists []. reflexivity. Qed.

Lemma fed_trans (a b c : state) : fed a b -> fed b c -> fed a c.
Proof.
  intros Hab Hbc m.
  destruct (Hab m) as [vs Hvs], (Hbc m) as [ws Hws].
  exists (vs ++ ws). rewrite feed_app, Hws.
  apply numbers_feed, Hvs.
Qed.

Lemma fed_on (m : metric) (f : series -> series) (t : Q) (st : state) :
  (forall s, numbers (f s) = numbers (track t s)) -> fed st (on m f st).
Proof.
  intros Hf m'. unfold on. destruct (metric_eqb m m').
  - exists [t]. apply Hf.
  - exists []. reflexivity.
Qed.

Lemma update_fed (rd : readings) (st : state) : fed st (fst (update_from rd st)).
Proof.
  apply update_rule; clear st.
  - apply fed_refl.
  - apply fed_trans.
  - intros cpu key m st _ _. unfold cpu_temp.
    destruct (dict_get cpu key) as [[t c]|]; [|apply fed_refl].
    apply fed_on with (t := t). intro s. apply numbers_set_temp_colour.
  - intros clk st _. unfold clock. destruct clk as [q|]; [|apply fed_refl].
    destruct (nonzero (Some q)); [|apply fed_refl].
    apply fed_on with (t := q). reflexivity.
  - intros gpu key m st _ _. unfold gpu_temp_row.
    destruct (dict_get gpu key) as [[t c]|]; [|apply fed_refl].
    apply fed_on with (t := t). intro s. apply numbers_show_crit.
  - intros gclk gmemclk gfan st _. unfold clock. destruct gclk as [q|]; [|apply fed_refl].
    destruct (nonzero (Some q)); [|apply fed_refl].
    apply fed_on with (t := q). reflexivity.
  - intros gclk gmemclk gfan st _. unfold clock. destruct gmemclk as [q|]; [|apply fed_refl].
    destruct (nonzero (Some q)); [|apply fed_refl].
    apply fed_on with (t := q). reflexivity.
  - intros gclk gmemclk gfan st _. unfold fan_row. destruct gfan as [q|]; [|apply fed_refl].
    apply fed_on with (t := q). reflexivity.
  - intros d st _. unfold nvme_row. destruct d as [|[k [t c]] d]; [apply fed_refl|].
    apply fed_on with (t := t). reflexivity.
Qed.

Lemma ticks_snoc (fss : list node) (fs : node) : forall st,
  ticks (fss ++ [fs]) st = fst (update fs (ticks fss st)).
Proof.
  induction fss as [|f fss IH]; intro st; cbn; [reflexivity|apply IH].
Qed.

Lemma bracketed_numbers (s s' : series) :
  numbers s = numbers s' -> bracketed s' -> bracketed s.
Proof. unfold bracketed. intros ->. auto. Qed.

Lemma ticks_bracketed (fss : list node) (m : metric) : bracketed (ticks fss initial m).
Proof.
  induction fss as [|fs fss IH] using rev_ind.
  - left. reflexivity.
  - rewrite ticks_snoc.
    destruct (update_fed (poll fs) (ticks fss initial) m) as [vs Hvs].
    eapply bracketed_numbers; [exact Hvs|]. apply feed_bracketed, IH.
Qed.


(* ------------------------------------------------------------------ *)
(** ** Sampling gaps *)

Lemma lacks_get (d : dict reading) (key : string) :
  lacks (Ok d) key -> dict_get d key = None.
Proof.
  intros (d' & E & H). injection E as <-. unfold dict_in in H.
  destruct (dict_get d key); [discriminate|reflexivity].
Qed.

Lemma update_frame (rd : readings) (m : metric) (st : state) :
  unavailable rd m -> fst (update_from rd st) m = st m.
Proof.
  intro U.
  apply (update_rule rd (fun a b => b m = a m)); clear st.
  - reflexivity.
  - intros a b c Hab Hbc. congruence.
  - intros cpu key m' st E [K|K]; injection K as -> ->; unfold cpu_temp;
      destruct m; try (destruct (dict_get cpu _) as [[? ?]|]; reflexivity);
      cbn in U; rewrite E in U; rewrite (lacks_get _ _ U); reflexivity.
  - intros clk st E. unfold clock.
    destruct m; try (destruct clk; [destruct (nonzero _)|]; reflexivity).
    cbn in U. rewrite E in U. injection U as ->. reflexivity.
  - intros gpu key m' st Hin [K|[K|K]]; injection K as -> ->; unfold gpu_temp_row;
      destruct m; try (destruct (dict_get gpu _) as [[? ?]|]; reflexivity);
      cbn in U; rewrite (lacks_get _ _ (U _ Hin)); reflexivity.
  - intros gclk gmemclk gfan st E. unfold clock.
    destruct m; try (destruct gclk; [destruct (nonzero _)|]; reflexivity).
    cbn in U. destruct U as (x & y & U). rewrite E in U. injection U as -> _ _.
    reflexivity.
  - intros gclk gmemclk gfan st E. unfold clock.
    destruct m; try (destruct gmemclk; [destruct (nonzero _)|]; reflexivity).
    cbn in U. destruct U as (x & y & U). rewrite E in U. injection U as _ -> _.
    reflexivity.
  - intros gclk gmemclk gfan st E. unfold fan_row.
    destruct m; try (destruct gfan; reflexivity).
    cbn in U. destruct U as (x & y & U). rewrite E in U. injection U as _ _ ->.
    reflexivity.
  - intros d st E. unfold nvme_row.
    destruct m; try (destruct d as [|[? [? ?]] ?]; reflexivity).
    cbn in U. rewrite E in U. injection U as ->. reflexivity.
Qed.

(** A run of [update] ends by an exception only when a reader raised it. *)
Lemma gpu_temps_raises (gpus : list (result (dict reading))) : forall st e,
  snd (gpu_temps gpus st) = Some e -> In (Raise e) gpus.
Proof.
  induction gpus as [|r rest IH]; intros st e H; cbn in H; [discriminate|].
  destruct r as [gpu|e']; cbn in H.
  - right. eapply IH, H.
  - left. congruence.
Qed.

Lemma update_raises (rd : readings) (st : state) (e : exn) :
  snd (update_from rd st) = Some e ->
  r_cpu rd = Raise e \/ r_clk rd = Raise e \/ In (Raise e) (r_gpu rd) \/
  r_gclocks rd = Raise e \/ r_nvme rd = Raise e.
Proof.
  unfold update_from.
  destruct (r_cpu rd) as [cpu|e1]; cbn; [|intro H; left; congruence].
  destruct (r_clk rd) as [clk|e2]; cbn; [|intro H; right; left; congruence].
  destruct (gpu_temps (r_gpu rd) _) as [st3 [e3|]] eqn:E3; cbn.
  - intro H. right; right; left. injection H as <-.
    eapply gpu_temps_raises. rewrite E3. reflexivity.
  - destruct (r_gclocks rd) as [[[gclk gmemclk] gfan]|e4]; cbn;
      [|intro H; right; right; right; left; congruence].
    destruct (r_nvme rd) as [d|e5]; cbn; [discriminate|].
    intro H. right; right; right; right. congruence.
Qed.

(** A directory that does not exist has no entries to offer. *)
Lemma glob_missing (fs : node) (dir : path) (pat : list pat_item) :
  resolve fs dir = None -> glob fs dir pat = [].
Proof. unfold glob. intros ->. reflexivity. Qed.

Lemma read_hwmon_missing (fs : node) (dir : path) :
  resolve fs dir = None -> read_hwmon fs dir = Ok [].
Proof. intro H. unfold read_hwmon. rewrite glob_missing by exact H. reflexivity. Qed.

Lemma resolve_app (p q : path) : forall fs,
  resolve fs (p ++ q) =
  match resolve fs p with Some x => resolve x q | None => None end.
Proof.
  induction p as [|c p IH]; intro fs; cbn; [reflexivity|].
  destruct fs as [t| |l es]; try reflexivity.
  destruct (lookup_entry c es); [apply IH|reflexivity].
Qed.

Lemma exists_missing (fs : node) (dir q : path) :
  resolve fs dir = None -> exists_ fs (dir ++ q) = false.
Proof. intro H. unfold exists_. rewrite resolve_app, H. reflexivity. Qed.

Lemma gpu_scan_missing (fs : node) (h : path) (rest : list path) (acc : gpu_acc) :
  resolve fs h = None -> gpu_scan fs (h :: rest) acc = gpu_scan fs rest acc.
Proof.
  intro H. destruct acc as [[core_clocks mem_clock] fan]. cbn.
  rewrite glob_missing by exact H. cbn.
  rewrite !exists_missing by exact H. reflexivity.
Qed.

Lemma gpu_temps_missing (fs : node) (h : path) (rest : list path) (st : state) :
  resolve fs h = None ->
  gpu_temps (map (read_hwmon fs) (h :: rest)) st = gpu_temps (map (read_hwmon fs) rest) st.
Proof. intro H. cbn. rewrite read_hwmon_missing by exact H. reflexivity. Qed.

(* ------------------------------------------------------------------ *)
(** ** Example file systems *)

Example read_hwmon_cpu_both :
  read_hwmon fs_cpu_both CPU_HWMON
  = Ok [("Tctl", ((61500 # 1) / (1000 # 1), None)%Q); ("Tccd1", ((48000 # 1) / (1000 # 1), None)%Q)].
Proof. reflexivity. Qed.

Example read_gpu_idle :
  read_gpu_clocks_and_fan fs_gpu_idle
  = Ok (Some ((500000000 # 1) / (1000000 # 1))%Q, Some ((0 # 1) / (1000000 # 1))%Q, Some (0 # 1)%Q).
Proof. reflexivity. Qed.

(** C9.  A row that no sample reaches in a run of [update] is left exactly as
    it was, whether or not the run ends by an exception; a run ends by an
    exception only when a reader raised it; a directory that does not exist
    makes [read_hwmon] return the empty mapping and adds nothing to either
    loop over the GPU directories; and when no GPU directory exists the six
    GPU rows are left as they were. *)
Theorem C9_gap_leaves_series_untouched :
  (forall fs st m, unavailable (poll fs) m -> fst (update fs st) m = st m) /\
  (forall fs st e, snd (update fs st) = Some e ->
      read_hwmon fs CPU_HWMON = Raise e \/ read_cpu_clock fs = Raise e \/
      In (Raise e) (map (read_hwmon fs) GPU_HWMONS) \/
      read_gpu_clocks_and_fan fs = Raise e \/ read_hwmon fs NVME_HWMON = Raise e) /\
  (forall fs dir, resolve fs dir = None -> read_hwmon fs dir = Ok []) /\
  (forall fs h rest acc, resolve fs h = None ->
      gpu_scan fs (h :: rest) acc = gpu_scan fs rest acc) /\
  (forall fs h rest st, resolve fs h = None ->
      gpu_temps (map (read_hwmon fs) (h :: rest)) st
      = gpu_temps (map (read_hwmon fs) rest) st) /\
  (forall fs st, (forall h, In h GPU_HWMONS -> resolve fs h = None) ->
      forall m, In m [gpu_temp; gpu_hot; gpu_mem; gpu_clk; gpu_memclk; gpu_fan] ->
      fst (update fs st) m = st m).
Proof.
  split; [intros fs st m; apply update_frame|].
  split; [intros fs st e; apply (update_raises (poll fs))|].
  split; [apply read_hwmon_missing|].
  split; [apply gpu_scan_missing|].
  split; [apply gpu_temps_missing|].
  intros fs st Hmiss m Hm. apply update_frame.
  assert (H2 : resolve fs ["sys"; "class"; "hwmon"; "hwmon2"] = None)
    by (apply Hmiss; cbn; auto).
  assert (H3 : resolve fs ["sys"; "class"; "hwmon"; "hwmon3"] = None)
    by (apply Hmiss; cbn; auto).
  assert (Hg : r_gpu (poll fs) = [Ok []; Ok []]).
  { cbn. rewrite !read_hwmon_missing by assumption. reflexivity. }
  assert (Hc : r_gclocks (poll fs) = Ok (None, None, None)).
  { cbn. unfold read_gpu_clocks_and_fan, GPU_HWMONS.
    rewrite !gpu_scan_missing by assumption. reflexivity. }
  assert (Hl : forall key r, In r [Ok []; Ok []] -> lacks r key).
  { intros key r [<-|[<-|[]]]; exists []; split; reflexivity. }
  cbn in Hm.
  destruct Hm as [<-|[<-|[<-|[<-|[<-|[<-|[]]]]]]]; unfold unavailable;
    try (rewrite Hg; apply Hl); rewrite Hc; eauto.
Qed.

Lemma C9_witness :
  unavailable (poll fs_cpu_die_only) cpu_pkg /\
  numbers (st_after_both cpu_pkg)
  = (Some ((61500 # 1) / (1000 # 1))%Q, Some ((61500 # 1) / (1000 # 1))%Q,
     Some ((61500 # 1) / (1000 # 1))%Q) /\
  fst (update fs_cpu_die_only st_after_both) cpu_pkg = st_after_both cpu_pkg.
Proof.
  assert (U : unavailable (poll fs_cpu_die_only) cpu_pkg).
  { eexists. split; reflexivity. }
  split; [exact U|].
  split; [reflexivity|].
  exact (proj1 C9_gap_leaves_series_untouched fs_cpu_die_only st_after_both cpu_pkg U).
Defined.

(* ------------------------------------------------------------------ *)
(** ** Zero readings: clocks against the fan *)

Lemma nonzero_zero (z : Q) : (z == 0)%Q -> nonzero (Some z) = false.
Proof. intro H. cbn. apply Qeq_bool_iff in H. rewrite H. reflexivity. Qed.

Lemma nonzero_neq (z : Q) : nonzero (Some z) = true -> ~ (z == 0)%Q.
Proof.
  cbn. intros H E. apply Qeq_bool_iff in E. rewrite E in H. discriminate.
Qed.

Lemma clock_zero (z : Q) (m : metric) (st : state) :
  (z == 0)%Q -> clock (Some z) m st = clock None m st.
Proof. intro H. unfold clock. rewrite (nonzero_zero z H). reflexivity. Qed.

(** The rows that the loop over the GPU directories does not write. *)
Lemma gpu_temps_frame (gpus : list (result (dict reading))) (m : metric) (st : state) :
  m <> gpu_temp -> m <> gpu_hot -> m <> gpu_mem -> fst (gpu_temps gpus st) m = st m.
Proof.
  intros N1 N2 N3. revert st.
  induction gpus as [|r rest IH]; intro st; cbn; [reflexivity|].
  destruct r as [gpu|e]; cbn; [|reflexivity].
  rewrite IH. unfold gpu_temp_row.
  destruct (dict_get gpu "mem") as [[? ?]|], (dict_get gpu "junction") as [[? ?]|],
    (dict_get gpu "edge") as [[? ?]|]; destruct m; try reflexivity; congruence.
Qed.

Lemma track_min_nonzero (m m' : metric) (q : Q) (st : state) :
  ~ (q == 0)%Q -> min_nonzero m st -> min_nonzero m (on m' (track q) st).
Proof.
  intros Hq P a. unfold on. destruct (metric_eqb m' m); [|apply P].
  cbn. destruct (s_min (st m)) as [b|] eqn:E; intro H; injection H as <-.
  - destruct (min2_cases b q) as [-> | ->]; [apply P, E|exact Hq].
  - exact Hq.
Qed.

Lemma clock_min_nonzero (m m' : metric) (x : option Q) (st : state) :
  min_nonzero m st -> min_nonzero m (clock x m' st).
Proof.
  intro P. unfold clock. destruct x as [q|]; [|exact P].
  destruct (nonzero (Some q)) eqn:E; [|exact P].
  apply track_min_nonzero; [apply nonzero_neq, E|exact P].
Qed.

Lemma update_min_nonzero (rd : readings) (m : metric) (st : state) :
  is_clock m -> min_nonzero m st -> min_nonzero m (fst (update_from rd st)).
Proof.
  intros C.
  apply (update_rule rd (fun a b => min_nonzero m a -> min_nonzero m b)); clear st.
  - auto.
  - auto.
  - intros cpu key m' st _ [K|K]; injection K as -> ->; unfold cpu_temp;
      destruct (dict_get cpu _) as [[t c]|]; auto;
      intros P a; destruct C as [-> | [-> | ->]]; apply P.
  - intros. apply clock_min_nonzero. assumption.
  - intros gpu key m' st _ [K|[K|K]]; injection K as -> ->; unfold gpu_temp_row;
      destruct (dict_get gpu _) as [[t c]|]; auto;
      intros P a; destruct C as [-> | [-> | ->]]; apply P.
  - intros. apply clock_min_nonzero. assumption.
  - intros. apply clock_min_nonzero. assumption.
  - intros gclk gmemclk gfan st _ P a. unfold fan_row. destruct gfan; [|apply P].
    destruct C as [-> | [-> | ->]]; apply P.
  - intros d st _ P a. unfold nvme_row. destruct d as [|[k [t c]] d]; [apply P|].
    destruct C as [-> | [-> | ->]]; apply P.
Qed.

Lemma ticks_min_nonzero (fss : list node) (m : metric) :
  is_clock m -> min_nonzero m (ticks fss initial).
Proof.
  intro C. induction fss as [|fs fss IH] using rev_ind.
  - intros a H. discriminate.
  - rewrite ticks_snoc. apply update_min_nonzero; assumption.
Qed.

(** C10.  In a run of [update] a reading of zero from the CPU clock, the GPU
    core clock or the GPU memory clock has the effect of the reading [None]:
    the run is the same.  A fan reading, zero included, is fed to the fan row
    whenever the run reaches it.  So the minimum of the fan row can be zero
    (it is after one run on [fs_gpu_idle]), while over any number of ticks the
    minimum of a clock row is never zero. *)
Theorem C10_zero_clock_skipped_zero_fan_kept :
  (forall rd st z, r_clk rd = Ok (Some z) -> (z == 0)%Q ->
      update_from rd st = update_from (with_clk rd (Ok None)) st) /\
  (forall rd st z gmemclk gfan, r_gclocks rd = Ok (Some z, gmemclk, gfan) -> (z == 0)%Q ->
      update_from rd st = update_from (with_gclocks rd (Ok (None, gmemclk, gfan))) st) /\
  (forall rd st z gclk gfan, r_gclocks rd = Ok (gclk, Some z, gfan) -> (z == 0)%Q ->
      update_from rd st = update_from (with_gclocks rd (Ok (gclk, None, gfan))) st) /\
  (forall rd st gclk gmemclk z,
      r_gclocks rd = Ok (gclk, gmemclk, Some z) -> snd (update_from rd st) = None ->
      fst (update_from rd st) gpu_fan = track z (st gpu_fan)) /\
  numbers (fst (update fs_gpu_idle initial) gpu_fan) = (Some 0%Q, Some 0%Q, Some 0%Q) /\
  numbers (fst (update fs_gpu_idle initial) gpu_memclk) = (None, None, None) /\
  (forall fss m a, is_clock m -> s_min (ticks fss initial m) = Some a -> ~ (a == 0)%Q).
Proof.
  split.
  { intros rd st z E Z. unfold update_from, with_clk.
    cbn [r_cpu r_clk r_gpu r_gclocks r_nvme]. rewrite E.
    destruct (r_cpu rd); [|reflexivity].
    cbn [call]. rewrite (clock_zero z _ _ Z). reflexivity. }
  split.
  { intros rd st z gmemclk gfan E Z. unfold update_from, with_gclocks.
    cbn [r_cpu r_clk r_gpu r_gclocks r_nvme]. rewrite E.
    destruct (r_cpu rd); [|reflexivity].
    destruct (r_clk rd); [|reflexivity]. cbn [call].
    destruct (gpu_temps _ _) as [st3 [e|]]; [reflexivity|]. cbn [proceed call].
    rewrite (clock_zero z _ _ Z). reflexivity. }
  split.
  { intros rd st z gclk gfan E Z. unfold update_from, with_gclocks.
    cbn [r_cpu r_clk r_gpu r_gclocks r_nvme]. rewrite E.
    destruct (r_cpu rd); [|reflexivity].
    destruct (r_clk rd); [|reflexivity]. cbn [call].
    destruct (gpu_temps _ _) as [st3 [e|]]; [reflexivity|]. cbn [proceed call].
    rewrite (clock_zero z _ _ Z). reflexivity. }
  split.
  { intros rd st gclk gmemclk z E. unfold update_from. rewrite E.
    destruct (r_cpu rd) as [cpu|]; [|discriminate].
    destruct (r_clk rd) as [clk|]; [|discriminate]. cbn [call].
    destruct (gpu_temps _ _) as [st3 [e|]] eqn:E3; [discriminate|]. cbn [proceed call].
    assert (F3 : st3 gpu_fan = st gpu_fan).
    { change st3 with (fst (st3, @None exn)). rewrite <- E3.
      rewrite gpu_temps_frame by discriminate.
      unfold clock, cpu_temp.
      destruct clk as [q|]; [destruct (nonzero (Some q))|];
        destruct (dict_get cpu "Tccd1") as [[? ?]|], (dict_get cpu "Tctl") as [[? ?]|];
        reflexivity. }
    destruct (r_nvme rd) as [d|]; [|discriminate]. intros _. cbn [fst].
    unfold nvme_row, fan_row, clock.
    destruct d as [|[k [t c]] d];
      destruct gmemclk as [q1|]; try destruct (nonzero (Some q1));
      destruct gclk as [q2|]; try destruct (nonzero (Some q2));
      unfold on; cbn; rewrite F3; reflexivity. }
  split; [reflexivity|].
  split; [reflexivity|].
  intros fss m a C. apply ticks_min_nonzero, C.
Qed.

(* ------------------------------------------------------------------ *)
(** ** What is on disk *)

Lemma holds_int_scaled (fs : node) (p : path) (n k : Z) :
  holds_int fs p n ->
  (t <- read_text fs p ;; scaled t k)%py = Ok (inject_Z n / inject_Z k)%Q.
Proof. intros (t & -> & H). cbn. unfold scaled. rewrite H. reflexivity. Qed.

(* ------------------------------------------------------------------ *)
(** ** The CPU clock *)

Lemma cpu_freqs_spec (fs : node) (cpus : list path) : forall khz freqs,
  Forall2 (fun cpu n => holds_int fs (cur_freq cpu) n)
          (filter (fun cpu => exists_ fs (cur_freq cpu)) cpus) khz ->
  cpu_freqs fs cpus freqs = Ok (freqs ++ map ghz khz).
Proof.
  induction cpus as [|cpu rest IH]; intros khz freqs H; cbn in *.
  - inversion H; subst. cbn. rewrite app_nil_r. reflexivity.
  - fold (cur_freq cpu). destruct (exists_ fs (cur_freq cpu)) eqn:E.
    + inversion H as [|c n cs ns Hn Hrest]; subst.
      destruct Hn as (t & Ht & Hi). rewrite Ht. cbn. unfold scaled. rewrite Hi. cbn.
      rewrite (IH ns) by exact Hrest. cbn. rewrite <- app_assoc. reflexivity.
    + apply IH, H.
Qed.

(** C7.  When the frequency files that are present hold the integers [khz],
    in the order of the enumeration, [read_cpu_clock] returns the arithmetic
    mean of these frequencies converted from kHz to GHz, and [None], not
    zero, when the list is empty; core directories without a frequency file
    do not count. *)
Theorem C7_cpu_clock_is_mean_of_present_cores :
  forall (fs : node) (khz : list Z),
    Forall2 (fun cpu n => holds_int fs (cur_freq cpu) n) (present_cores fs) khz ->
    read_cpu_clock fs =
    Ok (match khz with
        | [] => None
        | _ => Some (mean (map ghz khz))
        end)
    /\ (present_cores fs = [] -> read_cpu_clock fs = Ok None).
Proof.
  intros fs khz H.
  assert (R : read_cpu_clock fs =
              Ok (match khz with [] => None | _ => Some (mean (map ghz khz)) end)).
  { unfold read_cpu_clock. rewrite (cpu_freqs_spec fs _ khz []) by exact H.
    cbn. destruct khz; reflexivity. }
  split; [exact R|].
  intro E. rewrite E in H. inversion H; subst. exact R.
Qed.

Lemma C7_witness :
  read_cpu_clock fs_cpus = Ok (Some (mean [ghz 3600000; ghz 4200000]))
  /\ (mean [ghz 3600000; ghz 4200000] == 39 # 10)%Q.
Proof.
  split; [|reflexivity].
  refine (proj1 (C7_cpu_clock_is_mean_of_present_cores fs_cpus [3600000; 4200000]%Z _)).
  repeat constructor; eexists; split; reflexivity.
Defined.

(* ------------------------------------------------------------------ *)
(** ** GPU clocks and fan *)

Lemma from_last_slot_cons_absent fs h hs slot f dflt v :
  exists_ fs (h ++ [slot]) = false ->
  from_last_slot fs hs slot f dflt v -> from_last_slot fs (h :: hs) slot f dflt v.
Proof.
  intros E [[-> H]|(hs1 & h0 & hs2 & n & -> & H)].
  - left. split; [reflexivity|]. intros h' [<-|Hin]; auto.
  - right. exists (h :: hs1), h0, hs2, n. split; [reflexivity|exact H].
Qed.

Lemma from_last_slot_cons_present fs h hs slot f dflt n v :
  exists_ fs (h ++ [slot]) = true -> holds_int fs (h ++ [slot]) n ->
  from_last_slot fs hs slot f (Some (f n)) v -> from_last_slot fs (h :: hs) slot f dflt v.
Proof.
  intros E Hn [[-> H]|(hs1 & h0 & hs2 & n0 & -> & H)].
  - right. exists [], h, hs, n. auto.
  - right. exists (h :: hs1), h0, hs2, n0. split; [reflexivity|exact H].
Qed.

Lemma core_freqs_spec (fs : node) (ps : list path) : forall vals core_clocks,
  Forall2 (holds_int fs) ps vals ->
  core_freqs fs ps core_clocks = Ok (core_clocks ++ positive_mhz vals).
Proof.
  induction ps as [|p rest IH]; intros vals cc H; inversion H as [|p' n ps' ns Hn Hrest]; subst.
  - cbn. rewrite app_nil_r. reflexivity.
  - destruct Hn as (t & Ht & Hi). cbn. rewrite Ht. cbn. rewrite Hi. cbn.
    unfold positive_mhz. cbn. destruct (0 <? n)%Z.
    + rewrite (IH ns) by exact Hrest. cbn. rewrite <- app_assoc. reflexivity.
    + apply IH, Hrest.
Qed.

Lemma positive_mhz_app (a b : list Z) : positive_mhz (a ++ b) = positive_mhz a ++ positive_mhz b.
Proof. unfold positive_mhz. rewrite filter_app, map_app. reflexivity. Qed.

Lemma gpu_scan_spec (fs : node) (hs : list path) : forall vals core_clocks mem_clock fan,
  Forall2 (holds_int fs) (core_channels fs hs) vals ->
  slot_sound fs hs "fan1_input" -> slot_sound fs hs "freq2_input" ->
  exists mem_clock' fan',
    gpu_scan fs hs (core_clocks, mem_clock, fan)
    = Ok (core_clocks ++ positive_mhz vals, mem_clock', fan') /\
    from_last_slot fs hs "freq2_input" mhz mem_clock mem_clock' /\
    from_last_slot fs hs "fan1_input" inject_Z fan fan'.
Proof.
  induction hs as [|h rest IH]; intros vals cc mem fan H Sfan Smem.
  - cbn in H. inversion H; subst. exists mem, fan. cbn. rewrite app_nil_r.
    split; [reflexivity|]. split; left; split; auto; intros ? [].
  - change (core_channels fs (h :: rest))
      with (glob fs h freq_inputs ++ core_channels fs rest) in H.
    apply Forall2_app_inv_l in H.
    destruct H as (v1 & v2 & H1 & H2 & ->).
    assert (Sfan' : slot_sound fs rest "fan1_input")
      by (intros h' Hin; apply Sfan; right; exact Hin).
    assert (Smem' : slot_sound fs rest "freq2_input")
      by (intros h' Hin; apply Smem; right; exact Hin).
    cbn [gpu_scan]. rewrite (core_freqs_spec fs _ v1 cc H1). cbn [rbind].
    rewrite positive_mhz_app, app_assoc.
    destruct (exists_ fs (h ++ ["fan1_input"])) eqn:Ef;
      destruct (exists_ fs (h ++ ["freq2_input"])) eqn:Em.
    + destruct (Sfan h (or_introl eq_refl) Ef) as [nf Hf].
      destruct (Smem h (or_introl eq_refl) Em) as [nm Hm].
      pose proof Hf as (tf & Htf & Hif). pose proof Hm as (tm & Htm & Him).
      rewrite Htf, Htm. cbn. rewrite Hif. unfold scaled. rewrite Him. cbn.
      destruct (IH v2 (cc ++ positive_mhz v1) (Some (mhz nm)) (Some (inject_Z nf)) H2 Sfan' Smem')
        as (m' & f' & E & Cm & Cf).
      exists m', f'. split; [exact E|].
      split; eapply from_last_slot_cons_present; eassumption.
    + destruct (Sfan h (or_introl eq_refl) Ef) as [nf Hf].
      pose proof Hf as (tf & Htf & Hif).
      rewrite Htf. cbn. rewrite Hif. cbn.
      destruct (IH v2 (cc ++ positive_mhz v1) mem (Some (inject_Z nf)) H2 Sfan' Smem')
        as (m' & f' & E & Cm & Cf).
      exists m', f'. split; [exact E|].
      split; [eapply from_last_slot_cons_absent|eapply from_last_slot_cons_present]; eassumption.
    + destruct (Smem h (or_introl eq_refl) Em) as [nm Hm].
      pose proof Hm as (tm & Htm & Him).
      rewrite Htm. cbn. unfold scaled. rewrite Him. cbn.
      destruct (IH v2 (cc ++ positive_mhz v1) (Some (mhz nm)) fan H2 Sfan' Smem')
        as (m' & f' & E & Cm & Cf).
      exists m', f'. split; [exact E|].
      split; [eapply from_last_slot_cons_present|eapply from_last_slot_cons_absent]; eassumption.
    + cbn.
      destruct (IH v2 (cc ++ positive_mhz v1) mem fan H2 Sfan' Smem')
        as (m' & f' & E & Cm & Cf).
      exists m', f'. split; [exact E|].
      split; eapply from_last_slot_cons_absent; eassumption.
Qed.

Lemma max_list_spec (l : list Q) : forall x,
  In (max_list x l) (x :: l) /\ forall y, In y (x :: l) -> (y <= max_list x l)%Q.
Proof.
  induction l as [|a l IH]; intro x; cbn.
  - split; [left; reflexivity|]. intros y [<-|[]]. apply Qle_refl.
  - destruct (IH (max2 x a)) as [Hin Hub]. fold (max_list (max2 x a) l).
    split.
    + destruct Hin as [E|Hin]; [|right; right; exact Hin].
      rewrite <- E. destruct (max2_cases x a) as [-> | ->]; auto.
    + intros y [<-|[<-|Hy]].
      * eapply Qle_trans; [apply max2_ge_l|apply Hub; left; reflexivity].
      * eapply Qle_trans; [apply max2_ge_r|apply Hub; left; reflexivity].
      * apply Hub. right. exact Hy.
Qed.

Lemma positive_mhz_pos (vals : list Z) (c : Q) : In c (positive_mhz vals) -> (0 < c)%Q.
Proof.
  unfold positive_mhz. rewrite in_map_iff. intros (v & <- & Hv).
  apply filter_In in Hv. destruct Hv as [_ Hv]. apply Z.ltb_lt in Hv.
  unfold mhz, Qlt, Qdiv, Qmult, Qinv. cbn. lia.
Qed.

(** C8.  When the channel files read hold integers, [read_gpu_clocks_and_fan]
    returns as core clock the greatest of the strictly positive readings of
    all [freq*_input] channels of all configured directories, converted from
    Hz to MHz, and [None] when there is no positive reading; the memory clock
    is that of [freq2_input] and the fan that of [fan1_input] in the last
    configured directory that has the file, and [None] when none has. *)
Theorem C8_gpu_core_max_and_last_slots :
  forall (fs : node) (vals : list Z),
    Forall2 (holds_int fs) (core_channels fs GPU_HWMONS) vals ->
    slot_sound fs GPU_HWMONS "fan1_input" ->
    slot_sound fs GPU_HWMONS "freq2_input" ->
    exists core mem_clock fan,
      read_gpu_clocks_and_fan fs = Ok (core, mem_clock, fan) /\
      (positive_mhz vals = [] -> core = None) /\
      (positive_mhz vals <> [] ->
         exists c, core = Some c /\ In c (positive_mhz vals) /\ (0 < c)%Q /\
                   forall x, In x (positive_mhz vals) -> (x <= c)%Q) /\
      from_last_slot fs GPU_HWMONS "freq2_input" mhz None mem_clock /\
      from_last_slot fs GPU_HWMONS "fan1_input" inject_Z None fan.
Proof.
  intros fs vals H Sfan Smem.
  destruct (gpu_scan_spec fs GPU_HWMONS vals [] None None H Sfan Smem)
    as (mem & fan & E & Cm & Cf).
  unfold read_gpu_clocks_and_fan. rewrite E. cbn [rbind app].
  destruct (positive_mhz vals) as [|x l] eqn:P.
  - exists None, mem, fan. repeat split; auto. intro N. congruence.
  - exists (Some (max_list x l)), mem, fan.
    destruct (max_list_spec l x) as [Hin Hub].
    repeat split; auto; try discriminate.
    intros _. exists (max_list x l). repeat split; auto.
    apply (positive_mhz_pos vals). rewrite P. exact Hin.
Qed.

Lemma C8_witness :
  exists core mem_clock fan,
    read_gpu_clocks_and_fan fs_two_gpus = Ok (core, mem_clock, fan) /\
    (exists c, core = Some c /\
               In c (positive_mhz [500000000; 96000000; 0; 1000000000]%Z) /\
               (0 < c)%Q /\
               forall x, In x (positive_mhz [500000000; 96000000; 0; 1000000000]%Z) ->
                         (x <= c)%Q) /\
    from_last_slot fs_two_gpus GPU_HWMONS "freq2_input" mhz None mem_clock /\
    from_last_slot fs_two_gpus GPU_HWMONS "fan1_input" inject_Z None fan.
Proof.
  assert (H : Forall2 (holds_int fs_two_gpus) (core_channels fs_two_gpus GPU_HWMONS)
                      [500000000; 96000000; 0; 1000000000]%Z)
    by (repeat constructor; eexists; split; reflexivity).
  assert (S : forall slot, slot = "fan1_input" \/ slot = "freq2_input" ->
                           slot_sound fs_two_gpus GPU_HWMONS slot).
  { intros slot Hs h [<-|[<-|[]]] E; destruct Hs as [-> | ->];
      try discriminate E; eexists; eexists; split; reflexivity. }
  destruct (C8_gpu_core_max_and_last_slots fs_two_gpus _ H (S _ (or_introl eq_refl))
              (S _ (or_intror eq_refl)))
    as (core & mem & fan & E & _ & C & Cm & Cf).
  exists core, mem, fan. split; [exact E|]. split; [|split; assumption].
  apply C. discriminate.
Defined.

Example read_two_gpus :
  read_gpu_clocks_and_fan fs_two_gpus
  = Ok (Some (mhz 1000000000), Some (mhz 1000000000), Some (inject_Z 1200)).
Proof. reflexivity. Qed.

(* ------------------------------------------------------------------ *)
(** ** The hwmon reader *)

Lemma read_text_exists (fs : node) (p : path) (t : string) :
  read_text fs p = Ok t -> exists_ fs p = true.
Proof.
  unfold read_text, exists_. destruct (resolve fs p) as [[| |]|]; intro H;
    try reflexivity; discriminate.
Qed.

Lemma read_channel_spec (fs : node) (dir p : path) (e : option (string * reading))
    (results : dict reading) :
  on_disk fs dir p e -> read_channel fs dir p results = Ok (store results e).
Proof.
  unfold read_channel. destruct e as [[name [value crit_val]]|]; cbn.
  - intros ((l & Hl & Hname) & (n & (t & Ht & Hn) & ->) & Hc).
    rewrite (read_text_exists _ _ _ Hl), Hl. cbn. rewrite Ht. cbn.
    unfold scaled at 1. rewrite Hn. cbn.
    destruct (exists_ fs (crit_of dir p)).
    + destruct Hc as (c & (tc & Htc & Hic) & ->). rewrite Htc. cbn.
      unfold scaled. rewrite Hic. cbn. rewrite Hname. reflexivity.
    + rewrite Hc, Hname. reflexivity.
  - intros ->. reflexivity.
Qed.

Lemma read_channels_spec (fs : node) (dir : path) (ps : list path) :
  forall es results,
    Forall2 (on_disk fs dir) ps es ->
    read_channels fs dir ps results = Ok (fold_left store es results).
Proof.
  induction ps as [|p rest IH]; intros es results H;
    inversion H as [|p' e ps' es' He Hrest]; subst; cbn; [reflexivity|].
  rewrite (read_channel_spec _ _ _ e) by exact He. cbn. apply IH, Hrest.
Qed.

Lemma dict_get_set {V} (d : dict V) (k k' : string) (v : V) :
  dict_get (dict_set d k v) k' = if String.eqb k k' then Some v else dict_get d k'.
Proof.
  induction d as [|[k0 v0] d IH]; cbn.
  - reflexivity.
  - destruct (String.eqb k0 k) eqn:E0; cbn.
    + apply String.eqb_eq in E0. subst k0.
      destruct (String.eqb k k'); reflexivity.
    + destruct (String.eqb k0 k') eqn:E1.
      * apply String.eqb_eq in E1. subst k0.
        rewrite String.eqb_sym, E0. reflexivity.
      * exact IH.
Qed.

Lemma dict_get_store (es : list (option (string * reading))) (name : string) :
  forall results,
    dict_get (fold_left store es results) name =
    match last_binding name es with
    | Some r => Some r
    | None => dict_get results name
    end.
Proof.
  induction es as [|e es IH]; intro results; cbn; [reflexivity|].
  rewrite IH. destruct (last_binding name es); [reflexivity|].
  destruct e as [[k r]|]; cbn; [|reflexivity].
  rewrite dict_get_set. destruct (String.eqb k name); reflexivity.
Qed.

Lemma last_binding_in (name : string) (es : list (option (string * reading))) (r : reading) :
  last_binding name es = Some r -> In (Some (name, r)) es.
Proof.
  induction es as [|e es IH]; cbn; [discriminate|].
  destruct (last_binding name es) as [r'|].
  - intro H. right. apply IH. exact H.
  - destruct e as [[k r']|]; [|discriminate].
    destruct (String.eqb k name) eqn:E; [|discriminate].
    apply String.eqb_eq in E. subst k. intro H. injection H as ->. left. reflexivity.
Qed.

Lemma in_last_binding (name : string) (es : list (option (string * reading))) (r : reading) :
  In (Some (name, r)) es -> exists r', last_binding name es = Some r'.
Proof.
  induction es as [|e es IH]; cbn; [intros []|].
  intros [->|Hin].
  - destruct (last_binding name es) as [r'|]; [eauto|].
    rewrite String.eqb_refl. eauto.
  - destruct (IH Hin) as [r' ->]. eauto.
Qed.

Lemma last_binding_last (name : string) (es1 es2 : list (option (string * reading)))
    (r : reading) :
  (forall r', ~ In (Some (name, r')) es2) ->
  last_binding name (es1 ++ Some (name, r) :: es2) = Some r.
Proof.
  intro N.
  assert (E2 : last_binding name es2 = None).
  { destruct (last_binding name es2) as [r'|] eqn:E; [|reflexivity].
    exfalso. exact (N r' (last_binding_in _ _ _ E)). }
  induction es1 as [|e es1 IH]; cbn.
  - rewrite E2, String.eqb_refl. reflexivity.
  - rewrite IH. reflexivity.
Qed.

(** *** Channels and their files *)

Lemma lookup_entry_in (n : string) (x : node) (es : list (string * node)) :
  In (n, x) es -> exists y, lookup_entry n es = Some y.
Proof.
  induction es as [|[n' x'] es IH]; cbn; [intros []|].
  intros [E|Hin].
  - injection E as -> ->. rewrite String.eqb_refl. eauto.
  - destruct (String.eqb n' n); [eauto|apply IH, Hin].
Qed.

Lemma lookup_entry_some (n : string) (y : node) (es : list (string * node)) :
  lookup_entry n es = Some y -> In (n, y) es.
Proof.
  induction es as [|[n' x'] es IH]; cbn; [discriminate|].
  destruct (String.eqb n' n) eqn:E.
  - apply String.eqb_eq in E. subst n'. intro H. injection H as ->. left. reflexivity.
  - intro H. right. apply IH, H.
Qed.

(** The input files that [glob] yields exist, and every existing file of a
    listable directory whose name matches is among them. *)
Lemma glob_exists (fs : node) (dir p : path) (pat : list pat_item) :
  In p (glob fs dir pat) ->
  exists n, p = dir ++ [n] /\ fnmatch pat n = true /\ exists_ fs p = true.
Proof.
  unfold glob. destruct (resolve fs dir) as [[| |[|] es]|] eqn:R; try (intros []).
  rewrite in_map_iff. intros ([n x] & <- & Hin). apply filter_In in Hin.
  destruct Hin as [Hin Hm]. cbn in *. exists n. repeat split; [exact Hm|].
  unfold exists_. rewrite resolve_app, R. cbn.
  destruct (lookup_entry_in _ _ _ Hin) as [y ->]. reflexivity.
Qed.

Lemma exists_glob (fs : node) (dir : path) (pat : list pat_item) (n : string)
    (es : list (string * node)) :
  resolve fs dir = Some (Dir true es) ->
  fnmatch pat n = true -> exists_ fs (dir ++ [n]) = true ->
  In (dir ++ [n]) (glob fs dir pat).
Proof.
  intros R Hm. unfold exists_, glob. rewrite resolve_app, R. cbn.
  destruct (lookup_entry n es) as [y|] eqn:L; [|discriminate]. intros _.
  apply in_map_iff. exists (n, y). split; [reflexivity|].
  apply filter_In. split; [apply lookup_entry_some, L|exact Hm].
Qed.

Lemma rfind_dot_digits (n : string) :
  all_digits n = true -> PyStr.rfind "." (n ++ "_input")%string = None.
Proof.
  induction n as [|c n IH]; cbn; [reflexivity|].
  intro H. apply andb_prop in H. destruct H as [Hc Hn].
  fold (PyStr.rfind "." (n ++ "_input")%string). rewrite (IH Hn).
  digit_cases c Hc; reflexivity.
Qed.

Lemma replace_temp_digits (n : string) :
  all_digits n = true ->
  PyStr.replace_from "temp" "" 0 (n ++ "_input")%string = (n ++ "_input")%string.
Proof.
  induction n as [|c n IH]; [reflexivity|].
  intro H. cbn in H. apply andb_prop in H. destruct H as [Hc Hn].
  change (String c n ++ "_input")%string with (String c (n ++ "_input")%string).
  cbn [PyStr.replace_from].
  replace (String.prefix "temp" (String c (n ++ "_input")%string)) with false
    by (digit_cases c Hc; reflexivity).
  rewrite (IH Hn). reflexivity.
Qed.

Lemma replace_input_digits (n : string) :
  all_digits n = true ->
  PyStr.replace_from "_input" "" 0 (n ++ "_input")%string = n.
Proof.
  induction n as [|c n IH]; [reflexivity|].
  intro H. cbn in H. apply andb_prop in H. destruct H as [Hc Hn].
  change (String c n ++ "_input")%string with (String c (n ++ "_input")%string).
  cbn [PyStr.replace_from].
  replace (String.prefix "_input" (String c (n ++ "_input")%string)) with false
    by (digit_cases c Hc; reflexivity).
  rewrite (IH Hn). reflexivity.
Qed.

(** For a channel numbered [n], the index cut out of [temp<n>_input] is [n]:
    its label file is [temp<n>_label] and its critical file [temp<n>_crit]. *)
Lemma channel_idx_digits (dir : path) (n : string) :
  all_digits n = true ->
  channel_idx (dir ++ [("temp" ++ n ++ "_input")%string]) = n.
Proof.
  intro H. unfold channel_idx, stem, name. rewrite last_last.
  assert (D : PyStr.rfind "." ("temp" ++ n ++ "_input")%string = None).
  { cbn. fold (PyStr.rfind "." (n ++ "_input")%string).
    rewrite (rfind_dot_digits n H). reflexivity. }
  rewrite D. unfold PyStr.replace.
  assert (T : PyStr.replace_from "temp" "" 0 ("temp" ++ n ++ "_input")%string
              = (n ++ "_input")%string).
  { cbn. replace (String.prefix "" (n ++ "_input")%string) with true
      by (destruct (n ++ "_input")%string; reflexivity).
    apply replace_temp_digits, H. }
  rewrite T. apply replace_input_digits, H.
Qed.

Lemma temp_inputs_digits (n : string) :
  fnmatch temp_inputs ("temp" ++ n ++ "_input")%string = true.
Proof.
  cbn. induction n as [|c n IH]; [reflexivity|].
  cbn. cbn in IH. rewrite IH. apply orb_true_r.
Qed.

Lemma labelled_fun (fs : node) (dir p : path) (a b : string) :
  labelled fs dir p a -> labelled fs dir p b -> a = b.
Proof. intros (l & Hl & <-) (l' & Hl' & <-). congruence. Qed.

Lemma on_disk_labelled (fs : node) (dir : path) (ps : list path) :
  forall es, Forall2 (on_disk fs dir) ps es ->
  forall name, (exists r, In (Some (name, r)) es) <->
               (exists p, In p ps /\ labelled fs dir p name).
Proof.
  induction ps as [|p ps IH]; intros es H name;
    inversion H as [|p' e ps' es' He Hrest]; subst.
  - split; [intros [r []]|intros [p [[] _]]].
  - specialize (IH es' Hrest name). split.
    + intros [r [E|Hin]].
      * subst e. destruct r as [value crit_val]. destruct He as (L & _).
        exists p. split; [left; reflexivity|exact L].
      * destruct (proj1 IH (ex_intro _ r Hin)) as (q & Hq & L).
        exists q. split; [right; exact Hq|exact L].
    + intros (q & [<-|Hq] & L).
      * destruct e as [[k [value crit_val]]|].
        -- destruct He as (L' & _). rewrite (labelled_fun _ _ _ _ _ L L').
           exists (value, crit_val). left. reflexivity.
        -- cbn in He. destruct L as (l & Hl & _).
           rewrite (read_text_exists _ _ _ Hl) in He. discriminate.
      * destruct (proj2 IH (ex_intro _ q (conj Hq L))) as [r Hin].
        exists r. right. exact Hin.
Qed.

Lemma on_disk_in (fs : node) (dir : path) (ps : list path)
    (es : list (option (string * reading))) (e : option (string * reading)) :
  Forall2 (on_disk fs dir) ps es -> In e es ->
  exists p, In p ps /\ on_disk fs dir p e.
Proof.
  induction 1 as [|p e' ps es He _ IH]; [intros []|].
  intros [<-|Hin].
  - exists p. split; [left; reflexivity|exact He].
  - destruct (IH Hin) as (q & Hq & D). exists q. split; [right; exact Hq|exact D].
Qed.

(** C3.  Let [es] be what the disk holds for the channels that
    [temp*_input] enumerates in [dir], in order: for a channel with a label
    file its label, the integer of its input file divided by 1000 and the
    integer of its critical file divided by 1000 ([None] without that file);
    for a channel without a label file nothing.  Then [read_hwmon] returns a
    mapping that has a key exactly for the labels of the channels whose input
    file and label file both exist; every value of the mapping is the reading
    on disk of a channel that carries its label, namely of the last one
    enumerated; channels without a label file add nothing; and the label and
    critical files of the channel [temp<n>_input] are [temp<n>_label] and
    [temp<n>_crit]. *)
Theorem C3_read_hwmon_maps_labelled_channels :
  forall (fs : node) (dir : path) (es : list (option (string * reading))),
    Forall2 (on_disk fs dir) (glob fs dir temp_inputs) es ->
    exists results,
      read_hwmon fs dir = Ok results /\
      (forall name,
          dict_in name results = true <->
          exists p, In p (glob fs dir temp_inputs) /\ exists_ fs p = true /\
                    labelled fs dir p name) /\
      (forall name r,
          dict_get results name = Some r ->
          exists p, In p (glob fs dir temp_inputs) /\
                    on_disk fs dir p (Some (name, r))) /\
      (forall name es1 r es2,
          es = es1 ++ Some (name, r) :: es2 ->
          (forall r', ~ In (Some (name, r')) es2) ->
          dict_get results name = Some r) /\
      (Forall (fun e => e = None) es -> results = []) /\
      (forall n, all_digits n = true ->
          let p := dir ++ [("temp" ++ n ++ "_input")%string] in
          label_of dir p = dir ++ [("temp" ++ n ++ "_label")%string] /\
          crit_of dir p = dir ++ [("temp" ++ n ++ "_crit")%string] /\
          (forall entries, resolve fs dir = Some (Dir true entries) ->
                           exists_ fs p = true -> In p (glob fs dir temp_inputs))).
Proof.
  intros fs dir es H.
  exists (fold_left store es []).
  split; [apply read_channels_spec, H|].
  split; [|split; [|split; [|split]]]; cycle 4.
  - intros n Hn p. unfold label_of, crit_of, p. rewrite (channel_idx_digits dir n Hn).
    repeat split. intros entries R E.
    eapply exists_glob; [exact R|apply temp_inputs_digits|exact E].
  - intro name. unfold dict_in. rewrite dict_get_store. cbn.
    transitivity (exists r, In (Some (name, r)) es).
    + split.
      * destruct (last_binding name es) as [r|] eqn:E; [|discriminate].
        intros _. exists r. apply last_binding_in, E.
      * intros [r Hin]. destruct (in_last_binding _ _ _ Hin) as [r' ->]. reflexivity.
    + rewrite (on_disk_labelled fs dir _ es H name). split.
      * intros (p & Hp & L). exists p. repeat split; auto.
        destruct (glob_exists _ _ _ _ Hp) as (n & _ & _ & E). exact E.
      * intros (p & Hp & _ & L). exists p. auto.
  - intros name r. rewrite dict_get_store. cbn [dict_get].
    destruct (last_binding name es) as [r'|] eqn:E; [|discriminate].
    intro R. injection R as ->.
    apply (on_disk_in fs dir _ es _ H), last_binding_in, E.
  - intros name es1 r es2 -> N. rewrite dict_get_store.
    rewrite (last_binding_last name es1 es2 r N). reflexivity.
  - clear H. intro F. induction F as [|e es' -> F IH]; [reflexivity|exact IH].
Qed.

Lemma C3_witness :
  exists results,
    read_hwmon fs_gpu_temps hwmon2 = Ok results /\
    dict_get results "edge" = Some (degrees 45000, Some (degrees 100000)) /\
    dict_get results "junction" = Some (degrees 47000, None) /\
    (forall name,
        dict_in name results = true <->
        exists p, In p (glob fs_gpu_temps hwmon2 temp_inputs) /\
                  exists_ fs_gpu_temps p = true /\ labelled fs_gpu_temps hwmon2 p name).
Proof.
  assert (H : Forall2 (on_disk fs_gpu_temps hwmon2) (glob fs_gpu_temps hwmon2 temp_inputs)
                [Some ("edge", (degrees 45000, Some (degrees 100000)));
                 None;
                 Some ("junction", (degrees 47000, None))]).
  { repeat constructor.
    - eexists; split; reflexivity.
    - eexists; split; [eexists; split; reflexivity|reflexivity].
    - cbn. eexists; split; [eexists; split; reflexivity|reflexivity].
    - eexists; split; reflexivity.
    - eexists; split; [eexists; split; reflexivity|reflexivity]. }
  destruct (C3_read_hwmon_maps_labelled_channels fs_gpu_temps hwmon2 _ H)
    as (results & E & K & _ & V & _).
  exists results. split; [exact E|]. split; [|split; [|exact K]].
  - apply (V "edge" [] _ [None; Some ("junction", (degrees 47000, None))] eq_refl).
    intros r' [F|[F|[]]]; discriminate.
  - apply (V "junction" [Some ("edge", (degrees 45000, Some (degrees 100000))); None]
             _ [] eq_refl).
    intros r' [].
Defined.

Example read_gpu_temps :
  read_hwmon fs_gpu_temps hwmon2
  = Ok [("edge", (degrees 45000, Some (degrees 100000)));
        ("junction", (degrees 47000, None))].
Proof. reflexivity. Qed.

(* ------------------------------------------------------------------ *)
(** ** Errors of the hwmon reader *)

Lemma glob_unlistable (fs : node) (dir : path) (pat : list pat_item) :
  unlistable fs dir -> glob fs dir pat = [].
Proof.
  unfold unlistable, glob.
  destruct (resolve fs dir) as [[| |[|] es]|]; intro H; try reflexivity. destruct H.
Qed.

Lemma read_channel_malformed (fs : node) (dir p : path) (results : dict reading) :
  malformed fs dir p -> exists e, read_channel fs dir p results = Raise e.
Proof.
  intros [L M]. unfold read_channel. rewrite L.
  destruct (read_text fs (label_of dir p)) as [l|e]; cbn; [|eauto].
  destruct M as [(t & Ht & Hi)|[(n & t & Ht & Hi) (tc & Htc & Hic)]].
  - rewrite Ht. cbn. unfold scaled. rewrite Hi. cbn. eauto.
  - rewrite Ht. cbn. unfold scaled at 1. rewrite Hi. cbn.
    rewrite (read_text_exists _ _ _ Htc), Htc. cbn. unfold scaled. rewrite Hic. cbn. eauto.
Qed.

Lemma read_channels_malformed (fs : node) (dir p : path) (ps : list path) :
  In p ps -> malformed fs dir p ->
  forall results, exists e, read_channels fs dir ps results = Raise e.
Proof.
  intros Hin M. induction ps as [|q ps IH]; [destruct Hin|].
  intro results. cbn. destruct Hin as [->|Hin].
  - destruct (read_channel_malformed fs dir p results M) as [e ->]. cbn. eauto.
  - destruct (read_channel fs dir q results) as [results'|e]; cbn; [|eauto].
    apply IH, Hin.
Qed.

Lemma sound_on_disk (fs : node) (dir : path) (ps : list path) :
  Forall (sound fs dir) ps -> exists es, Forall2 (on_disk fs dir) ps es.
Proof.
  induction 1 as [|p ps Hp _ [es IH]]; [exists []; constructor|].
  destruct (exists_ fs (label_of dir p)) eqn:E.
  - destruct (Hp E) as (name & value & crit_val & D).
    exists (Some (name, (value, crit_val)) :: es). constructor; assumption.
  - exists (None :: es). constructor; assumption.
Qed.

(** One labelled channel with malformed numeric content: the read raises and
    the reading of the channel [edge], whose files are well formed, is not
    returned. *)
Lemma C4_counterexample :
  read_hwmon fs_gpu_garbled hwmon2 = Raise ValueError /\
  labelled fs_gpu_garbled hwmon2 (hwmon2 ++ ["temp1_input"]) "edge" /\
  holds_int fs_gpu_garbled (hwmon2 ++ ["temp1_input"]) 45000 /\
  garbled fs_gpu_garbled (hwmon2 ++ ["temp3_input"]).
Proof.
  split; [reflexivity|].
  repeat split; eexists; split; reflexivity.
Qed.

(** C4, as the code has it.  [read_hwmon] returns the empty mapping for a
    directory that does not exist or cannot be listed; it returns a mapping
    when every channel that has a label file is sound; a channel without a
    label file is passed over without its files being read; and when some
    enumerated channel with a label file has malformed numeric content the
    read raises and returns no mapping at all. *)
Theorem C4_read_hwmon_errors :
  forall (fs : node) (dir : path),
    (unlistable fs dir -> read_hwmon fs dir = Ok []) /\
    (Forall (sound fs dir) (glob fs dir temp_inputs) ->
     exists results, read_hwmon fs dir = Ok results) /\
    (forall p results, exists_ fs (label_of dir p) = false ->
                       read_channel fs dir p results = Ok results) /\
    (forall p, In p (glob fs dir temp_inputs) -> malformed fs dir p ->
               exists e, read_hwmon fs dir = Raise e).
Proof.
  intros fs dir. repeat split.
  - intro U. unfold read_hwmon. rewrite (glob_unlistable _ _ _ U). reflexivity.
  - intro S. destruct (sound_on_disk _ _ _ S) as [es H].
    exists (fold_left store es []). apply read_channels_spec, H.
  - intros p results E. unfold read_channel. rewrite E. reflexivity.
  - intros p Hin M. apply (read_channels_malformed fs dir p _ Hin M).
Qed.

Lemma C4_witness :
  read_hwmon (Dir true []) hwmon2 = Ok [] /\
  (exists results, read_hwmon fs_gpu_temps hwmon2 = Ok results) /\
  (exists e, read_hwmon fs_gpu_garbled hwmon2 = Raise e).
Proof.
  split; [|split].
  - apply (proj1 (C4_read_hwmon_errors (Dir true []) hwmon2)). exact I.
  - apply (proj1 (proj2 (C4_read_hwmon_errors fs_gpu_temps hwmon2))).
    repeat constructor; intro E; try discriminate E.
    + exists "edge", (degrees 45000), (Some (degrees 100000)).
      split; [eexists; split; reflexivity|].
      split; [eexists; split; [eexists; split; reflexivity|reflexivity]|].
      cbn. eexists; split; [eexists; split; reflexivity|reflexivity].
    + exists "junction", (degrees 47000), None.
      split; [eexists; split; reflexivity|].
      split; [eexists; split; [eexists; split; reflexivity|reflexivity]|].
      reflexivity.
  - apply (proj2 (proj2 (proj2 (C4_read_hwmon_errors fs_gpu_garbled hwmon2)))
             (hwmon2 ++ ["temp3_input"])).
    + cbn. auto.
    + split; [reflexivity|]. left. eexists; split; reflexivity.
Defined.

(* ------------------------------------------------------------------ *)
(** ** Hardware names *)

Lemma split_char1_at (sep : ascii) (before after : string) :
  contains sep before = false ->
  PyStr.split_char1 sep (before ++ String sep after)%string = [before; after].
Proof.
  induction before as [|c before IH]; cbn.
  - intros _. rewrite Ascii.eqb_refl. reflexivity.
  - intro H. apply orb_false_iff in H. destruct H as [Hc Hb].
    rewrite Hc, (IH Hb). reflexivity.
Qed.

Lemma split_char1_none (sep : ascii) (s : string) :
  contains sep s = false -> PyStr.split_char1 sep s = [s].
Proof.
  induction s as [|c s IH]; cbn; [reflexivity|].
  intro H. apply orb_false_iff in H. destruct H as [Hc Hs].
  rewrite Hc, (IH Hs). reflexivity.
Qed.

Lemma cpu_name_scan_skip (pre rest : list string) :
  Forall (fun l => is_model_name l = false) pre ->
  cpu_name_scan (pre ++ rest) = cpu_name_scan rest.
Proof.
  induction 1 as [|l pre Hl _ IH]; cbn; [reflexivity|].
  unfold is_model_name in Hl. rewrite Hl. exact IH.
Qed.

Lemma cpu_name_scan_none (lines : list string) :
  Forall (fun l => is_model_name l = false) lines -> cpu_name_scan lines = Ok None.
Proof.
  intro H. rewrite <- (app_nil_r lines). rewrite (cpu_name_scan_skip _ _ H). reflexivity.
Qed.

(** The lines split at the first one that starts with [model name]. *)
Lemma first_model_name (lines : list string) :
  Forall (fun l => is_model_name l = false) lines \/
  exists pre line rest,
    lines = pre ++ line :: rest /\
    Forall (fun l => is_model_name l = false) pre /\ is_model_name line = true.
Proof.
  induction lines as [|l lines IH]; [left; constructor|].
  destruct (is_model_name l) eqn:E.
  - right. exists [], l, lines. repeat split; auto.
  - destruct IH as [IH|(pre & line & rest & -> & Hpre & Hline)].
    + left. constructor; assumption.
    + right. exists (l :: pre), line, rest. repeat split; auto.
Qed.

Lemma contains_dec (c : ascii) (s : string) :
  contains c s = false \/
  exists before after, s = (before ++ String c after)%string /\ contains c before = false.
Proof.
  induction s as [|c' s IH]; [left; reflexivity|].
  cbn. destruct (Ascii.eqb c' c) eqn:E.
  - right. apply Ascii.eqb_eq in E. subst c'. exists EmptyString, s. split; reflexivity.
  - destruct IH as [IH|(before & after & -> & Hb)].
    + left. exact IH.
    + right. exists (String c' before), after. split; [reflexivity|].
      cbn. rewrite E. exact Hb.
Qed.

Lemma gpu_name_scan_skip (fs : node) (pre rest : list path) :
  Forall (fun c => usable fs c = false) pre ->
  gpu_name_scan fs (pre ++ rest) = gpu_name_scan fs rest.
Proof.
  induction 1 as [|c pre Hc _ IH]; cbn; [reflexivity|].
  unfold usable, vendor_file, device_file in Hc. rewrite Hc. exact IH.
Qed.

Lemma pci_line_return (vendor device line r : string) (cv : option string) :
  pci_line vendor device cv line = Ok (Return r) ->
  exists v p0 p1,
    cv = Some v /\ PyStr.truthy v = true /\ PyStr.startswith line TABS = true /\
    subscript (PyStr.split_ws1 (PyStr.strip line)) 0 = Ok p0 /\
    String.eqb (PyStr.lower p0) device = true /\
    subscript (PyStr.split_ws1 (PyStr.strip line)) 1 = Ok p1 /\
    r = (v ++ " " ++ p1)%string.
Proof.
  unfold pci_line.
  destruct (negb (PyStr.truthy line) || PyStr.startswith line "#"); [discriminate|].
  destruct (PyStr.startswith line TABS) eqn:T; cbn [negb].
  - destruct cv as [v|]; [|discriminate].
    destruct (PyStr.truthy v) eqn:Tv; [|discriminate].
    destruct (subscript (PyStr.split_ws1 (PyStr.strip line)) 0) as [p0|]; [|discriminate].
    cbn [rbind]. destruct (String.eqb (PyStr.lower p0) device) eqn:E; [|discriminate].
    destruct (subscript (PyStr.split_ws1 (PyStr.strip line)) 1) as [p1|]; [|discriminate].
    cbn [rbind]. intro H. injection H as <-. exists v, p0, p1. repeat split; auto.
  - destruct (subscript (PyStr.split_ws1 line) 0) as [p0|]; [|discriminate].
    cbn [rbind].
    destruct (String.eqb (PyStr.lower p0) vendor && (1 <? List.length (PyStr.split_ws1 line)));
      [|discriminate].
    destruct (subscript (PyStr.split_ws1 line) 1); discriminate.
Qed.

Lemma pci_scan_truthy (vendor device : string) (lines : list string) :
  forall cv r, pci_scan vendor device cv lines = Ok (Some r) -> PyStr.truthy r = true.
Proof.
  induction lines as [|line rest IH]; intros cv r; cbn [pci_scan]; [discriminate|].
  destruct (pci_line vendor device cv line) as [[cv'|r']|] eqn:E; cbn [rbind];
    [apply IH| |discriminate].
  intro H. injection H as <-.
  destruct (pci_line_return _ _ _ _ _ E) as (v & p0 & p1 & _ & Tv & _ & _ & _ & _ & ->).
  destruct v; [discriminate Tv|reflexivity].
Qed.

Lemma lookup_truthy (fs : node) (vendor device r : string) :
  lookup_pci_name fs vendor device = Ok (Some r) -> PyStr.truthy r = true.
Proof.
  unfold lookup_pci_name. destruct (negb (exists_ fs PCI_IDS)); [discriminate|].
  destruct (read_text fs PCI_IDS) as [text|]; cbn; [|discriminate].
  apply pci_scan_truthy.
Qed.

Lemma get_cpu_name_found (fs : node) (text : string) (pre rest : list string)
    (before after : string) :
  read_text fs cpuinfo = Ok text ->
  PyStr.splitlines text = pre ++ (before ++ String ":" after)%string :: rest ->
  Forall (fun l => is_model_name l = false) pre ->
  is_model_name (before ++ String ":" after)%string = true ->
  contains ":" before = false ->
  get_cpu_name fs = Ok (PyStr.strip after).
Proof.
  intros Ht Hs Hpre Hline Hb. unfold get_cpu_name. fold cpuinfo. rewrite Ht. cbn [rbind].
  rewrite Hs, (cpu_name_scan_skip _ _ Hpre). cbn [cpu_name_scan].
  unfold is_model_name in Hline. rewrite Hline.
  rewrite (split_char1_at _ _ _ Hb). reflexivity.
Qed.

Lemma get_cpu_name_cases (fs : node) :
  get_cpu_name fs = Ok "Unknown CPU" \/
  exists text pre before after rest,
    read_text fs cpuinfo = Ok text /\
    PyStr.splitlines text = pre ++ (before ++ String ":" after)%string :: rest /\
    Forall (fun l => is_model_name l = false) pre /\
    is_model_name (before ++ String ":" after)%string = true /\
    contains ":" before = false /\
    get_cpu_name fs = Ok (PyStr.strip after).
Proof.
  destruct (read_text fs cpuinfo) as [text|e] eqn:Ht.
  - destruct (first_model_name (PyStr.splitlines text))
      as [Hnone|(pre & line & rest & Hs & Hpre & Hline)].
    + left. unfold get_cpu_name. fold cpuinfo. rewrite Ht. cbn [rbind].
      rewrite (cpu_name_scan_none _ Hnone). reflexivity.
    + destruct (contains_dec ":" line) as [Hc|(before & after & -> & Hb)].
      * left. unfold get_cpu_name. fold cpuinfo. rewrite Ht. cbn [rbind].
        rewrite Hs, (cpu_name_scan_skip _ _ Hpre). cbn [cpu_name_scan].
        unfold is_model_name in Hline. rewrite Hline.
        rewrite (split_char1_none _ _ Hc). reflexivity.
      * right. exists text, pre, before, after, rest. repeat split; auto.
        eapply get_cpu_name_found; eassumption.
  - left. unfold get_cpu_name. fold cpuinfo. rewrite Ht. reflexivity.
Qed.

Lemma get_gpu_name_first (fs : node) (pre rest : list path) (card : path) (v d : string) :
  drm_cards fs = pre ++ card :: rest ->
  Forall (fun c => usable fs c = false) pre ->
  read_text fs (vendor_file card) = Ok v ->
  read_text fs (device_file card) = Ok d ->
  get_gpu_name fs =
  match lookup_pci_name fs (raw_id v) (raw_id d) with
  | Ok (Some name) => Ok (name, true)
  | Ok None => Ok (("AMD Radeon [" ++ raw_id v ++ ":" ++ raw_id d ++ "]")%string, false)
  | Raise _ => Ok ("Unknown GPU", false)
  end.
Proof.
  intros Hc Hpre Hv Hd. unfold get_gpu_name. fold (drm_cards fs).
  rewrite Hc, (gpu_name_scan_skip _ _ _ Hpre). cbn [gpu_name_scan].
  fold (vendor_file card) (device_file card).
  rewrite (read_text_exists _ _ _ Hv), (read_text_exists _ _ _ Hd), Hv, Hd.
  cbn [andb negb rbind]. fold (raw_id v) (raw_id d).
  destruct (lookup_pci_name fs (raw_id v) (raw_id d)) as [[name|]|e] eqn:L;
    cbn [rbind]; try reflexivity.
  pose proof (lookup_truthy _ _ _ _ L) as T.
  destruct name; [discriminate T|reflexivity].
Qed.

Lemma get_gpu_name_total (fs : node) : exists r, get_gpu_name fs = Ok r.
Proof.
  unfold get_gpu_name, try_except.
  destruct (gpu_name_scan fs _) as [[r|]|e]; eauto.
Qed.


(* ------------------------------------------------------------------ *)
(** ** The PCI identifier lookup *)

Lemma split_ws1_shape (s : string) :
  PyStr.split_ws1 s = [] \/ (exists a, PyStr.split_ws1 s = [a]) \/
  (exists a b, PyStr.split_ws1 s = [a; b] /\ PyStr.truthy b = true).
Proof.
  unfold PyStr.split_ws1. destruct (PyStr.lstrip s) as [|c t]; [left; reflexivity|].
  right. destruct (PyStr.span_word (String c t)) as [w r].
  destruct (PyStr.lstrip r) as [|c' r'] eqn:E; [left; eauto|].
  right. exists w, (String c' r'). split; reflexivity.
Qed.

Lemma indented_not_skipped (line : string) :
  is_indented line = true -> is_skipped line = false.
Proof.
  unfold is_indented, is_skipped, PyStr.startswith, TABS.
  destruct line as [|c line]; [discriminate|].
  cbn [String.prefix].
  destruct (ascii_dec PyStr.TAB c) as [<-|]; [|discriminate].
  reflexivity.
Qed.

Lemma pci_line_skipped (vendor device line : string) (cv : option string) :
  is_skipped line = true -> pci_line vendor device cv line = Ok (Continue cv).
Proof. unfold pci_line, is_skipped. intros ->. reflexivity. Qed.

Lemma pci_line_vendor (vendor device line vid vname : string) (cv : option string) :
  vendor_record line vid vname ->
  pci_line vendor device cv line
  = Ok (Continue (if String.eqb (PyStr.lower vid) vendor then Some vname else None)).
Proof.
  intros (Hs & Hi & Hp). unfold pci_line.
  unfold is_skipped in Hs. unfold is_indented in Hi. rewrite Hs, Hi, Hp. cbn.
  destruct (String.eqb (PyStr.lower vid) vendor); reflexivity.
Qed.

Lemma pci_line_unindented (vendor device line : string) (cv : option string) :
  is_skipped line = false -> is_indented line = false -> PyStr.split_ws1 line <> [] ->
  exists cv', pci_line vendor device cv line = Ok (Continue cv').
Proof.
  intros Hs Hi Hp. unfold pci_line.
  unfold is_skipped in Hs. unfold is_indented in Hi. rewrite Hs, Hi. cbn [negb].
  destruct (split_ws1_shape line) as [E|[[a E]|(a & b & E & _)]]; rewrite E in *.
  - congruence.
  - cbn. rewrite andb_false_r. eauto.
  - cbn. destruct (String.eqb (PyStr.lower a) vendor); cbn; eauto.
Qed.

Lemma pci_line_device (vendor device line did dname : string) (cv : option string) :
  device_record line did dname ->
  pci_line vendor device cv line =
  match cv with
  | Some v =>
      if PyStr.truthy v && String.eqb (PyStr.lower did) device
      then Ok (Return (v ++ " " ++ dname)%string)
      else Ok (Continue cv)
  | None => Ok (Continue cv)
  end.
Proof.
  intros (Hi & Hp). unfold pci_line.
  pose proof (indented_not_skipped _ Hi) as Hs. unfold is_skipped in Hs. rewrite Hs.
  unfold is_indented in Hi. rewrite Hi. cbn [negb].
  destruct cv as [v|]; [|reflexivity].
  destruct (PyStr.truthy v); [|reflexivity].
  rewrite Hp. cbn. destruct (String.eqb (PyStr.lower did) device); reflexivity.
Qed.

Lemma pci_line_ok (vendor device line : string) (cv : option string) :
  record_ok line -> exists s, pci_line vendor device cv line = Ok s.
Proof.
  intros [Hs|[[Hi Hp]|(did & dname & Hd)]].
  - rewrite (pci_line_skipped _ _ _ _ Hs). eauto.
  - destruct (is_skipped line) eqn:Hs.
    + rewrite (pci_line_skipped _ _ _ _ Hs). eauto.
    + destruct (pci_line_unindented vendor device line cv Hs Hi Hp) as [cv' ->]. eauto.
  - rewrite (pci_line_device _ _ _ _ _ _ Hd).
    destruct cv as [v|]; [|eauto].
    destruct (PyStr.truthy v && String.eqb (PyStr.lower did) device); eauto.
Qed.

Lemma pci_scan_ok (vendor device : string) (lines : list string) :
  Forall record_ok lines ->
  forall cv, exists o, pci_scan vendor device cv lines = Ok o.
Proof.
  induction 1 as [|line rest Hl _ IH]; intro cv; cbn [pci_scan]; [eauto|].
  destruct (pci_line_ok vendor device line cv Hl) as [[cv'|r] ->]; cbn [rbind]; eauto.
Qed.

Lemma pci_line_continue (vendor device line : string) (cv cv' : option string) :
  pci_line vendor device cv line = Ok (Continue cv') ->
  ((is_skipped line = true \/ is_indented line = true) /\ cv' = cv) \/
  (cv' = None \/
   exists vid vname, cv' = Some vname /\ vendor_record line vid vname /\
                     PyStr.lower vid = vendor).
Proof.
  destruct (is_skipped line) eqn:Hs.
  { rewrite (pci_line_skipped _ _ _ _ Hs). intro H. injection H as <-. auto. }
  destruct (is_indented line) eqn:Hi.
  { intro H. left. split; [auto|]. revert H. unfold pci_line.
    unfold is_skipped in Hs. unfold is_indented in Hi. rewrite Hs, Hi. cbn [negb].
    destruct cv as [v|]; [|intro H; injection H as <-; reflexivity].
    destruct (PyStr.truthy v); [|intro H; injection H as <-; reflexivity].
    destruct (subscript _ 0) as [p0|]; [|discriminate]. cbn [rbind].
    destruct (String.eqb (PyStr.lower p0) device).
    - destruct (subscript _ 1); discriminate.
    - intro H. injection H as <-. reflexivity. }
  right. revert H. unfold pci_line.
  pose proof Hs as Hs'. pose proof Hi as Hi'.
  unfold is_skipped in Hs'. unfold is_indented in Hi'. rewrite Hs', Hi'. cbn [negb].
  destruct (split_ws1_shape line) as [E|[[a E]|(a & b & E & _)]]; rewrite E; cbn.
  - discriminate.
  - rewrite andb_false_r. intro H. injection H as <-. auto.
  - destruct (String.eqb (PyStr.lower a) vendor) eqn:Ea; cbn;
      intro H; injection H as <-; [|auto].
    right. exists a, b. apply String.eqb_eq in Ea. repeat split; auto.
Qed.

Lemma subscript_two (parts : list string) (p0 p1 : string) :
  List.length parts <= 2 ->
  subscript parts 0 = Ok p0 -> subscript parts 1 = Ok p1 -> parts = [p0; p1].
Proof.
  destruct parts as [|a [|b [|c l]]]; cbn; try discriminate.
  - intros _ H0 H1. injection H0 as ->. injection H1 as ->. reflexivity.
  - intro H. lia.
Qed.

Lemma split_ws1_length (s : string) : List.length (PyStr.split_ws1 s) <= 2.
Proof.
  destruct (split_ws1_shape s) as [E|[[a E]|(a & b & E & _)]]; rewrite E; cbn; lia.
Qed.

Lemma under_cons (vname device line : string) (block : list string) (r : string) :
  is_skipped line = true \/ is_indented line = true ->
  under vname device block r -> under vname device (line :: block) r.
Proof.
  intros Hl (mid & dline & post & did & dname & -> & Hmid & H).
  exists (line :: mid), dline, post, did, dname. split; [reflexivity|].
  split; [constructor; assumption|exact H].
Qed.

Lemma found_cons (vendor device line : string) (lines : list string) (r : string) :
  found vendor device lines r -> found vendor device (line :: lines) r.
Proof.
  intros (pre & vline & block & vid & vname & -> & H).
  exists (line :: pre), vline, block, vid, vname. split; [reflexivity|exact H].
Qed.

(** What the scan returns is the name of a device record met in the block of
    the current vendor or of a later vendor record. *)
Lemma pci_scan_sound (vendor device : string) (lines : list string) :
  forall cv r,
    pci_scan vendor device cv lines = Ok (Some r) ->
    (exists vname, cv = Some vname /\ under vname device lines r) \/
    found vendor device lines r.
Proof.
  induction lines as [|line rest IH]; intros cv r; cbn [pci_scan]; [discriminate|].
  destruct (pci_line vendor device cv line) as [[cv'|r']|] eqn:E; cbn [rbind];
    [| |discriminate].
  - intro H. destruct (IH cv' r H) as [(vname & -> & U)|F].
    + destruct (pci_line_continue _ _ _ _ _ E)
        as [[Hl <-]|[N|(vid & vn & Ev & V & Hv)]].
      * left. exists vname. split; [reflexivity|]. apply under_cons; assumption.
      * discriminate.
      * injection Ev as <-. right.
        exists [], line, rest, vid, vname. repeat split; try apply V; assumption.
    + right. apply found_cons, F.
  - intro H. injection H as <-.
    destruct (pci_line_return _ _ _ _ _ E)
      as (v & p0 & p1 & -> & _ & Hi & H0 & He & H1 & ->).
    left. exists v. split; [reflexivity|].
    exists [], line, rest, p0, p1. split; [reflexivity|]. split; [constructor|].
    split; [|split; [apply String.eqb_eq, He|reflexivity]].
    split; [exact Hi|].
    apply subscript_two; [apply split_ws1_length|exact H0|exact H1].
Qed.

(** A scan that reaches a device record for [device] in the block of a vendor
    does not end with not-found. *)
Lemma under_scan (vendor device vname : string) (block : list string) (r : string) :
  PyStr.truthy vname = true ->
  under vname device block r ->
  pci_scan vendor device (Some vname) block <> Ok None.
Proof.
  intros T (mid & dline & post & did & dname & -> & Hmid & D & Hd & ->).
  induction Hmid as [|l mid Hl _ IH]; cbn [app pci_scan].
  - rewrite (pci_line_device _ _ _ _ _ _ D), T, Hd, String.eqb_refl. cbn. discriminate.
  - destruct (pci_line vendor device (Some vname) l) as [[cv'|r']|] eqn:E; cbn [rbind];
      try discriminate.
    destruct (pci_line_continue _ _ _ _ _ E) as [[_ ->]|[N|(vid & vn & _ & V & _)]].
    + exact IH.
    + exfalso. subst cv'. revert E.
      destruct Hl as [Hs|Hi].
      * rewrite (pci_line_skipped _ _ _ _ Hs). discriminate.
      * unfold pci_line. pose proof (indented_not_skipped _ Hi) as Hs.
        unfold is_skipped in Hs. unfold is_indented in Hi. rewrite Hs, Hi, T. cbn [negb].
        destruct (subscript _ 0) as [p0|]; [|discriminate]. cbn [rbind].
        destruct (String.eqb (PyStr.lower p0) device); [|discriminate].
        destruct (subscript _ 1); discriminate.
    + exfalso. destruct V as (Vs & Vi & _). destruct Hl as [Hs|Hi]; congruence.
Qed.

Lemma found_scan (vendor device : string) (lines : list string) (r : string) :
  found vendor device lines r ->
  forall cv, pci_scan vendor device cv lines <> Ok None.
Proof.
  intros (pre & vline & block & vid & vname & -> & V & Hv & U).
  induction pre as [|l pre IH]; intro cv; cbn [app pci_scan].
  - rewrite (pci_line_vendor _ _ _ _ _ _ V), Hv, String.eqb_refl. cbn [rbind].
    apply (under_scan _ _ _ _ r); [|exact U].
    destruct V as (_ & _ & Hp).
    destruct (split_ws1_shape vline) as [E|[[a E]|(a & b & E & Tb)]];
      rewrite E in Hp; try discriminate.
    injection Hp as _ <-. exact Tb.
  - destruct (pci_line vendor device cv l) as [[cv'|r']|]; cbn [rbind];
      [apply IH|discriminate|discriminate].
Qed.

(** On a database whose records are well formed the lookup returns a name
    exactly when a vendor record for the vendor is followed, before the next
    unindented line, by a device record for the device. *)
Lemma pci_scan_well_formed (vendor device : string) (lines : list string) :
  Forall record_ok lines ->
  (exists r, pci_scan vendor device None lines = Ok (Some r) /\
             found vendor device lines r) \/
  (pci_scan vendor device None lines = Ok None /\
   forall r, ~ found vendor device lines r).
Proof.
  intro W. destruct (pci_scan_ok vendor device lines W None) as [[r|] E].
  - left. exists r. split; [exact E|].
    destruct (pci_scan_sound _ _ _ _ _ E) as [(vname & N & _)|F]; [discriminate|exact F].
  - right. split; [exact E|]. intros r F. exact (found_scan _ _ _ _ F None E).
Qed.

Lemma lookup_case_insensitive (fs : node) (vendor device vendor' device' : string) :
  PyStr.lower vendor' = PyStr.lower vendor ->
  PyStr.lower device' = PyStr.lower device ->
  lookup_pci_name fs vendor' device' = lookup_pci_name fs vendor device.
Proof. unfold lookup_pci_name. intros -> ->. reflexivity. Qed.

(** *** Example databases *)

Example lookup_sample :
  lookup_pci_name (pci_root db_sample) "10DE" "1234" = Ok (Some "NVIDIA Corporation Some GPU")
  /\ lookup_pci_name (pci_root db_sample) "10de" "ffff" = Ok None
  /\ lookup_pci_name (pci_root db_sample) "8086" "1234" = Ok None
  /\ lookup_pci_name (Dir true []) "10de" "1234" = Ok None.
Proof. repeat split; reflexivity. Qed.

(** The claim as stated fails on two databases.  In [db_nameless_vendor] an
    unindented line with the vendor identifier is followed by an indented
    line with the device identifier, and the lookup returns not-found: the
    vendor line has no name and is not taken as a vendor.  In [db_space_line]
    the lookup raises [IndexError] at the line made of one space, both for a
    vendor and device that occur and for a vendor that occurs nowhere. *)
Lemma C5_counterexample :
  PyStr.splitlines db_nameless_vendor = ["10de"; (TABS ++ "1234  Some GPU")%string] /\
  lookup_pci_name (pci_root db_nameless_vendor) "10de" "1234" = Ok None /\
  PyStr.splitlines db_space_line
  = ["10de  NVIDIA Corporation"; " "; (TABS ++ "1234  Some GPU")%string] /\
  lookup_pci_name (pci_root db_space_line) "10de" "1234" = Raise IndexError /\
  lookup_pci_name (pci_root db_space_line) "ffff" "1234" = Raise IndexError.
Proof. repeat split; reflexivity. Qed.

(** C5, as the code has it.  The lookup returns not-found when the database
    file does not exist; it lower-cases the identifiers it is given and those
    of the database before comparing them; and on a database that can be read
    and whose lines are each skipped (empty or a comment), unindented with at
    least an identifier, or indented with an identifier and a name, it returns
    ["<vendor name> <device name>"] for a vendor record (identifier and name)
    of the vendor followed, before the next unindented line that is not
    skipped, by a device record of the device, and not-found exactly when the
    database has no such pair. *)
Theorem C5_lookup_on_well_formed_database :
  forall (fs : node) (vendor device : string),
    (exists_ fs PCI_IDS = false -> lookup_pci_name fs vendor device = Ok None) /\
    (forall vendor' device',
        PyStr.lower vendor' = PyStr.lower vendor ->
        PyStr.lower device' = PyStr.lower device ->
        lookup_pci_name fs vendor' device' = lookup_pci_name fs vendor device) /\
    (forall text,
        read_text fs PCI_IDS = Ok text ->
        Forall record_ok (PyStr.splitlines text) ->
        (exists r, lookup_pci_name fs vendor device = Ok (Some r) /\
                   found (PyStr.lower vendor) (PyStr.lower device)
                         (PyStr.splitlines text) r) \/
        (lookup_pci_name fs vendor device = Ok None /\
         forall r, ~ found (PyStr.lower vendor) (PyStr.lower device)
                           (PyStr.splitlines text) r)).
Proof.
  intros fs vendor device. split; [|split].
  - intro E. unfold lookup_pci_name. rewrite E. reflexivity.
  - intros. apply lookup_case_insensitive; assumption.
  - intros text Ht W. unfold lookup_pci_name.
    rewrite (read_text_exists _ _ _ Ht), Ht. cbn [negb rbind].
    apply pci_scan_well_formed, W.
Qed.

Lemma sample_well_formed : Forall record_ok (PyStr.splitlines db_sample).
Proof.
  assert (E : PyStr.splitlines db_sample
              = ["# List of PCI ID's"; ""; "10de  NVIDIA Corporation";
                 (TABS ++ "1234  Some GPU")%string]) by reflexivity.
  rewrite E.
  apply Forall_cons; [left; reflexivity|].
  apply Forall_cons; [left; reflexivity|].
  apply Forall_cons; [right; left; split; [reflexivity|discriminate]|].
  apply Forall_cons; [|apply Forall_nil].
  right. right. exists "1234", "Some GPU". split; reflexivity.
Qed.

Lemma C5_witness :
  exists r,
    lookup_pci_name (pci_root db_sample) "10DE" "1234" = Ok (Some r) /\
    found "10de" "1234" (PyStr.splitlines db_sample) r /\
    r = "NVIDIA Corporation Some GPU".
Proof.
  destruct (proj2 (proj2 (C5_lookup_on_well_formed_database (pci_root db_sample) "10DE" "1234"))
              db_sample eq_refl sample_well_formed)
    as [(r & E & F)|[E _]].
  - exists r. repeat split; [exact E|exact F|].
    assert (E' : lookup_pci_name (pci_root db_sample) "10DE" "1234"
                 = Ok (Some "NVIDIA Corporation Some GPU")) by reflexivity.
    congruence.
  - exfalso. assert (E' : lookup_pci_name (pci_root db_sample) "10DE" "1234"
                          = Ok (Some "NVIDIA Corporation Some GPU")) by reflexivity.
    congruence.
Defined.

(** *** An example machine *)


(* ------------------------------------------------------------------ *)
(** ** The properties at work *)


Lemma C10_witness :
  (exists z, read_cpu_clock fs_cpu_stalled = Ok (Some z) /\ (z == 0)%Q /\
             update fs_cpu_stalled initial
             = update_from (with_clk (poll fs_cpu_stalled) (Ok None)) initial) /\
  (exists gclk z gfan,
      read_gpu_clocks_and_fan fs_gpu_idle = Ok (gclk, Some z, gfan) /\ (z == 0)%Q /\
      update fs_gpu_idle initial
      = update_from (with_gclocks (poll fs_gpu_idle) (Ok (gclk, None, gfan))) initial) /\
  fst (update fs_gpu_idle initial) gpu_fan = track 0 (initial gpu_fan).
Proof.
  split; [|split].
  - eexists. split; [reflexivity|]. split; [reflexivity|].
    refine (proj1 C10_zero_clock_skipped_zero_fan_kept (poll fs_cpu_stalled) initial _ _ _);
      reflexivity.
  - eexists; eexists; eexists. split; [reflexivity|]. split; [reflexivity|].
    refine (proj1 (proj2 (proj2 C10_zero_clock_skipped_zero_fan_kept))
              (poll fs_gpu_idle) initial _ _ _ _ _); reflexivity.
  - refine (proj1 (proj2 (proj2 (proj2 C10_zero_clock_skipped_zero_fan_kept)))
              (poll fs_gpu_idle) initial _ _ _ _ _); reflexivity.
Defined.

(* ------------------------------------------------------------------ *)
(** ** Invariants of the rows *)

Lemma metric_eqb_eq (a b : metric) : metric_eqb a b = true -> a = b.
Proof. destruct a, b; cbn; intro H; try reflexivity; discriminate H. Qed.

(** A property of the rows, one by one, that every way of writing to a row
    keeps is kept by a run of [update]. *)
Section RowInvariant.
Variable I : metric -> series -> Prop.
Hypothesis keep_cpu : forall m t s,
    is_cpu_temp m -> I m s -> I m (set_temp_colour t (track t s)).
Hypothesis keep_gpu : forall m t c s,
    is_gpu_temp m -> I m s -> I m (show_crit c (track t s)).
Hypothesis keep_plain : forall m t s,
    ~ is_cpu_temp m -> ~ is_gpu_temp m -> I m s -> I m (track t s).

Lemma on_keeps (m0 : metric) (f : series -> series) (st : state) :
  (forall s, I m0 s -> I m0 (f s)) ->
  (forall m, I m (st m)) -> forall m, I m (on m0 f st m).
Proof.
  intros Hf H m. unfold on. destruct (metric_eqb m0 m) eqn:E; [|apply H].
  apply metric_eqb_eq in E. subst m0. apply Hf, H.
Qed.

Lemma update_keeps (rd : readings) (st : state) :
  (forall m, I m (st m)) -> forall m, I m (fst (update_from rd st) m).
Proof.
  apply (update_rule rd (fun a b => (forall m, I m (a m)) -> forall m, I m (b m)));
    clear st; auto.
  - intros cpu key m0 st _ K. unfold cpu_temp.
    destruct (dict_get cpu key) as [[t c]|]; [|auto].
    apply on_keeps. intros s. apply keep_cpu.
    destruct K as [K|K]; injection K as _ ->; [left|right]; reflexivity.
  - intros clk st _. unfold clock. destruct clk as [q|]; [|auto].
    destruct (nonzero (Some q)); [|auto].
    apply on_keeps. intros s. apply keep_plain; unfold is_cpu_temp, is_gpu_temp; intuition discriminate.
  - intros gpu key m0 st _ K. unfold gpu_temp_row.
    destruct (dict_get gpu key) as [[t c]|]; [|auto].
    apply on_keeps. intros s. apply keep_gpu.
    destruct K as [K|[K|K]]; injection K as _ ->;
      [left|right; left|right; right]; reflexivity.
  - intros gclk gmemclk gfan st _. unfold clock. destruct gclk as [q|]; [|auto].
    destruct (nonzero (Some q)); [|auto].
    apply on_keeps. intros s. apply keep_plain; unfold is_cpu_temp, is_gpu_temp; intuition discriminate.
  - intros gclk gmemclk gfan st _. unfold clock. destruct gmemclk as [q|]; [|auto].
    destruct (nonzero (Some q)); [|auto].
    apply on_keeps. intros s. apply keep_plain; unfold is_cpu_temp, is_gpu_temp; intuition discriminate.
  - intros gclk gmemclk gfan st _. unfold fan_row. destruct gfan as [q|]; [|auto].
    apply on_keeps. intros s. apply keep_plain; unfold is_cpu_temp, is_gpu_temp; intuition discriminate.
  - intros d st _. unfold nvme_row. destruct d as [|[k [t c]] d]; [auto|].
    apply on_keeps. intros s. apply keep_plain; unfold is_cpu_temp, is_gpu_temp; intuition discriminate.
Qed.

Lemma ticks_keep (fss : list node) :
  (forall m, I m (initial m)) -> forall m, I m (ticks fss initial m).
Proof.
  intro H0. induction fss as [|fs fss IH] using rev_ind; [exact H0|].
  rewrite ticks_snoc. apply update_keeps, IH.
Qed.
End RowInvariant.




Lemma update_keeps_crit (rd : readings) (st : state) (m : metric) :
  (exists c, shown_crit (s_item (st m)) = Some c) ->
  exists c, shown_crit (s_item (fst (update_from rd st) m)) = Some c.
Proof.
  intro H.
  apply (update_keeps (fun m' s => m' = m -> exists c, shown_crit (s_item s) = Some c));
    [| | | |reflexivity].
  - intros m' t s _ Hs E. apply Hs, E.
  - intros m' t c s _ Hs E. unfold show_crit.
    destruct (nonzero c) eqn:Z; [|apply Hs, E].
    destruct c as [c|]; [|discriminate Z]. exists c. reflexivity.
  - intros m' t s _ _ Hs E. apply Hs, E.
  - intros m' ->. exact H.
Qed.



Lemma classify_cases (t : Q) :
  (classify t = CRITICAL /\ (85 <= t)%Q) \/
  (classify t = WARM /\ (80 <= t)%Q /\ (t < 85)%Q) \/
  (classify t = NORMAL /\ (t < 80)%Q).
Proof.
  unfold classify, temp_colour.
  destruct (Qle_bool 85 t) eqn:E85.
  - left. split; [reflexivity|apply Qle_bool_iff, E85].
  - assert (L85 : (t < 85)%Q).
    { apply Qnot_le_lt. intro L. apply Qle_bool_iff in L. congruence. }
    destruct (Qle_bool 80 t) eqn:E80.
    + right. left. split; [reflexivity|]. split; [apply Qle_bool_iff, E80|exact L85].
    + right. right. split; [reflexivity|].
      apply Qnot_le_lt. intro L. apply Qle_bool_iff in L. congruence.
Qed.

(** X6.  The classification is monotone: a reading that is not lower never
    gets a milder tier. *)
Theorem X6_classify_monotone :
  forall a b : Q, (a <= b)%Q -> rank (classify a) <= rank (classify b).
Proof.
  intros a b L.
  destruct (classify_cases a) as [[-> A]|[(-> & A & _)|[-> _]]];
    destruct (classify_cases b) as [[-> B]|[(-> & _ & B)|[-> B]]]; cbn; try lia; exfalso.
  - apply (Qlt_not_le _ _ B). eapply Qle_trans; eassumption.
  - apply (Qlt_not_le _ _ B). eapply Qle_trans; [|exact L].
    eapply Qle_trans; [|exact A]. discriminate.
  - apply (Qlt_not_le _ _ B). eapply Qle_trans; eassumption.
Qed.

Lemma X6_witness : rank (classify (799 # 10)) <= rank (classify 85).
Proof. apply X6_classify_monotone. discriminate. Defined.

(* ------------------------------------------------------------------ *)
(** ** A run of [update] that raises *)

Lemma gpu_temps_stops (gpus : list (result (dict reading))) (e : exn) :
  In (Raise e) gpus -> forall st, exists e', snd (gpu_temps gpus st) = Some e'.
Proof.
  induction gpus as [|r rest IH]; [intros []|].
  intros [->|Hin] st; cbn.
  - eauto.
  - destruct r as [gpu|e0]; cbn; [apply IH, Hin|eauto].
Qed.

Lemma cpu_steps_frame (cpu : dict reading) (clk : option Q) (st : state) (m : metric) :
  ~ is_cpu_temp m -> m <> cpu_clk ->
  clock clk cpu_clk (cpu_temp cpu "Tccd1" cpu_die (cpu_temp cpu "Tctl" cpu_pkg st)) m = st m.
Proof.
  intros N1 N2. unfold clock, cpu_temp.
  destruct clk as [q|]; [destruct (nonzero (Some q))|];
    destruct (dict_get cpu "Tccd1") as [[? ?]|], (dict_get cpu "Tctl") as [[? ?]|];
    destruct m; try reflexivity;
    solve [exfalso; apply N2; reflexivity
          | exfalso; apply N1; unfold is_cpu_temp; auto].
Qed.

Lemma cpu_temps_frame (cpu : dict reading) (st : state) (m : metric) :
  ~ is_cpu_temp m ->
  cpu_temp cpu "Tccd1" cpu_die (cpu_temp cpu "Tctl" cpu_pkg st) m = st m.
Proof.
  intros N1. unfold cpu_temp.
  destruct (dict_get cpu "Tccd1") as [[? ?]|], (dict_get cpu "Tctl") as [[? ?]|];
    destruct m; try reflexivity; exfalso; apply N1; unfold is_cpu_temp; auto.
Qed.

Lemma update_from_stops (rd : readings) (st : state) (e : exn) :
  (r_cpu rd = Raise e -> update_from rd st = (st, Some e)) /\
  (r_clk rd = Raise e ->
   (exists e', snd (update_from rd st) = Some e') /\
   forall m, ~ is_cpu_temp m -> fst (update_from rd st) m = st m) /\
  (In (Raise e) (r_gpu rd) \/ r_gclocks rd = Raise e ->
   (exists e', snd (update_from rd st) = Some e') /\
   forall m, In m [gpu_clk; gpu_memclk; gpu_fan; nvme] ->
             fst (update_from rd st) m = st m).
Proof.
  unfold update_from. split; [|split].
  - intros ->. reflexivity.
  - intros ->. destruct (r_cpu rd) as [cpu|e0]; cbn [call]; [|split; cbn; eauto].
    split; [cbn; eauto|]. intros m N. cbn [fst]. apply cpu_temps_frame, N.
  - intro H.
    assert (F : forall m, In m [gpu_clk; gpu_memclk; gpu_fan; nvme] ->
                          ~ is_cpu_temp m /\ m <> cpu_clk /\
                          m <> gpu_temp /\ m <> gpu_hot /\ m <> gpu_mem).
    { intros m [<-|[<-|[<-|[<-|[]]]]]; unfold is_cpu_temp;
        repeat split; try discriminate; intuition discriminate. }
    destruct (r_cpu rd) as [cpu|e0]; cbn [call]; [|split; cbn; eauto].
    destruct (r_clk rd) as [clk|e0]; cbn [call].
    2:{ split; [cbn; eauto|]. intros m Hm. cbn [fst].
        apply cpu_temps_frame, (F m Hm). }
    set (st2 := clock clk cpu_clk _).
    assert (F2 : forall m, In m [gpu_clk; gpu_memclk; gpu_fan; nvme] ->
                           fst (gpu_temps (r_gpu rd) st2) m = st m).
    { intros m Hm. destruct (F m Hm) as (N1 & N2 & N3 & N4 & N5).
      rewrite gpu_temps_frame by assumption. apply cpu_steps_frame; assumption. }
    destruct H as [H|H].
    + destruct (gpu_temps_stops _ _ H st2) as [e' E'].
      destruct (gpu_temps (r_gpu rd) st2) as [st3 [e3|]]; [|discriminate E'].
      cbn [proceed]. split; [cbn; eauto|]. exact F2.
    + destruct (gpu_temps (r_gpu rd) st2) as [st3 [e3|]]; cbn [proceed].
      * split; [cbn; eauto|]. exact F2.
      * rewrite H. cbn [call]. split; [cbn; eauto|]. exact F2.
Qed.

(** X1.  A run of [update] stops at the first reader that raises, and the
    rows that come later in the run keep what they had: when the read of the
    CPU directory raises nothing at all is changed; when the CPU clock read
    raises, only the two CPU temperature rows can have changed; when the read
    of a GPU directory or of the GPU clocks and fan raises, the GPU clock,
    memory clock, fan and NVMe rows are unchanged. *)
Theorem X1_update_stops_at_failing_reader :
  forall (fs : node) (st : state) (e : exn),
    (read_hwmon fs CPU_HWMON = Raise e -> update fs st = (st, Some e)) /\
    (read_cpu_clock fs = Raise e ->
     (exists e', snd (update fs st) = Some e') /\
     forall m, ~ is_cpu_temp m -> fst (update fs st) m = st m) /\
    (In (Raise e) (map (read_hwmon fs) GPU_HWMONS) \/ read_gpu_clocks_and_fan fs = Raise e ->
     (exists e', snd (update fs st) = Some e') /\
     forall m, In m [gpu_clk; gpu_memclk; gpu_fan; nvme] -> fst (update fs st) m = st m).
Proof. intros fs st e. apply (update_from_stops (poll fs) st e). Qed.

Lemma X1_witness :
  read_hwmon fs_gpu_garbled hwmon2 = Raise ValueError /\
  (exists e', snd (update fs_gpu_garbled st_after_both) = Some e') /\
  forall m, In m [gpu_clk; gpu_memclk; gpu_fan; nvme] ->
            fst (update fs_gpu_garbled st_after_both) m = st_after_both m.
Proof.
  split; [reflexivity|].
  apply (proj2 (proj2 (X1_update_stops_at_failing_reader fs_gpu_garbled st_after_both
                         ValueError))).
  left. left. reflexivity.
Defined.

(* ------------------------------------------------------------------ *)
(** ** The samples of a run, and a second run on the same readings *)

Lemma fed_with_trans (a b c : state) (m : metric) (vs ws : list Q) :
  fed_with a b m vs -> fed_with b c m ws -> fed_with a c m (vs ++ ws).
Proof.
  unfold fed_with. intros Hab Hbc. rewrite feed_app, Hbc. apply numbers_feed, Hab.
Qed.

Lemma fed_with_on (m0 m : metric) (f : series -> series) (l : list Q) (st : state) :
  (forall s, numbers (f s) = numbers (feed l s)) ->
  fed_with st (on m0 f st) m (sel m0 m l).
Proof.
  intro Hf. unfold fed_with, on, sel. destruct (metric_eqb m0 m); [apply Hf|reflexivity].
Qed.

Lemma fed_with_nil (st : state) (m0 m : metric) (l : list Q) :
  l = [] -> fed_with st st m (sel m0 m l).
Proof. intros ->. unfold fed_with, sel. destruct (metric_eqb m0 m); reflexivity. Qed.

Lemma cpu_temp_fed (cpu : dict reading) (key : string) (m0 m : metric) (st : state) :
  fed_with st (cpu_temp cpu key m0 st) m (sel m0 m (temp_sample cpu key)).
Proof.
  unfold cpu_temp, temp_sample. destruct (dict_get cpu key) as [[t c]|].
  - apply fed_with_on. reflexivity.
  - apply fed_with_nil. reflexivity.
Qed.

Lemma gpu_temp_row_fed (gpu : dict reading) (key : string) (m0 m : metric) (st : state) :
  fed_with st (gpu_temp_row gpu key m0 st) m (sel m0 m (temp_sample gpu key)).
Proof.
  unfold gpu_temp_row, temp_sample. destruct (dict_get gpu key) as [[t c]|].
  - apply fed_with_on. intro s. apply numbers_show_crit.
  - apply fed_with_nil. reflexivity.
Qed.

Lemma clock_fed (x : option Q) (m0 m : metric) (st : state) :
  fed_with st (clock x m0 st) m (sel m0 m (clock_sample x)).
Proof.
  unfold clock, clock_sample. destruct x as [q|]; [|apply fed_with_nil; reflexivity].
  destruct (nonzero (Some q)); [|apply fed_with_nil; reflexivity].
  apply fed_with_on. reflexivity.
Qed.

Lemma fan_row_fed (x : option Q) (m0 m : metric) (st : state) :
  fed_with st (fan_row x m0 st) m (sel m0 m (fan_sample x)).
Proof.
  unfold fan_row, fan_sample. destruct x as [q|]; [|apply fed_with_nil; reflexivity].
  apply fed_with_on. reflexivity.
Qed.

Lemma nvme_row_fed (d : dict reading) (m : metric) (st : state) :
  fed_with st (nvme_row d st) m (sel nvme m (nvme_sample d)).
Proof.
  unfold nvme_row, nvme_sample. destruct d as [|[k [t c]] d].
  - apply fed_with_nil. reflexivity.
  - apply fed_with_on. reflexivity.
Qed.

Lemma gpu_temps_fed (gpus : list (result (dict reading))) (m : metric) : forall st,
  fed_with st (fst (gpu_temps gpus st)) m (gpu_row_samples gpus m) /\
  snd (gpu_temps gpus st) = (if all_ok gpus then None else snd (gpu_temps gpus st)) /\
  (all_ok gpus = false -> snd (gpu_temps gpus st) <> None).
Proof.
  induction gpus as [|r rest IH]; intro st; cbn.
  - repeat split; discriminate.
  - destruct r as [gpu|e]; cbn.
    + destruct (IH (gpu_temp_row gpu "mem" gpu_mem
                      (gpu_temp_row gpu "junction" gpu_hot
                         (gpu_temp_row gpu "edge" gpu_temp st)))) as (F & S & N).
      split; [|split; assumption].
      eapply fed_with_trans; [apply gpu_temp_row_fed|].
      eapply fed_with_trans; [apply gpu_temp_row_fed|].
      eapply fed_with_trans; [apply gpu_temp_row_fed|exact F].
    + repeat split; discriminate.
Qed.

(** A run of [update] feeds to each row the samples [row_samples], whatever
    the storage before. *)
Lemma update_feeds (rd : readings) (st : state) (m : metric) :
  fed_with st (fst (update_from rd st)) m (row_samples rd m).
Proof.
  unfold update_from, row_samples.
  destruct (r_cpu rd) as [cpu|e]; cbn [call fst]; [|reflexivity].
  eapply fed_with_trans; [apply cpu_temp_fed|].
  eapply fed_with_trans; [apply cpu_temp_fed|].
  destruct (r_clk rd) as [clk|e]; cbn [call fst]; [|reflexivity].
  eapply fed_with_trans; [apply clock_fed|].
  set (st2 := clock clk cpu_clk _).
  destruct (gpu_temps_fed (r_gpu rd) m st2) as (F & S & N).
  destruct (gpu_temps (r_gpu rd) st2) as [st3 o] eqn:E. cbn [fst snd] in *.
  eapply fed_with_trans; [exact F|].
  destruct (all_ok (r_gpu rd)).
  - subst o. cbn [proceed].
    destruct (r_gclocks rd) as [[[gclk gmemclk] gfan]|e]; cbn [call fst]; [|reflexivity].
    eapply fed_with_trans; [apply clock_fed|].
    eapply fed_with_trans; [apply clock_fed|].
    eapply fed_with_trans; [apply fan_row_fed|].
    destruct (r_nvme rd) as [d|e]; cbn [call fst]; [|reflexivity].
    apply nvme_row_fed.
  - destruct o as [e|]; [reflexivity|]. exfalso. apply N; reflexivity.
Qed.

Lemma gpu_temps_raises_same (gpus : list (result (dict reading))) :
  all_ok gpus = false ->
  exists e, forall st, snd (gpu_temps gpus st) = Some e.
Proof.
  induction gpus as [|r rest IH]; [discriminate|].
  intro A. destruct r as [gpu|e].
  - cbn in A. destruct (IH A) as [e He]. exists e. intro st. cbn. apply He.
  - exists e. reflexivity.
Qed.

Lemma update_outcome (rd : readings) (st st' : state) :
  snd (update_from rd st) = snd (update_from rd st').
Proof.
  unfold update_from.
  destruct (r_cpu rd) as [cpu|e]; cbn [call snd]; [|reflexivity].
  destruct (r_clk rd) as [clk|e]; cbn [call snd]; [|reflexivity].
  set (a := clock clk cpu_clk _). set (b := clock clk cpu_clk _).
  destruct (all_ok (r_gpu rd)) eqn:A.
  - destruct (gpu_temps_fed (r_gpu rd) cpu_pkg a) as (_ & Sa & _).
    destruct (gpu_temps_fed (r_gpu rd) cpu_pkg b) as (_ & Sb & _).
    rewrite A in Sa, Sb.
    destruct (gpu_temps (r_gpu rd) a) as [a3 oa], (gpu_temps (r_gpu rd) b) as [b3 ob].
    cbn [snd] in Sa, Sb. subst oa ob. cbn [proceed].
    destruct (r_gclocks rd) as [[[gclk gmemclk] gfan]|e]; cbn [call snd]; [|reflexivity].
    destruct (r_nvme rd); reflexivity.
  - destruct (gpu_temps_raises_same _ A) as [e He].
    pose proof (He a) as Ha. pose proof (He b) as Hb.
    destruct (gpu_temps (r_gpu rd) a) as [a3 oa], (gpu_temps (r_gpu rd) b) as [b3 ob].
    cbn [snd] in Ha, Hb. subst oa ob. reflexivity.
Qed.

Lemma min2_absorb (a v : Q) : (a <= v)%Q -> min2 a v = a.
Proof.
  intro L. unfold min2. destruct (Qlt_bool v a) eqn:E; [|reflexivity].
  apply Qlt_bool_iff in E. exfalso. exact (Qlt_not_le _ _ E L).
Qed.

Lemma max2_absorb (b v : Q) : (v <= b)%Q -> max2 b v = b.
Proof.
  intro L. unfold max2. destruct (Qlt_bool b v) eqn:E; [|reflexivity].
  apply Qlt_bool_iff in E. exfalso. exact (Qlt_not_le _ _ E L).
Qed.

(** The stored minimum and maximum bound every sample that was fed. *)
Lemma feed_covers (vs : list Q) : forall s a b,
  s_min (feed vs s) = Some a -> s_max (feed vs s) = Some b ->
  forall v, In v vs -> (a <= v)%Q /\ (v <= b)%Q.
Proof.
  induction vs as [|w vs IH]; intros s a b Ha Hb v; [intros []|].
  cbn in Ha, Hb. intros [<-|Hin]; [|apply (IH (track w s)); assumption].
  destruct (track_sample s w) as (lo & hi & Hn & Hlo & Hhi & _).
  apply numbers_inv in Hn. destruct Hn as (Hmin & Hmax & _).
  destruct (feed_min vs _ _ Hmin) as (a' & Ea & La).
  destruct (feed_max vs _ _ Hmax) as (b' & Eb & Lb).
  fold (feed vs (track w s)) in Ha, Hb.
  rewrite Ea in Ha. rewrite Eb in Hb. injection Ha as <-. injection Hb as <-.
  split; eapply Qle_trans; eassumption.
Qed.

(** Samples within the stored bounds leave the bounds as they are. *)
Lemma feed_settled (vs : list Q) : forall s a b,
  s_min s = Some a -> s_max s = Some b ->
  (forall v, In v vs -> (a <= v)%Q /\ (v <= b)%Q) ->
  s_min (feed vs s) = Some a /\ s_max (feed vs s) = Some b.
Proof.
  induction vs as [|w vs IH]; intros s a b Ha Hb H; [auto|].
  cbn. apply IH.
  - cbn. rewrite Ha. rewrite min2_absorb; [reflexivity|apply H; left; reflexivity].
  - cbn. rewrite Hb. rewrite max2_absorb; [reflexivity|apply H; left; reflexivity].
  - intros v Hv. apply H. right. exact Hv.
Qed.

Lemma feed_snoc (vs : list Q) (v : Q) (s : series) :
  feed (vs ++ [v]) s = track v (feed vs s).
Proof. rewrite feed_app. reflexivity. Qed.

(** Feeding the same samples a second time changes no number of the row. *)
Lemma feed_twice (vs : list Q) (s : series) :
  numbers (feed vs (feed vs s)) = numbers (feed vs s).
Proof.
  destruct vs as [|v0 vs0] using rev_ind; [reflexivity|]. clear IHvs0.
  set (vs := vs0 ++ [v0]).
  assert (C : current (s_item (feed vs s)) = Some v0)
    by (unfold vs; rewrite feed_snoc; reflexivity).
  assert (C2 : current (s_item (feed vs (feed vs s))) = Some v0)
    by (unfold vs at 1; rewrite feed_snoc; reflexivity).
  destruct (track_sample (feed vs0 s) v0) as (a & b & Hn & _).
  apply numbers_inv in Hn. destruct Hn as (Ha & Hb & _).
  rewrite <- feed_snoc in Ha, Hb. fold vs in Ha, Hb.
  destruct (feed_settled vs (feed vs s) a b Ha Hb (feed_covers vs s a b Ha Hb)) as [Ha2 Hb2].
  unfold numbers. rewrite Ha2, Hb2, C2, Ha, Hb, C. reflexivity.
Qed.

(** X2.  A second run of [update] on the same file system changes no number:
    every row keeps the minimum, maximum and current value that the first run
    left, and the second run ends as the first did (normally, or with the
    same exception). *)
Theorem X2_update_twice_is_update_once :
  forall (fs : node) (st : state),
    let st1 := fst (update fs st) in
    (forall m, numbers (fst (update fs st1) m) = numbers (st1 m)) /\
    snd (update fs st1) = snd (update fs st).
Proof.
  intros fs st st1. split; [|apply update_outcome].
  intro m. unfold st1, update.
  rewrite (update_feeds (poll fs) (fst (update_from (poll fs) st)) m).
  rewrite (numbers_feed _ _ _ (update_feeds (poll fs) st m)).
  rewrite feed_twice. symmetry. apply update_feeds.
Qed.

(* ------------------------------------------------------------------ *)
(** ** More on the hwmon reader *)

Lemma scaled_ok (t : string) (k : Z) (q : Q) :
  scaled t k = Ok q ->
  exists n, PyStr.int (PyStr.strip t) = Ok n /\ q = (inject_Z n / inject_Z k)%Q.
Proof.
  unfold scaled. destruct (PyStr.int (PyStr.strip t)) as [n|e]; cbn; [|discriminate].
  intro H. injection H as <-. eauto.
Qed.

(** What one turn of the loop of [read_hwmon] does when it does not raise:
    nothing for a channel without a label file, and for a channel with one an
    assignment of what the disk holds for it under its stripped label. *)
Lemma read_channel_ok (fs : node) (dir p : path) (results r : dict reading) :
  read_channel fs dir p results = Ok r ->
  (exists_ fs (label_of dir p) = false /\ r = results) \/
  (exists l value crit_val,
      read_text fs (label_of dir p) = Ok l /\
      on_disk fs dir p (Some (PyStr.strip l, (value, crit_val))) /\
      r = dict_set results (PyStr.strip l) (value, crit_val)).
Proof.
  unfold read_channel. destruct (exists_ fs (label_of dir p)) eqn:E.
  2:{ intro H. injection H as <-. left. auto. }
  destruct (read_text fs (label_of dir p)) as [l|e] eqn:Hl; cbn [rbind]; [|discriminate].
  destruct (read_text fs p) as [v|e] eqn:Hv; cbn [rbind]; [|discriminate].
  destruct (scaled v 1000) as [value|e] eqn:Hs; cbn [rbind]; [|discriminate].
  destruct (scaled_ok _ _ _ Hs) as (n & Hn & ->).
  destruct (exists_ fs (crit_of dir p)) eqn:Ec.
  - destruct (read_text fs (crit_of dir p)) as [c|e] eqn:Hc; cbn [rbind]; [|discriminate].
    destruct (scaled c 1000) as [q|e] eqn:Hq; cbn [rbind]; [|discriminate].
    destruct (scaled_ok _ _ _ Hq) as (nc & Hnc & ->).
    intro H. injection H as <-. right.
    exists l, (degrees n), (Some (degrees nc)). split; [reflexivity|]. split; [|reflexivity].
    split; [exists l; auto|]. split; [exists n; split; [exists v; auto|reflexivity]|].
    rewrite Ec. exists nc. split; [exists c; auto|reflexivity].
  - cbn [rbind]. intro H. injection H as <-. right.
    exists l, (degrees n), None. split; [reflexivity|]. split; [|reflexivity].
    split; [exists l; auto|]. split; [exists n; split; [exists v; auto|reflexivity]|].
    rewrite Ec. reflexivity.
Qed.

Lemma read_channels_ok_sound (fs : node) (dir : path) (ps : list path) :
  forall results r,
    read_channels fs dir ps results = Ok r -> Forall (sound fs dir) ps.
Proof.
  induction ps as [|p ps IH]; intros results r; [constructor|].
  cbn [read_channels].
  destruct (read_channel fs dir p results) as [r1|e] eqn:E; cbn [rbind]; [|discriminate].
  intro H. constructor; [|apply (IH _ _ H)].
  intros L. destruct (read_channel_ok _ _ _ _ _ E) as [[N _]|(l & value & crit_val & _ & D & _)].
  - congruence.
  - eauto.
Qed.

(** X7.  [read_hwmon] returns a mapping exactly when every enumerated channel
    that has a label file is sound: its label can be read, its input file
    holds an integer and so does its critical file if there is one.  A single
    unsound labelled channel makes the whole read raise; channels without a
    label file never do. *)
Theorem X7_read_hwmon_returns_iff_sound :
  forall (fs : node) (dir : path),
    (exists results, read_hwmon fs dir = Ok results) <->
    Forall (sound fs dir) (glob fs dir temp_inputs).
Proof.
  intros fs dir. split.
  - intros [results H]. apply (read_channels_ok_sound fs dir _ [] results H).
  - intro S. destruct (sound_on_disk _ _ _ S) as [es H].
    exists (fold_left store es []). apply read_channels_spec, H.
Qed.

Lemma dict_set_keys {V} (d : dict V) (k : string) (v : V) :
  map fst (dict_set d k v) = if dict_in k d then map fst d else map fst d ++ [k].
Proof.
  unfold dict_in. induction d as [|[k0 v0] d IH]; cbn; [reflexivity|].
  destruct (String.eqb k0 k) eqn:E; cbn; [reflexivity|].
  rewrite IH. destruct (dict_get d k); reflexivity.
Qed.

Lemma dict_in_keys {V} (d : dict V) (k : string) :
  dict_in k d = false -> ~ In k (map fst d).
Proof.
  unfold dict_in. induction d as [|[k0 v0] d IH]; cbn; [auto|].
  destruct (String.eqb k0 k) eqn:E; [discriminate|].
  intros H [->|Hin]; [rewrite String.eqb_refl in E; discriminate|exact (IH H Hin)].
Qed.

Lemma dict_set_nodup {V} (d : dict V) (k : string) (v : V) :
  NoDup (map fst d) -> NoDup (map fst (dict_set d k v)).
Proof.
  intro N. rewrite dict_set_keys. destruct (dict_in k d) eqn:E; [exact N|].
  apply NoDup_app; [exact N|repeat constructor; intros []|].
  intros x Hx [<-|[]]. exact (dict_in_keys _ _ E Hx).
Qed.

Lemma dict_set_head {V} (d : dict V) (k0 k : string) (v0 v : V) :
  exists v' d', dict_set ((k0, v0) :: d) k v = (k0, v') :: d'.
Proof. cbn. destruct (String.eqb k0 k); eauto. Qed.

Lemma strip_head (c : ascii) (s : string) :
  PyStr.isspace c = false -> PyStr.rstrip (String c s) = String c (PyStr.rstrip s).
Proof. intro H. cbn. rewrite H. destruct (PyStr.rstrip s); reflexivity. Qed.

Lemma rstrip_idem (s : string) : PyStr.rstrip (PyStr.rstrip s) = PyStr.rstrip s.
Proof.
  induction s as [|c s IH]; [reflexivity|].
  cbn. destruct (PyStr.rstrip s) as [|c' r] eqn:E.
  - destruct (PyStr.isspace c) eqn:Hc; [reflexivity|]. cbn. rewrite Hc. reflexivity.
  - cbn. cbn in IH. rewrite IH. reflexivity.
Qed.

Lemma lstrip_head (s : string) :
  PyStr.lstrip s = EmptyString \/
  exists c t, PyStr.lstrip s = String c t /\ PyStr.isspace c = false.
Proof.
  induction s as [|c s IH]; [left; reflexivity|].
  cbn. destruct (PyStr.isspace c) eqn:Hc; [exact IH|]. right. eauto.
Qed.

(** What [strip] returns has no blank left to strip. *)
Lemma strip_idem (s : string) : PyStr.strip (PyStr.strip s) = PyStr.strip s.
Proof.
  unfold PyStr.strip. destruct (lstrip_head s) as [->|(c & t & -> & Hc)]; [reflexivity|].
  rewrite (strip_head c t Hc). cbn [PyStr.lstrip]. rewrite Hc.
  rewrite <- (strip_head c t Hc). apply rstrip_idem.
Qed.

Lemma read_channels_keys (fs : node) (dir : path) (ps : list path) :
  forall results r,
    read_channels fs dir ps results = Ok r ->
    NoDup (map fst results) ->
    (forall k, In k (map fst results) -> PyStr.strip k = k) ->
    NoDup (map fst r) /\ (forall k, In k (map fst r) -> PyStr.strip k = k) /\
    (forall k0 v0 d0, results = (k0, v0) :: d0 -> exists v' d', r = (k0, v') :: d').
Proof.
  induction ps as [|p ps IH]; intros results r; cbn [read_channels].
  - intro H. injection H as <-. eauto.
  - destruct (read_channel fs dir p results) as [r1|e] eqn:E; cbn [rbind]; [|discriminate].
    intros H N S.
    destruct (read_channel_ok _ _ _ _ _ E) as [[_ ->]|(l & value & crit_val & _ & _ & ->)];
      [apply (IH _ _ H N S)|].
    destruct (IH _ _ H (dict_set_nodup _ _ _ N)) as (N' & S' & H').
    + intros k. rewrite dict_set_keys. destruct (dict_in (PyStr.strip l) results).
      * apply S.
      * intro Hk. apply in_app_or in Hk. destruct Hk as [Hk|[<-|[]]];
          [apply S, Hk|apply strip_idem].
    + split; [exact N'|]. split; [exact S'|].
      intros k0 v0 d0 ->.
      destruct (dict_set_head d0 k0 (PyStr.strip l) v0 (value, crit_val)) as (v1 & d1 & E1).
      apply (H' k0 v1 d1 E1).
Qed.

Lemma read_channels_unlabelled (fs : node) (dir : path) (ps : list path)
    (rest : list path) (results : dict reading) :
  (forall q, In q ps -> exists_ fs (label_of dir q) = false) ->
  read_channels fs dir (ps ++ rest) results = read_channels fs dir rest results.
Proof.
  induction ps as [|p ps IH]; intro H; [reflexivity|].
  cbn [app read_channels]. unfold read_channel at 1.
  rewrite (H p (or_introl eq_refl)). cbn [rbind].
  apply IH. intros q Hq. apply H. right. exact Hq.
Qed.



(** X14.  The names that go to the display carry no surrounding blanks: what
    [get_cpu_name] returns and every key of a mapping returned by
    [read_hwmon] are left unchanged by [strip]. *)
Theorem X14_names_are_stripped :
  (forall fs r, get_cpu_name fs = Ok r -> PyStr.strip r = r) /\
  (forall fs dir results key,
      read_hwmon fs dir = Ok results -> dict_in key results = true ->
      PyStr.strip key = key).
Proof.
  split.
  - intros fs r H.
    destruct (get_cpu_name_cases fs) as [E|(text & pre & before & after & rest & _ & _ & _ & _ & _ & E)];
      rewrite E in H; injection H as <-; [reflexivity|apply strip_idem].
  - intros fs dir results key H K. unfold read_hwmon in H.
    destruct (read_channels_keys fs dir _ [] results H) as (_ & S & _);
      [constructor|intros k []|].
    apply S. unfold dict_in in K.
    clear -K. induction results as [|[k0 v0] d IH]; [discriminate|].
    cbn in *. destruct (String.eqb k0 key) eqn:E.
    + left. apply String.eqb_eq, E.
    + right. apply IH, K.
Qed.

Lemma X14_witness :
  PyStr.strip "AMD Ryzen 7 5800X 8-Core Processor" = "AMD Ryzen 7 5800X 8-Core Processor"
  /\ PyStr.strip "edge" = "edge".
Proof.
  split.
  - apply (proj1 X14_names_are_stripped (machine db_sample)). reflexivity.
  - apply (proj2 X14_names_are_stripped fs_gpu_temps hwmon2 _ "edge" eq_refl). reflexivity.
Defined.

(* ------------------------------------------------------------------ *)
(** ** More on the CPU clock *)

Lemma sum_from (l : list Q) : forall acc, (fold_left Qplus l acc == acc + sum l)%Q.
Proof.
  unfold sum. induction l as [|x l IH]; intro acc; cbn.
  - lra.
  - change (fold_left Qplus l (acc + x)%Q == acc + fold_left Qplus l (0 + x)%Q)%Q.
    rewrite (IH (acc + x)%Q), (IH (0 + x)%Q). lra.
Qed.

Lemma sum_bounds (lo hi : Q) (l : list Q) :
  (forall x, In x l -> (lo <= x)%Q /\ (x <= hi)%Q) ->
  (inject_Z (Z.of_nat (List.length l)) * lo <= sum l)%Q /\
  (sum l <= inject_Z (Z.of_nat (List.length l)) * hi)%Q.
Proof.
  induction l as [|x l IH]; intro H.
  - change ((0 * lo <= 0)%Q /\ (0 <= 0 * hi)%Q). split; lra.
  - destruct IH as [L U]; [intros y Hy; apply H; right; exact Hy|].
    destruct (H x (or_introl eq_refl)) as [Lx Ux].
    assert (S' : (sum (x :: l) == x + sum l)%Q).
    { unfold sum. change (fold_left Qplus (x :: l) 0%Q) with (fold_left Qplus l (0 + x)%Q).
      rewrite sum_from. unfold sum. lra. }
    assert (N : (inject_Z (Z.of_nat (List.length (x :: l)))
                 == inject_Z (Z.of_nat (List.length l)) + 1)%Q).
    { cbn [List.length]. rewrite Nat2Z.inj_succ. unfold Z.succ.
      rewrite inject_Z_plus. reflexivity. }
    rewrite S', N. split; nra.
Qed.

(** The mean of a list that is not empty lies between any bounds of its
    elements. *)
Lemma mean_bounds (lo hi : Q) (l : list Q) :
  l <> [] ->
  (forall x, In x l -> (lo <= x)%Q /\ (x <= hi)%Q) ->
  (lo <= mean l)%Q /\ (mean l <= hi)%Q.
Proof.
  intros NE H. destruct (sum_bounds lo hi l H) as [L U].
  assert (P : (0 < inject_Z (Z.of_nat (List.length l)))%Q).
  { destruct l as [|x l]; [congruence|]. unfold Qlt. cbn. lia. }
  unfold mean. split.
  - apply Qle_shift_div_l; [exact P|]. lra.
  - apply Qle_shift_div_r; [exact P|]. lra.
Qed.

Lemma ghz_le (a b : Z) : (a <= b)%Z -> (ghz a <= ghz b)%Q.
Proof. intro H. unfold ghz, Qle, Qdiv, Qmult, Qinv. cbn. lia. Qed.



Lemma cpu_freqs_ok (fs : node) (cpus : list path) : forall freqs r,
  cpu_freqs fs cpus freqs = Ok r ->
  Forall (fun cpu => exists n, holds_int fs (cur_freq cpu) n)
         (filter (fun cpu => exists_ fs (cur_freq cpu)) cpus) /\
  List.length r
  = List.length freqs + List.length (filter (fun cpu => exists_ fs (cur_freq cpu)) cpus).
Proof.
  induction cpus as [|cpu rest IH]; intros freqs r; cbn [cpu_freqs filter].
  - intro H. injection H as <-. split; [constructor|cbn; lia].
  - fold (cur_freq cpu). destruct (exists_ fs (cur_freq cpu)) eqn:E; [|apply IH].
    destruct (read_text fs (cur_freq cpu)) as [t|e] eqn:Ht; cbn [rbind]; [|discriminate].
    destruct (scaled t 1000000) as [q|e] eqn:Hs; cbn [rbind]; [|discriminate].
    destruct (scaled_ok _ _ _ Hs) as (n & Hn & _).
    intro H. destruct (IH _ _ H) as [F L]. split.
    + constructor; [exists n, t; auto|exact F].
    + rewrite L, length_app. cbn. lia.
Qed.

(** X10.  [read_cpu_clock] returns (rather than raises) exactly when every
    frequency file that is present can be read and holds an integer, so a
    present file with other content is not skipped; and it returns [None] only
    when no frequency file is present at all. *)
Theorem X10_cpu_clock_returns_iff_readable :
  forall fs : node,
    ((exists r, read_cpu_clock fs = Ok r) <->
     Forall (fun cpu => exists n, holds_int fs (cur_freq cpu) n) (present_cores fs)) /\
    (read_cpu_clock fs = Ok None <->
     present_cores fs = [] ).
Proof.
  intro fs. unfold read_cpu_clock, present_cores.
  set (cpus := glob fs _ cpu_dirs). split; split.
  - intros [r H]. destruct (cpu_freqs fs cpus []) as [freqs|e] eqn:E; [|discriminate H].
    apply (cpu_freqs_ok _ _ _ _ E).
  - intro F.
    assert (K : exists khz,
               Forall2 (fun cpu n => holds_int fs (cur_freq cpu) n)
                       (filter (fun cpu => exists_ fs (cur_freq cpu)) cpus) khz).
    { induction F as [|cpu l [n Hn] _ [khz IH]]; [exists []; constructor|].
      exists (n :: khz). constructor; assumption. }
    destruct K as [khz K]. rewrite (cpu_freqs_spec fs cpus khz [] K). cbn [rbind].
    destruct (([] ++ map ghz khz)%list); eauto.
  - intro H. destruct (cpu_freqs fs cpus []) as [freqs|e] eqn:E; [|discriminate H].
    destruct (cpu_freqs_ok _ _ _ _ E) as [_ L]. cbn [rbind] in H.
    destruct freqs; [|discriminate H].
    cbn in L. destruct (filter _ cpus); [reflexivity|discriminate L].
  - intro P. assert (K : Forall2 (fun cpu n => holds_int fs (cur_freq cpu) n)
                                 (filter (fun cpu => exists_ fs (cur_freq cpu)) cpus) [])
      by (rewrite P; constructor).
    rewrite (cpu_freqs_spec fs cpus [] [] K). reflexivity.
Qed.

(* ------------------------------------------------------------------ *)
(** ** More on the GPU clocks *)

Lemma holds_int_fun (fs : node) (p : path) (n n' : Z) :
  holds_int fs p n -> holds_int fs p n' -> n = n'.
Proof. intros (t & Ht & Hn) (t' & Ht' & Hn'). congruence. Qed.

Lemma mhz_pos (n : Z) : (0 < mhz n)%Q <-> (0 < n)%Z.
Proof. unfold mhz, Qlt, Qdiv, Qmult, Qinv. cbn. lia. Qed.

(** What the inner loop leaves in [core_clocks] when it does not raise: what
    was there, and the positive readings of the files it read. *)
Lemma core_freqs_ok (fs : node) (ps : list path) : forall cc0 cc1,
  core_freqs fs ps cc0 = Ok cc1 ->
  incl cc0 cc1 /\
  (forall p, In p ps -> exists n, holds_int fs p n /\ ((0 < n)%Z -> In (mhz n) cc1)) /\
  (forall x, In x cc1 -> In x cc0 \/ (0 < x)%Q).
Proof.
  induction ps as [|p ps IH]; intros cc0 cc1; cbn [core_freqs].
  - intro H. injection H as <-. repeat split; auto using incl_refl. intros p [].
  - destruct (read_text fs p) as [t|e] eqn:Ht; cbn [rbind]; [|discriminate].
    destruct (PyStr.int (PyStr.strip t)) as [n|e] eqn:Hn; cbn [rbind]; [|discriminate].
    destruct (0 <? n)%Z eqn:P; intro H; destruct (IH _ _ H) as (I1 & I2 & I3).
    + apply Z.ltb_lt in P. split; [|split].
      * intros x Hx. apply I1, in_or_app. left. exact Hx.
      * intros q [<-|Hq]; [|apply I2, Hq].
        exists n. split; [exists t; auto|]. intros _. apply I1, in_or_app. right. left.
        reflexivity.
      * intros x Hx. destruct (I3 x Hx) as [Hin|Hp]; [|auto].
        apply in_app_or in Hin. destruct Hin as [Hin|[<-|[]]]; [auto|].
        right. apply mhz_pos, P.
    + split; [exact I1|split; [|exact I3]].
      intros q [<-|Hq]; [|apply I2, Hq].
      exists n. split; [exists t; auto|]. intro Q. apply Z.ltb_ge in P. lia.
Qed.

Lemma exists_child (fs : node) (h : path) (n : string) :
  exists_ fs (h ++ [n]) = true -> exists l es, resolve fs h = Some (Dir l es).
Proof.
  unfold exists_. rewrite resolve_app.
  destruct (resolve fs h) as [[t| |l es]|]; cbn; try discriminate. eauto.
Qed.

Lemma gpu_scan_ok (fs : node) (hs : list path) : forall cc0 mem0 fan0 cc mem fan,
  gpu_scan fs hs (cc0, mem0, fan0) = Ok (cc, mem, fan) ->
  incl cc0 cc /\
  (forall x, In x cc -> In x cc0 \/ (0 < x)%Q) /\
  (dirs_listable fs hs ->
   mem = mem0 \/ exists n, mem = Some (mhz n) /\ ((0 < n)%Z -> In (mhz n) cc)).
Proof.
  induction hs as [|h rest IH]; intros cc0 mem0 fan0 cc mem fan; cbn [gpu_scan].
  - intro H. injection H as <- <- <-. repeat split; auto using incl_refl.
  - destruct (core_freqs fs (glob fs h freq_inputs) cc0) as [cc1|e] eqn:C;
      cbn [rbind]; [|discriminate].
    destruct (core_freqs_ok _ _ _ _ C) as (I1 & I2 & I3).
    match goal with |- (fan' <- ?F ;; _)%py = _ -> _ => destruct F as [fan1|e] end;
      cbn [rbind]; [|discriminate].
    destruct (exists_ fs (h ++ ["freq2_input"])) eqn:Em.
    + destruct (read_text fs (h ++ ["freq2_input"])) as [t|e] eqn:Ht;
        cbn [rbind]; [|discriminate].
      destruct (scaled t 1000000) as [q|e] eqn:Hs; cbn [rbind]; [|discriminate].
      destruct (scaled_ok _ _ _ Hs) as (n & Hn & ->). fold (mhz n).
      intro H. destruct (IH _ _ _ _ _ _ H) as (J1 & J2 & J3).
      split; [intros x Hx; apply J1, I1, Hx|].
      split; [intros x Hx; destruct (J2 x Hx) as [Hin|Hp]; auto|].
      intro L.
      assert (L' : dirs_listable fs rest)
        by (intros h' l es Hin; apply L; right; exact Hin).
      destruct (J3 L') as [->|K]; [|right; exact K].
      right. exists n. split; [reflexivity|]. intro P. apply J1.
      destruct (exists_child _ _ _ Em) as (l & es & R).
      pose proof (L h l es (or_introl eq_refl) R) as ->.
      assert (G : In (h ++ ["freq2_input"]) (glob fs h freq_inputs))
        by (eapply exists_glob; [exact R|reflexivity|exact Em]).
      destruct (I2 _ G) as (n' & Hn' & Hin).
      assert (n' = n) by (eapply holds_int_fun; [exact Hn'|exists t; auto]). subst n'.
      apply Hin, P.
    + cbn [rbind]. intro H. destruct (IH _ _ _ _ _ _ H) as (J1 & J2 & J3).
      split; [intros x Hx; apply J1, I1, Hx|].
      split; [intros x Hx; destruct (J2 x Hx) as [Hin|Hp]; auto|].
      intro L. apply J3. intros h' l es Hin. apply L. right. exact Hin.
Qed.

(** X11.  The memory clock file [freq2_input] is also one of the
    [freq*_input] channels over which the core clock is the maximum.  So,
    when the GPU directories can be listed, the core clock that
    [read_gpu_clocks_and_fan] returns is never below a positive memory clock
    that it returns with it. *)
Theorem X11_core_clock_not_below_memory_clock :
  forall (fs : node) (core : option Q) (mem : Q) (fan : option Q),
    read_gpu_clocks_and_fan fs = Ok (core, Some mem, fan) ->
    dirs_listable fs GPU_HWMONS ->
    (0 < mem)%Q ->
    exists c, core = Some c /\ (mem <= c)%Q.
Proof.
  intros fs core mem fan H L P. unfold read_gpu_clocks_and_fan in H.
  destruct (gpu_scan fs GPU_HWMONS ([], None, None)) as [[[cc m] f]|e] eqn:E;
    cbn [rbind] in H; [|discriminate].
  injection H as <- -> <-.
  destruct (gpu_scan_ok _ _ _ _ _ _ _ _ E) as (_ & _ & K).
  destruct (K L) as [N|(n & N & Hin)]; [discriminate|].
  assert (M : mem = mhz n) by congruence. subst mem.
  apply (proj1 (mhz_pos n)) in P. specialize (Hin P).
  destruct cc as [|x l]; [destruct Hin|].
  exists (max_list x l). split; [reflexivity|].
  apply (proj2 (max_list_spec l x)). exact Hin.
Qed.

Lemma X11_witness :
  read_gpu_clocks_and_fan fs_two_gpus
  = Ok (Some (mhz 1000000000), Some (mhz 1000000000), Some (inject_Z 1200)) /\
  exists c, Some (mhz 1000000000) = Some c /\ (mhz 1000000000 <= c)%Q.
Proof.
  split; [reflexivity|].
  apply (X11_core_clock_not_below_memory_clock fs_two_gpus _ _ (Some (inject_Z 1200))).
  - reflexivity.
  - intros h l es [<-|[<-|[]]] R; cbn in R; injection R as <- _; reflexivity.
  - reflexivity.
Defined.

Lemma gpu_core_positive (fs : node) (c : Q) (mem fan : option Q) :
  read_gpu_clocks_and_fan fs = Ok (Some c, mem, fan) -> (0 < c)%Q.
Proof.
  unfold read_gpu_clocks_and_fan.
  destruct (gpu_scan fs GPU_HWMONS ([], None, None)) as [[[cc m] f]|e] eqn:E;
    cbn [rbind]; [|discriminate].
  destruct (gpu_scan_ok _ _ _ _ _ _ _ _ E) as (_ & K & _).
  destruct cc as [|x l]; [discriminate|]. intro H. injection H as <- _ _.
  destruct (K _ (proj1 (max_list_spec l x))) as [[]|P]. exact P.
Qed.

Lemma track_positive (q : Q) (s : series) :
  (0 < q)%Q -> (forall a, s_min s = Some a -> (0 < a)%Q) ->
  forall a, s_min (track q s) = Some a -> (0 < a)%Q.
Proof.
  intros Hq P a. cbn. destruct (s_min s) as [b|] eqn:E; intro H; injection H as <-.
  - destruct (min2_cases b q) as [-> | ->]; [apply P; reflexivity|exact Hq].
  - exact Hq.
Qed.

Lemma update_core_positive (fs : node) (st : state) :
  (forall a, s_min (st gpu_clk) = Some a -> (0 < a)%Q) ->
  forall a, s_min (fst (update fs st) gpu_clk) = Some a -> (0 < a)%Q.
Proof.
  unfold update.
  apply (update_rule (poll fs)
           (fun x y => (forall a, s_min (x gpu_clk) = Some a -> (0 < a)%Q) ->
                       forall a, s_min (y gpu_clk) = Some a -> (0 < a)%Q)); clear st; auto.
  - intros cpu key m st _ [K|K]; injection K as -> ->; unfold cpu_temp;
      destruct (dict_get cpu _) as [[t c]|]; auto.
  - intros clk st _. unfold clock. destruct clk as [q|]; auto.
    destruct (nonzero (Some q)); auto.
  - intros gpu key m st _ [K|[K|K]]; injection K as -> ->; unfold gpu_temp_row;
      destruct (dict_get gpu _) as [[t c]|]; auto.
  - intros gclk gmemclk gfan st E P. unfold clock. destruct gclk as [q|]; auto.
    destruct (nonzero (Some q)); auto.
    apply track_positive; [|exact P]. cbn in E. apply (gpu_core_positive fs q _ _ E).
  - intros gclk gmemclk gfan st _. unfold clock. destruct gmemclk as [q|]; auto.
    destruct (nonzero (Some q)); auto.
  - intros gclk gmemclk gfan st _. unfold fan_row. destruct gfan; auto.
  - intros d st _. unfold nvme_row. destruct d as [|[k [t c]] d]; auto.
Qed.

(** X12.  Whatever the sensor files hold, the GPU core clock row never shows
    a value that is zero or negative: after any number of ticks its minimum,
    its maximum and its current value are positive as soon as they are set. *)
Theorem X12_gpu_core_clock_row_is_positive :
  forall (fss : list node) (lo hi cur : Q),
    numbers (ticks fss initial gpu_clk) = (Some lo, Some hi, Some cur) ->
    (0 < lo)%Q /\ (0 < hi)%Q /\ (0 < cur)%Q.
Proof.
  intros fss lo hi cur H.
  assert (P : forall a, s_min (ticks fss initial gpu_clk) = Some a -> (0 < a)%Q).
  { clear. induction fss as [|fs fss IH] using rev_ind; [discriminate|].
    rewrite ticks_snoc. apply update_core_positive, IH. }
  destruct (ticks_bracketed fss gpu_clk) as [N|(a & c & b & E & L1 & L2)];
    [congruence|].
  rewrite E in H. injection H as -> -> ->.
  apply numbers_inv in E. destruct E as (Emin & _ & _).
  pose proof (P _ Emin) as Plo.
  repeat split; [exact Plo| |].
  - eapply Qlt_le_trans; [exact Plo|]. eapply Qle_trans; eassumption.
  - eapply Qlt_le_trans; eassumption.
Qed.

Lemma X12_witness :
  (0 < mhz 500000000)%Q /\ (0 < mhz 500000000)%Q /\ (0 < mhz 500000000)%Q.
Proof.
  apply (X12_gpu_core_clock_row_is_positive [fs_gpu_idle]). reflexivity.
Defined.

(* ------------------------------------------------------------------ *)
(** ** More on the lookup *)

(** The loop over the database ends where it returns or raises: lines that
    follow are not looked at. *)
Lemma pci_scan_app (vendor device : string) (lines more : list string) :
  forall cv out,
    pci_scan vendor device cv lines = out -> out <> Ok None ->
    pci_scan vendor device cv (lines ++ more) = out.
Proof.
  induction lines as [|line rest IH]; intros cv out; cbn [pci_scan app].
  - intros <- N. contradiction N. reflexivity.
  - destruct (pci_line vendor device cv line) as [[cv'|r]|e]; cbn [rbind]; auto.
Qed.

(** X13.  [lookup_pci_name] stops at the first line that makes it return a
    name or raise: a database that continues the lines of another one gives
    the same name, and the same exception, whatever the added lines hold. *)
Theorem X13_lookup_ignores_what_follows_a_match :
  forall (fs fs' : node) (vendor device text text' : string) (more : list string)
         (out : result (option string)),
    read_text fs PCI_IDS = Ok text ->
    read_text fs' PCI_IDS = Ok text' ->
    PyStr.splitlines text' = PyStr.splitlines text ++ more ->
    lookup_pci_name fs vendor device = out ->
    out <> Ok None ->
    lookup_pci_name fs' vendor device = out.
Proof.
  intros fs fs' vendor device text text' more out T T' S H N.
  unfold lookup_pci_name in *.
  rewrite (read_text_exists _ _ _ T) in H. rewrite (read_text_exists _ _ _ T').
  rewrite T in H. rewrite T'. cbn [negb rbind] in *. rewrite S.
  apply pci_scan_app; assumption.
Qed.

Lemma X13_witness :
  lookup_pci_name (pci_root db_sample_then_space) "10de" "1234"
  = Ok (Some "NVIDIA Corporation Some GPU") /\
  lookup_pci_name (pci_root db_sample_then_space) "8086" "1234" = Raise IndexError.
Proof.
  split; [|reflexivity].
  apply (X13_lookup_ignores_what_follows_a_match
           (pci_root db_sample) (pci_root db_sample_then_space) "10de" "1234"
           db_sample db_sample_then_space [" "]);
    try reflexivity.
  discriminate.
Defined.
